(** * Register-level model of the STM32F4 peripheral library

    Shallow embedding of [rcc_aj_stm32f4.c] (clock tree, MCO pins, SysTick
    delays) and [usart_aj_stm32f4.c] (USART bring-up).  Registers are 32-bit
    words held as [Z]; every store wraps modulo [2^32].  A peripheral block
    is a record of its registers, reached through a typed pointer, and a C
    statement [REG |= e] is a state transformer built from a register lens. *)

From Stdlib Require Import ZArith Lia List Bool.
Import ListNotations.
Local Open Scope Z_scope.
Local Open Scope bool_scope.

(** ** 32-bit unsigned arithmetic *)

Definition u32 (x : Z) : Z := x mod 2 ^ 32.

(** [~x] on a 32-bit operand. *)
Definition not32 (x : Z) : Z := u32 (Z.lnot x).

(** [x << n] and [x >> n] on 32-bit operands.  C leaves a shift count
    outside [0, 32) undefined; the model returns 0 there, which is what the
    Cortex-M register-controlled shifts produce. *)
Definition shl32 (x n : Z) : Z :=
  if (0 <=? n) && (n <? 32) then u32 (Z.shiftl x n) else 0.

Definition shr32 (x n : Z) : Z :=
  if (0 <=? n) && (n <? 32) then Z.shiftr (u32 x) n else 0.

Declare Scope c_scope.
Delimit Scope c_scope with C.
Notation "x << n" := (shl32 x n) (at level 34, left associativity) : c_scope.
Notation "x >> n" := (shr32 x n) (at level 34, left associativity) : c_scope.
Notation "x .& y" := (Z.land x y) (at level 41, left associativity) : c_scope.
Notation "x .| y" := (Z.lor x y) (at level 42, left associativity) : c_scope.
Notation "!~ x" := (not32 x) (at level 30, right associativity) : c_scope.
Local Open Scope c_scope.

(** The value of the [w]-bit field of [r] that starts at bit [pos]. *)
Definition field (pos w r : Z) : Z := Z.shiftr r pos mod 2 ^ w.

(** ** Register blocks *)

Record RCC_TypeDef := mkRCC {
  CR : Z; PLLCFGR : Z; CFGR : Z; AHB1ENR : Z; APB1ENR : Z; APB2ENR : Z }.

Record GPIO_TypeDef := mkGPIO {
  MODER : Z; OTYPER : Z; OSPEEDR : Z; PUPDR : Z; AFR : Z -> Z }.

Record USART_TypeDef := mkUSART { BRR : Z; CR1 : Z; CR2 : Z }.

Record SysTick_Type := mkSysTick { CTRL : Z; LOAD : Z; VAL : Z }.

(** The register file.  [GPIO] and [USART] are indexed by the pointer value
    the C code dereferences, so two names for one port alias as they do on
    the chip; blocks of different types never overlap. *)
Record Regs := mkRegs {
  RCC : RCC_TypeDef;
  GPIO : Z -> GPIO_TypeDef;
  USART : Z -> USART_TypeDef;
  SysTick : SysTick_Type }.

Definition upd {A : Type} (f : Z -> A) (k : Z) (v : A) : Z -> A :=
  fun k' => if k' =? k then v else f k'.

Definition with_RCC (f : RCC_TypeDef -> RCC_TypeDef) (s : Regs) : Regs :=
  mkRegs (f (RCC s)) (GPIO s) (USART s) (SysTick s).
Definition with_GPIO (p : Z) (f : GPIO_TypeDef -> GPIO_TypeDef) (s : Regs) : Regs :=
  mkRegs (RCC s) (upd (GPIO s) p (f (GPIO s p))) (USART s) (SysTick s).
Definition with_USART (p : Z) (f : USART_TypeDef -> USART_TypeDef) (s : Regs) : Regs :=
  mkRegs (RCC s) (GPIO s) (upd (USART s) p (f (USART s p))) (SysTick s).
Definition with_SysTick (f : SysTick_Type -> SysTick_Type) (s : Regs) : Regs :=
  mkRegs (RCC s) (GPIO s) (USART s) (f (SysTick s)).

(** A register as the C code names it: how to load it and how to store it. *)
Record reg := mkReg { rd : Regs -> Z; wr : Z -> Regs -> Regs }.

Definition RCC_CR : reg :=
  mkReg (fun s => CR (RCC s))
        (fun v => with_RCC (fun r => mkRCC v (PLLCFGR r) (CFGR r) (AHB1ENR r) (APB1ENR r) (APB2ENR r))).
Definition RCC_PLLCFGR : reg :=
  mkReg (fun s => PLLCFGR (RCC s))
        (fun v => with_RCC (fun r => mkRCC (CR r) v (CFGR r) (AHB1ENR r) (APB1ENR r) (APB2ENR r))).
Definition RCC_CFGR : reg :=
  mkReg (fun s => CFGR (RCC s))
        (fun v => with_RCC (fun r => mkRCC (CR r) (PLLCFGR r) v (AHB1ENR r) (APB1ENR r) (APB2ENR r))).
Definition RCC_AHB1ENR : reg :=
  mkReg (fun s => AHB1ENR (RCC s))
        (fun v => with_RCC (fun r => mkRCC (CR r) (PLLCFGR r) (CFGR r) v (APB1ENR r) (APB2ENR r))).
Definition RCC_APB1ENR : reg :=
  mkReg (fun s => APB1ENR (RCC s))
        (fun v => with_RCC (fun r => mkRCC (CR r) (PLLCFGR r) (CFGR r) (AHB1ENR r) v (APB2ENR r))).
Definition RCC_APB2ENR : reg :=
  mkReg (fun s => APB2ENR (RCC s))
        (fun v => with_RCC (fun r => mkRCC (CR r) (PLLCFGR r) (CFGR r) (AHB1ENR r) (APB1ENR r) v)).

Definition GPIO_MODER (p : Z) : reg :=
  mkReg (fun s => MODER (GPIO s p))
        (fun v => with_GPIO p (fun g => mkGPIO v (OTYPER g) (OSPEEDR g) (PUPDR g) (AFR g))).
Definition GPIO_OTYPER (p : Z) : reg :=
  mkReg (fun s => OTYPER (GPIO s p))
        (fun v => with_GPIO p (fun g => mkGPIO (MODER g) v (OSPEEDR g) (PUPDR g) (AFR g))).
Definition GPIO_OSPEEDR (p : Z) : reg :=
  mkReg (fun s => OSPEEDR (GPIO s p))
        (fun v => with_GPIO p (fun g => mkGPIO (MODER g) (OTYPER g) v (PUPDR g) (AFR g))).
Definition GPIO_PUPDR (p : Z) : reg :=
  mkReg (fun s => PUPDR (GPIO s p))
        (fun v => with_GPIO p (fun g => mkGPIO (MODER g) (OTYPER g) (OSPEEDR g) v (AFR g))).
Definition GPIO_AFR (p i : Z) : reg :=
  mkReg (fun s => AFR (GPIO s p) i)
        (fun v => with_GPIO p (fun g => mkGPIO (MODER g) (OTYPER g) (OSPEEDR g) (PUPDR g) (upd (AFR g) i v))).

Definition USART_BRR (p : Z) : reg :=
  mkReg (fun s => BRR (USART s p))
        (fun v => with_USART p (fun u => mkUSART v (CR1 u) (CR2 u))).
Definition USART_CR1 (p : Z) : reg :=
  mkReg (fun s => CR1 (USART s p))
        (fun v => with_USART p (fun u => mkUSART (BRR u) v (CR2 u))).
Definition USART_CR2 (p : Z) : reg :=
  mkReg (fun s => CR2 (USART s p))
        (fun v => with_USART p (fun u => mkUSART (BRR u) (CR1 u) v)).

Definition SysTick_CTRL : reg :=
  mkReg (fun s => CTRL (SysTick s))
        (fun v => with_SysTick (fun t => mkSysTick v (LOAD t) (VAL t))).
Definition SysTick_LOAD : reg :=
  mkReg (fun s => LOAD (SysTick s))
        (fun v => with_SysTick (fun t => mkSysTick (CTRL t) v (VAL t))).
Definition SysTick_VAL : reg :=
  mkReg (fun s => VAL (SysTick s))
        (fun v => with_SysTick (fun t => mkSysTick (CTRL t) (LOAD t) v)).

(** ** Statements *)

Definition stmt := Regs -> Regs.

(** [r = e;], [r |= e;] and [r &= e;].  The right-hand side is evaluated in
    the state before the store, and the stored word is truncated to 32 bits. *)
Definition assign (r : reg) (e : Regs -> Z) : stmt :=
  fun s => wr r (u32 (e s)) s.
Definition or_assign (r : reg) (e : Regs -> Z) : stmt :=
  fun s => wr r (u32 (rd r s .| e s)) s.
Definition and_assign (r : reg) (e : Regs -> Z) : stmt :=
  fun s => wr r (u32 (rd r s .& e s)) s.
Definition seq (c1 c2 : stmt) : stmt := fun s => c2 (c1 s).
Definition skip : stmt := fun s => s.
Definition when (b : bool) (c : stmt) : stmt := if b then c else skip.

Notation "r ::= e" := (assign r e) (at level 60, no associativity) : c_scope.
Notation "r |= e" := (or_assign r e) (at level 60, no associativity) : c_scope.
Notation "r &= e" := (and_assign r e) (at level 60, no associativity) : c_scope.
Notation "c1 ;; c2" := (seq c1 c2) (at level 65, right associativity) : c_scope.
Notation "'#' v" := (fun _ : Regs => v) (at level 59, only parsing) : c_scope.

(** ** Headers that are not part of the sources *)

(** The vendor's device header ([stm32f407xx.h], [core_cm4.h]): bit positions,
    field masks, peripheral base pointers and structure sizes.  The library
    is written against these names only, so they are taken as parameters. *)
Class DeviceHeader := {
  RCC_AHB1ENR_GPIOAEN_Pos : Z;
  RCC_AHB1ENR_GPIOCEN_Pos : Z;
  RCC_APB1ENR_USART2EN_Pos : Z;
  RCC_APB2ENR_USART1EN_Pos : Z;
  RCC_CR_HSION_Pos : Z;
  RCC_CR_HSIRDY_Pos : Z;
  RCC_CR_HSEON_Pos : Z;
  RCC_CR_HSERDY_Pos : Z;
  RCC_CR_PLLON_Pos : Z;
  RCC_CR_PLLRDY_Pos : Z;
  RCC_PLLCFGR_PLLM_Pos : Z;
  RCC_PLLCFGR_PLLM_Msk : Z;
  RCC_PLLCFGR_PLLN_Pos : Z;
  RCC_PLLCFGR_PLLN_Msk : Z;
  RCC_PLLCFGR_PLLP_Pos : Z;
  RCC_PLLCFGR_PLLP_Msk : Z;
  RCC_PLLCFGR_PLLQ_Pos : Z;
  RCC_PLLCFGR_PLLQ_Msk : Z;
  RCC_PLLCFGR_PLLSRC_Pos : Z;
  RCC_PLLCFGR_PLLSRC_Msk : Z;
  RCC_CFGR_SW_Pos : Z;
  RCC_CFGR_SWS_Pos : Z;
  RCC_CFGR_HPRE_Pos : Z;
  RCC_CFGR_HPRE_Msk : Z;
  RCC_CFGR_PPRE1_Msk : Z;
  RCC_CFGR_PPRE2_Msk : Z;
  RCC_CFGR_RTCPRE_Msk : Z;
  RCC_CFGR_MCO1_Pos : Z;
  RCC_CFGR_MCO1PRE_Pos : Z;
  RCC_CFGR_MCO2PRE_Pos : Z;
  RCC_CFGR_MCO2_Pos : Z;
  GPIO_MODER_MODER8_Pos : Z;
  GPIO_MODER_MODER8_Msk : Z;
  GPIO_MODER_MODER9_Pos : Z;
  GPIO_MODER_MODER9_Msk : Z;
  GPIO_OSPEEDR_OSPEED8_Pos : Z;
  GPIO_OSPEEDR_OSPEED9_Pos : Z;
  SysTick_CTRL_ENABLE_Pos : Z;
  SysTick_CTRL_TICKINT_Pos : Z;
  SysTick_CTRL_CLKSOURCE_Pos : Z;
  SysTick_CTRL_COUNTFLAG_Pos : Z;
  USART_CR1_RE_Pos : Z;
  USART_CR1_PCE_Pos : Z;
  USART_CR1_PS_Pos : Z;
  USART_CR1_M_Pos : Z;
  USART_CR1_OVER8_Pos : Z;
  USART_CR1_UE_Pos : Z;
  USART_CR2_STOP_Pos : Z;
  GPIOA : Z; GPIOB : Z; GPIOC : Z;
  USART1 : Z; USART2 : Z; USART3 : Z; UART4 : Z; UART5 : Z; USART6 : Z;
  sizeof_GPIO_TypeDef : Z;
  sizeof_USART_TypeDef : Z }.

(** The values the vendor ships for the STM32F407; used for the concrete
    runs below. *)
Definition stm32f407xx : DeviceHeader := {|
  RCC_AHB1ENR_GPIOAEN_Pos := 0;
  RCC_AHB1ENR_GPIOCEN_Pos := 2;
  RCC_APB1ENR_USART2EN_Pos := 17;
  RCC_APB2ENR_USART1EN_Pos := 4;
  RCC_CR_HSION_Pos := 0;
  RCC_CR_HSIRDY_Pos := 1;
  RCC_CR_HSEON_Pos := 16;
  RCC_CR_HSERDY_Pos := 17;
  RCC_CR_PLLON_Pos := 24;
  RCC_CR_PLLRDY_Pos := 25;
  RCC_PLLCFGR_PLLM_Pos := 0;
  RCC_PLLCFGR_PLLM_Msk := 0x3F;
  RCC_PLLCFGR_PLLN_Pos := 6;
  RCC_PLLCFGR_PLLN_Msk := 0x7FC0;
  RCC_PLLCFGR_PLLP_Pos := 16;
  RCC_PLLCFGR_PLLP_Msk := 0x30000;
  RCC_PLLCFGR_PLLQ_Pos := 24;
  RCC_PLLCFGR_PLLQ_Msk := 0x0F000000;
  RCC_PLLCFGR_PLLSRC_Pos := 22;
  RCC_PLLCFGR_PLLSRC_Msk := 0x00400000;
  RCC_CFGR_SW_Pos := 0;
  RCC_CFGR_SWS_Pos := 2;
  RCC_CFGR_HPRE_Pos := 4;
  RCC_CFGR_HPRE_Msk := 0xF0;
  RCC_CFGR_PPRE1_Msk := 0x1C00;
  RCC_CFGR_PPRE2_Msk := 0xE000;
  RCC_CFGR_RTCPRE_Msk := 0x1F0000;
  RCC_CFGR_MCO1_Pos := 21;
  RCC_CFGR_MCO1PRE_Pos := 24;
  RCC_CFGR_MCO2PRE_Pos := 27;
  RCC_CFGR_MCO2_Pos := 30;
  GPIO_MODER_MODER8_Pos := 16;
  GPIO_MODER_MODER8_Msk := 0x30000;
  GPIO_MODER_MODER9_Pos := 18;
  GPIO_MODER_MODER9_Msk := 0xC0000;
  GPIO_OSPEEDR_OSPEED8_Pos := 16;
  GPIO_OSPEEDR_OSPEED9_Pos := 18;
  SysTick_CTRL_ENABLE_Pos := 0;
  SysTick_CTRL_TICKINT_Pos := 1;
  SysTick_CTRL_CLKSOURCE_Pos := 2;
  SysTick_CTRL_COUNTFLAG_Pos := 16;
  USART_CR1_RE_Pos := 2;
  USART_CR1_PCE_Pos := 10;
  USART_CR1_PS_Pos := 9;
  USART_CR1_M_Pos := 12;
  USART_CR1_OVER8_Pos := 15;
  USART_CR1_UE_Pos := 13;
  USART_CR2_STOP_Pos := 12;
  GPIOA := 0x40020000; GPIOB := 0x40020400; GPIOC := 0x40020800;
  USART1 := 0x40011000; USART2 := 0x40004400; USART3 := 0x40004800;
  UART4 := 0x40004C00; UART5 := 0x40005000; USART6 := 0x40011400;
  sizeof_GPIO_TypeDef := 40;
  sizeof_USART_TypeDef := 28 |}.

(** Modelled from the spec: [rcc_aj_stm32f4.h] is missing; the spec gives the
    largest reload value as the timer's 24-bit full scale. *)
Definition SYSTICK_RELOAD_VAL_MAX : Z := 0x00FFFFFF.

(** Modelled from the spec: the RCC result flag of the missing
    [rcc_aj_stm32f4.h], "a two-valued result, success or failure". *)
Inductive rcc_flag : Set := RCC_SUCCESS_FLAG | RCC_FAIL_FLAG.

(** Modelled from the spec: the USART status code of the missing
    [usart_aj_stm32f4.h], "a two-valued result, success or failure". *)
Inductive usart_status_e_t : Set := USART_STATUS_SUCCESS | USART_STATUS_FAIL.

(** The library's own headers ([rcc_aj_stm32f4.h], [usart_aj_stm32f4.h]) are
    missing as well; their enumerators are parameters too.  Selectors that
    the code shifts into a register are plain integers here, as in C. *)
Class LibHeader := {
  MCO_CHANNEL_1 : Z;
  MCO_CHANNEL_2 : Z;
  SYS_CLOCK_SOURCE_HSI : Z;
  SYS_CLOCK_SOURCE_HSE : Z;
  SYS_CLOCK_SOURCE_PLL : Z;
  PLL_CLOCK_SRC_HSI : Z;
  PLL_CLOCK_SRC_HSE : Z;
  USART_TXRX_MODE_RX_EN : Z;
  USART_TXRX_MODE_TX_EN : Z;
  USART_TXRX_MODE_RX_TX_BOTH_EN : Z;
  USART_OVERSAMPLE_BY_16 : Z;
  USART_OVERSAMPLE_BY_8 : Z;
  USART_COMPATIBLE_MODE_ASYNC : Z;
  USART_COMPATIBLE_MODE_SYNC : Z }.

(** An assignment that agrees with the register encodings the code relies on
    (the clock selectors are written to the SW and PLLSRC fields unchanged,
    the transmit/receive mode to the RE/TE pair); used for the concrete runs. *)
Definition aj_headers : LibHeader := {|
  MCO_CHANNEL_1 := 0;
  MCO_CHANNEL_2 := 1;
  SYS_CLOCK_SOURCE_HSI := 0;
  SYS_CLOCK_SOURCE_HSE := 1;
  SYS_CLOCK_SOURCE_PLL := 2;
  PLL_CLOCK_SRC_HSI := 0;
  PLL_CLOCK_SRC_HSE := 1;
  USART_TXRX_MODE_RX_EN := 1;
  USART_TXRX_MODE_TX_EN := 2;
  USART_TXRX_MODE_RX_TX_BOTH_EN := 3;
  USART_OVERSAMPLE_BY_16 := 0;
  USART_OVERSAMPLE_BY_8 := 1;
  USART_COMPATIBLE_MODE_ASYNC := 0;
  USART_COMPATIBLE_MODE_SYNC := 1 |}.

(** PLL divider/multiplier record; the caller owns it and passes a pointer. *)
Record RCC_PLL_CONFIG_PARAMS_t := mkPLL { PLLM : Z; PLLN : Z; PLLP : Z; PLLQ : Z }.

Record system_bus_clk_cfg_t := mkBusCfg {
  ppre1_apb1_pre : Z; ppre2_apb2_pre : Z; rtcpre_pre : Z }.

Record usart_config_st_t := mkUsartCfg {
  instance : Z;
  txrxmode : Z;
  parity_en : Z;
  parity : Z;
  wordlen : Z;
  oversample : Z;
  stopbits : Z;
  compatmode : Z;
  baudrate : Z }.

(** ** Runs that may wait on the hardware *)

Inductive run (A : Type) : Type :=
| Done (a : A)     (* the routine got this far *)
| Stuck            (* a busy-wait did not see its flag within the fuel *)
| Trap.            (* a null pointer was dereferenced *)
Arguments Done {A} a.
Arguments Stuck {A}.
Arguments Trap {A}.

Definition bind {A B : Type} (m : run A) (k : A -> run B) : run B :=
  match m with Done a => k a | Stuck => Stuck | Trap => Trap end.

Notation "x <- m ;' k" := (bind m (fun x => k))
  (at level 70, m at next level, right associativity) : c_scope.

(** ** rcc_aj_stm32f4.c *)

Section Rcc.
Context {dh : DeviceHeader} {lh : LibHeader}.

Definition MCO_Config (mco_channel mco_clock_source mco_prescaler : Z) : stmt :=
  if MCO_CHANNEL_1 =? mco_channel then
    RCC_AHB1ENR |= #(1 << RCC_AHB1ENR_GPIOAEN_Pos) ;;
    GPIO_MODER GPIOA |= (fun s => (rd (GPIO_MODER GPIOA) s .& !~ GPIO_MODER_MODER8_Msk)
                                  .| (2 << GPIO_MODER_MODER8_Pos)) ;;
    GPIO_OSPEEDR GPIOA |= #(3 << GPIO_OSPEEDR_OSPEED8_Pos) ;;
    RCC_CFGR |= (fun s => (rd RCC_CFGR s .& !~ (3 << RCC_CFGR_MCO1_Pos))
                          .| (mco_clock_source << RCC_CFGR_MCO1_Pos)) ;;
    RCC_CFGR |= (fun s => (rd RCC_CFGR s .& !~ (7 << RCC_CFGR_MCO1PRE_Pos))
                          .| (mco_prescaler << RCC_CFGR_MCO1PRE_Pos))
  else if MCO_CHANNEL_2 =? mco_channel then
    RCC_AHB1ENR |= #(1 << RCC_AHB1ENR_GPIOCEN_Pos) ;;
    GPIO_MODER GPIOC |= (fun s => (rd (GPIO_MODER GPIOC) s .& !~ GPIO_MODER_MODER9_Msk)
                                  .| (2 << GPIO_MODER_MODER9_Pos)) ;;
    GPIO_OSPEEDR GPIOC |= #(3 << GPIO_OSPEEDR_OSPEED9_Pos) ;;
    RCC_CFGR |= (fun s => (rd RCC_CFGR s .& !~ (3 << RCC_CFGR_MCO2_Pos))
                          .| (mco_clock_source << RCC_CFGR_MCO2_Pos)) ;;
    RCC_CFGR |= (fun s => (rd RCC_CFGR s .& !~ (7 << RCC_CFGR_MCO2PRE_Pos))
                          .| (mco_prescaler << RCC_CFGR_MCO2PRE_Pos))
  else skip.

(** What the chip does to the registers between two loads of a busy-wait
    (ready flags, switch status).  Nothing is assumed about it. *)
Variable hw : Regs -> Regs.

(** [while (!cond);] *)
Fixpoint wait_until (fuel : nat) (cond : Regs -> bool) (s : Regs) : run Regs :=
  match fuel with
  | O => Stuck
  | S fuel' => if cond s then Done s else wait_until fuel' cond (hw s)
  end.

(** [for (i = 0; i < n; i++);] touches no register. *)
Definition settle (n : Z) : stmt := skip.

(** The switch-on writes of lines 141, 152, 172 and 182. *)
Definition switch_on_HSI : stmt :=
  RCC_CR |= #((1 << RCC_CR_HSION_Pos) .& !~ (1 << RCC_CR_HSEON_Pos)
              .& !~ (1 << RCC_CR_PLLON_Pos)).
Definition switch_on_HSE : stmt :=
  RCC_CR |= #((1 << RCC_CR_HSEON_Pos) .& !~ (1 << RCC_CR_HSION_Pos)
              .& !~ (1 << RCC_CR_PLLON_Pos)).

Definition HSI_ready (s : Regs) : bool :=
  negb (((1 << RCC_CR_HSIRDY_Pos) .& rd RCC_CR s) =? 0).
Definition HSE_ready (s : Regs) : bool :=
  negb (((1 << RCC_CR_HSERDY_Pos) .& rd RCC_CR s) =? 0).
Definition PLL_ready (s : Regs) : bool :=
  negb ((((rd RCC_CR s) >> RCC_CR_PLLRDY_Pos) .& 1) =? 0).

(** Line 167: the record's PLLP is rewritten where the caller keeps it. *)
Definition encode_PLLP (p : RCC_PLL_CONFIG_PARAMS_t) : RCC_PLL_CONFIG_PARAMS_t :=
  mkPLL (PLLM p) (PLLN p) (u32 (PLLP p / 2 - 1)) (PLLQ p).

Definition program_PLLCFGR (pll_clock_source : Z) (p : RCC_PLL_CONFIG_PARAMS_t) : stmt :=
  RCC_PLLCFGR &= #(!~ RCC_PLLCFGR_PLLM_Msk .& !~ RCC_PLLCFGR_PLLN_Msk
                   .& !~ RCC_PLLCFGR_PLLP_Msk .& !~ RCC_PLLCFGR_PLLQ_Msk
                   .& !~ RCC_PLLCFGR_PLLSRC_Msk) ;;
  RCC_PLLCFGR |= #((PLLM p << RCC_PLLCFGR_PLLM_Pos) .| (PLLN p << RCC_PLLCFGR_PLLN_Pos)
                   .| (PLLP p << RCC_PLLCFGR_PLLP_Pos) .| (PLLQ p << RCC_PLLCFGR_PLLQ_Pos)
                   .| (pll_clock_source << RCC_PLLCFGR_PLLSRC_Pos)).

(** The routine returns the register file together with the record behind
    [rcc_pll_config_param_t] ([None] is the null pointer). *)
Definition RCC_System_Clock_Source_Config (fuel : nat)
    (system_clock_source pll_clock_source : Z)
    (rcc_pll_config_param_t : option RCC_PLL_CONFIG_PARAMS_t) (s : Regs)
    : run (Regs * option RCC_PLL_CONFIG_PARAMS_t) :=
  sp <- (if SYS_CLOCK_SOURCE_HSI =? system_clock_source then
           s <- wait_until fuel HSI_ready (switch_on_HSI s) ;'
           Done (s, rcc_pll_config_param_t)
         else if SYS_CLOCK_SOURCE_HSE =? system_clock_source then
           s <- wait_until fuel HSE_ready (switch_on_HSE s) ;'
           Done (s, rcc_pll_config_param_t)
         else if SYS_CLOCK_SOURCE_PLL =? system_clock_source then
           s <- wait_until fuel (fun s => negb (PLL_ready s))
                  ((RCC_CR &= #(!~ (1 << RCC_CR_PLLON_Pos))) s) ;'
           match rcc_pll_config_param_t with
           | None => Trap
           | Some p =>
             let p := encode_PLLP p in
             s <- (if PLL_CLOCK_SRC_HSI =? pll_clock_source then
                     wait_until fuel HSI_ready (switch_on_HSI s)
                   else if PLL_CLOCK_SRC_HSE =? pll_clock_source then
                     wait_until fuel HSE_ready (switch_on_HSE s)
                   else Done s) ;'
             s <- wait_until fuel PLL_ready
                    ((settle 15000 ;;
                      program_PLLCFGR pll_clock_source p ;;
                      settle 15000 ;;
                      RCC_CFGR &= #(!~ RCC_CFGR_HPRE_Msk .& !~ RCC_CFGR_PPRE1_Msk
                                    .& !~ RCC_CFGR_PPRE2_Msk) ;;
                      settle 15000 ;;
                      settle 15000 ;;
                      RCC_CR |= #(1 << RCC_CR_PLLON_Pos)) s) ;'
             Done (s, Some p)
           end
         else Done (s, rcc_pll_config_param_t)) ;'
  let '(s, p) := sp in
  s <- wait_until fuel
         (fun s => (((rd RCC_CFGR s) >> RCC_CFGR_SWS_Pos) .& 3) =? u32 system_clock_source)
         ((RCC_CFGR |= (fun s => (rd RCC_CFGR s .& !~ (3 << RCC_CFGR_SW_Pos))
                                 .| (system_clock_source << RCC_CFGR_SW_Pos))) s) ;'
  Done ((RCC_CFGR &= #(!~ (0xF << RCC_CFGR_HPRE_Pos))) s, p).

Definition system_clock_setting (sys_core_clock : Z)
    (sys_bus_clk_cfg : system_bus_clk_cfg_t) : stmt :=
  RCC_CFGR |= (fun s => (rd RCC_CFGR s .& !~ RCC_CFGR_PPRE1_Msk)
                        .| ppre1_apb1_pre sys_bus_clk_cfg) ;;
  RCC_CFGR |= (fun s => (rd RCC_CFGR s .& !~ RCC_CFGR_PPRE2_Msk)
                        .| ppre2_apb2_pre sys_bus_clk_cfg) ;;
  RCC_CFGR |= (fun s => (rd RCC_CFGR s .& !~ RCC_CFGR_RTCPRE_Msk)
                        .| rtcpre_pre sys_bus_clk_cfg).

Definition systick_config_init (interrupt_mode ticks : Z) (s : Regs) : rcc_flag * Regs :=
  if SYSTICK_RELOAD_VAL_MAX <? u32 (ticks - 1) then (RCC_FAIL_FLAG, s)
  else
    (RCC_SUCCESS_FLAG,
     (SysTick_CTRL ::= #0 ;;
      SysTick_LOAD ::= #(ticks - 1) ;;
      SysTick_VAL ::= #0 ;;
      SysTick_CTRL |= #((1 << SysTick_CTRL_ENABLE_Pos)
                        .| (interrupt_mode << SysTick_CTRL_TICKINT_Pos)
                        .| (1 << SysTick_CTRL_CLKSOURCE_Pos))) s).

End Rcc.

(** ** SysTick busy-wait delays *)

(** The timer as the delay loops drive it.  Both accesses act on the device:
    a store to VAL restarts the count, a load of CTRL hands out the count
    flag and clears it. *)
Record SysTick_port (D : Type) := mkPort {
  store_VAL : Z -> D -> D;
  load_CTRL : D -> Z * D }.
Arguments store_VAL {D} _ _ _.
Arguments load_CTRL {D} _ _.

Inductive systick_op : Set :=
| Store_VAL (v : Z)
| Load_CTRL (v : Z).

(** A port that also writes down every access, oldest first. *)
Definition traced {D : Type} (port : SysTick_port D) : SysTick_port (D * list systick_op) :=
  mkPort _
    (fun v dl => (store_VAL port v (fst dl), snd dl ++ [Store_VAL v]))
    (fun dl => let (v, d') := load_CTRL port (fst dl) in
               (v, (d', snd dl ++ [Load_CTRL v]))).

Section Delay.
Context {dh : DeviceHeader}.
Context {D : Type} (port : SysTick_port D).

(** [while (!(SysTick->CTRL & (1UL << SysTick_CTRL_COUNTFLAG_Pos)));] *)
Fixpoint wait_COUNTFLAG (fuel : nat) (d : D) : run D :=
  match fuel with
  | O => Stuck
  | S fuel' =>
    let (v, d') := load_CTRL port d in
    if negb ((v .& (1 << SysTick_CTRL_COUNTFLAG_Pos)) =? 0) then Done d'
    else wait_COUNTFLAG fuel' d'
  end.

(** [while (ms_delay--) { SysTick->VAL = 0; while (...); }] *)
Fixpoint delay_ms_loop (fuel : nat) (ms_delay : Z) (d : D) : run D :=
  match fuel with
  | O => Stuck
  | S fuel' =>
    if ms_delay =? 0 then Done d
    else
      let ms_delay := u32 (ms_delay - 1) in
      d <- wait_COUNTFLAG fuel' (store_VAL port 0 d) ;'
      delay_ms_loop fuel' ms_delay d
  end.

Definition delay_ms_systick (fuel : nat) (ms_delay : Z) (d : D) : run D :=
  let ms_delay := u32 (ms_delay * 1000) in
  delay_ms_loop fuel ms_delay d.

Fixpoint delay_us_loop (fuel : nat) (us_delay : Z) (d : D) : run D :=
  match fuel with
  | O => Stuck
  | S fuel' =>
    if us_delay =? 0 then Done d
    else
      let us_delay := u32 (us_delay - 1) in
      d <- wait_COUNTFLAG fuel' (store_VAL port 0 d) ;'
      delay_us_loop fuel' us_delay d
  end.

Definition delay_us_systick (fuel : nat) (us_delay : Z) (d : D) : run D :=
  delay_us_loop fuel us_delay d.

End Delay.

(** The test double of the timer: the count flag comes up after each store
    to VAL and is consumed by the load that sees it.  The state is the
    pending flag. *)
Definition auto_assert {dh : DeviceHeader} : SysTick_port bool :=
  mkPort _
    (fun _ _ => true)
    (fun pending => (if pending then 1 << SysTick_CTRL_COUNTFLAG_Pos else 0, false)).

(** ** usart_aj_stm32f4.c *)

(** *** Pointer subtraction

    When two addresses are a whole number of elements apart, [p - q] is that
    number.  Otherwise C leaves the subtraction undefined and what it yields
    is up to the toolchain: one value where the subtraction is evaluated at
    run time, one where a subtraction of two constants is folded at compile
    time.  The peripheral blocks [usart_config] subtracts are 0x400 bytes
    apart and 28 or 40 bytes long, so most of its subtractions are undefined. *)
Class Toolchain := {
  inexact_ptrdiff : Z -> Z -> Z -> Z;
  inexact_ptrdiff_folded : Z -> Z -> Z -> Z }.

Section PointerSubtraction.
Context {tc : Toolchain}.

(** [p - q] with a run-time operand, on pointers to objects of [size] bytes. *)
Definition ptrdiff (size p q : Z) : Z :=
  if (p - q) mod size =? 0 then (p - q) / size else inexact_ptrdiff size p q.

(** [p - q] where both operands are constants. *)
Definition ptrdiff_folded (size p q : Z) : Z :=
  if (p - q) mod size =? 0 then (p - q) / size else inexact_ptrdiff_folded size p q.

End PointerSubtraction.

(** What GCC and Clang emit for the 32-bit target.  At run time the byte
    distance is shifted right by the power of two in [size] and multiplied by
    the inverse of the odd part of [size] modulo [2^32], which is the quotient
    only when the division is exact; a subtraction of two constants is folded
    to the quotient rounded toward zero. *)

(** A word read as a signed 32-bit integer ([ptrdiff_t]). *)
Definition s32 (x : Z) : Z :=
  let y := u32 x in if y <? 2 ^ 31 then y else y - 2 ^ 32.

Fixpoint trailing_zeros (p : positive) : Z :=
  match p with
  | xO p' => 1 + trailing_zeros p'
  | _ => 0
  end.

(** The inverse of an odd [a] modulo [2^32], by Newton's iteration. *)
Definition inverse32 (a : Z) : Z :=
  let step x := u32 (x * (2 - a * x)) in
  step (step (step (step (step a)))).

Definition exact_division32 (size p q : Z) : Z :=
  match size with
  | Zpos sz =>
    let k := trailing_zeros sz in
    s32 (Z.shiftr (s32 (p - q)) k * inverse32 (Z.shiftr size k))
  | _ => 0
  end.

Definition arm_toolchain : Toolchain := {|
  inexact_ptrdiff := exact_division32;
  inexact_ptrdiff_folded := fun size p q => Z.quot (p - q) size |}.

Section Usart.
Context {dh : DeviceHeader} {lh : LibHeader} {tc : Toolchain}.

(** The file names a port [GPIOx] that it never declares, and computes the
    divisor from a [sys_clock] it never declares, in floating point.  The
    port is a parameter; so are the two words the unreached branch would
    store in BRR. *)
Variable GPIOx : Z.
Variable brr_oversample_16 brr_oversample_8 : usart_config_st_t -> Z.

Definition tx_enabled (usart_cfg : usart_config_st_t) : bool :=
  (USART_TXRX_MODE_TX_EN =? txrxmode usart_cfg)
  || (USART_TXRX_MODE_RX_TX_BOTH_EN =? txrxmode usart_cfg).

(** Line 110 reads [txrxmod]; it is taken as [txrxmode]. *)
Definition rx_enabled (usart_cfg : usart_config_st_t) : bool :=
  (USART_TXRX_MODE_RX_TX_BOTH_EN =? txrxmode usart_cfg)
  || (USART_TXRX_MODE_RX_EN =? txrxmode usart_cfg).

(** Lines 38-59. *)
Definition usart_clock_enable (usart_cfg : usart_config_st_t) : stmt :=
  if (USART1 =? instance usart_cfg) || (USART6 =? instance usart_cfg) then
    let tmp := u32 (Z.quot (ptrdiff sizeof_USART_TypeDef (instance usart_cfg) USART1)
                           (ptrdiff_folded sizeof_USART_TypeDef USART6 USART1)) in
    RCC_APB2ENR |= (fun s => (rd RCC_APB2ENR s .& !~ (3 << RCC_APB2ENR_USART1EN_Pos))
                             .| (1 << (RCC_APB2ENR_USART1EN_Pos + tmp)))
  else
    let tmp := u32 (Z.quot (ptrdiff sizeof_USART_TypeDef (instance usart_cfg) USART2)
                           (ptrdiff_folded sizeof_USART_TypeDef USART3 USART2)) in
    RCC_APB1ENR |= (fun s => (rd RCC_APB1ENR s .& !~ (0xF << RCC_APB1ENR_USART2EN_Pos))
                             .| (1 << (RCC_APB1ENR_USART2EN_Pos + tmp))).

(** Lines 66-68. *)
Definition gpio_clock_enable (GPIOp : Z) : stmt :=
  RCC_AHB1ENR |= #(1 << u32 (Z.quot (ptrdiff sizeof_GPIO_TypeDef GPIOp GPIOA)
                                    (ptrdiff_folded sizeof_GPIO_TypeDef GPIOB GPIOA))).

(** Lines 105-107 and their three siblings. *)
Definition set_alternate_function (af gpio_pin : Z) : stmt :=
  let tmp := gpio_pin / 8 in
  GPIO_AFR GPIOA tmp |= (fun s => (rd (GPIO_AFR GPIOA tmp) s .& !~ (0xF << (gpio_pin * 4)))
                                  .| (af << (gpio_pin * 4))).

Definition mux_pins (af : Z) (usart_cfg : usart_config_st_t)
    (tx_gpio_pin rx_gpio_pin : Z) : stmt :=
  if tx_enabled usart_cfg then set_alternate_function af tx_gpio_pin
  else if rx_enabled usart_cfg then set_alternate_function af rx_gpio_pin
  else skip.

(** The condition of lines 162-163. *)
Definition baud_guard (usart_cfg : usart_config_st_t) : bool :=
  (USART_COMPATIBLE_MODE_ASYNC =? compatmode usart_cfg)
  && (USART_COMPATIBLE_MODE_SYNC =? compatmode usart_cfg).

(** Lines 165-186. *)
Definition program_baud_rate (usart_cfg : usart_config_st_t) : stmt :=
  if USART_OVERSAMPLE_BY_16 =? oversample usart_cfg then
    USART_BRR (instance usart_cfg) ::= #0 ;;
    USART_BRR (instance usart_cfg) |= #(brr_oversample_16 usart_cfg)
  else if USART_OVERSAMPLE_BY_8 =? oversample usart_cfg then
    USART_BRR (instance usart_cfg) ::= #0 ;;
    USART_BRR (instance usart_cfg) |= #(brr_oversample_8 usart_cfg)
  else skip.

(** The unfinished statement of line 189 only loads into a local that is
    never read again; it stores nothing. *)
Definition usart_config (usart_cfg : usart_config_st_t)
    (tx_GPIOx tx_gpio_pin rx_GPIOx rx_gpio_pin : Z) (s : Regs)
    : usart_status_e_t * Regs :=
  let status := USART_STATUS_SUCCESS in
  let body :=
    usart_clock_enable usart_cfg ;;
    gpio_clock_enable tx_GPIOx ;;
    gpio_clock_enable rx_GPIOx ;;
    GPIO_MODER tx_GPIOx |= (fun s => (rd (GPIO_MODER tx_GPIOx) s .& !~ (3 << (tx_gpio_pin * 2)))
                                     .| (2 << (tx_gpio_pin * 2))) ;;
    GPIO_MODER rx_GPIOx |= (fun s => (rd (GPIO_MODER rx_GPIOx) s .& !~ (3 << (rx_gpio_pin * 2)))
                                     .| (2 << (rx_gpio_pin * 2))) ;;
    when (tx_enabled usart_cfg)
      (GPIO_OTYPER GPIOx |= (fun s => rd (GPIO_OTYPER GPIOx) s .& !~ (1 << tx_gpio_pin)) ;;
       GPIO_OSPEEDR GPIOx |= (fun s => (rd (GPIO_OSPEEDR GPIOx) s .& !~ (3 << (tx_gpio_pin * 2)))
                                       .| (3 << (tx_gpio_pin * 2))) ;;
       GPIO_PUPDR GPIOx |= (fun s => rd (GPIO_PUPDR GPIOx) s .& !~ (3 << (tx_gpio_pin * 2)))) ;;
    (if (USART1 =? instance usart_cfg) || (USART2 =? instance usart_cfg)
        || (USART3 =? instance usart_cfg) then
       mux_pins 7 usart_cfg tx_gpio_pin rx_gpio_pin
     else if (UART4 =? instance usart_cfg) || (UART5 =? instance usart_cfg)
             || (USART6 =? instance usart_cfg) then
       mux_pins 8 usart_cfg tx_gpio_pin rx_gpio_pin
     else skip) ;;
    (let tmp := u32 ((txrxmode usart_cfg << USART_CR1_RE_Pos)
                     .| (parity_en usart_cfg << USART_CR1_PCE_Pos)
                     .| (parity usart_cfg << USART_CR1_PS_Pos)
                     .| (wordlen usart_cfg << USART_CR1_M_Pos)
                     .| (oversample usart_cfg << USART_CR1_OVER8_Pos)
                     .| (1 << USART_CR1_UE_Pos)) in
     USART_CR1 (instance usart_cfg) &=
       #(!~ ((3 << USART_CR1_RE_Pos) .| (1 << USART_CR1_PCE_Pos) .| (1 << USART_CR1_PS_Pos)
             .| (1 << USART_CR1_M_Pos) .| (1 << USART_CR1_OVER8_Pos)
             .| (1 << USART_CR1_UE_Pos))) ;;
     USART_CR1 (instance usart_cfg) |= #tmp) ;;
    (let tmp := u32 (stopbits usart_cfg << USART_CR2_STOP_Pos) in
     USART_CR2 (instance usart_cfg) &= #(!~ (3 << USART_CR2_STOP_Pos)) ;;
     USART_CR2 (instance usart_cfg) |= #tmp) ;;
    when (baud_guard usart_cfg) (program_baud_rate usart_cfg)
  in
  (USART_STATUS_SUCCESS, body s).

End Usart.

(** ** Observations and test doubles *)

(** A statement preserves an observation when running it never changes it. *)
Definition preserves {A : Type} (f : Regs -> A) (c : stmt) : Prop :=
  forall s, f (c s) = f s.

(** The run's record, when the run returns. *)
Definition returned_record {A B : Type} (r : run (A * B)) : option B :=
  match r with
  | Done (_, p) => Some p
  | _ => None
  end.

(** A register file with every register clear. *)
Definition blank : Regs :=
  mkRegs (mkRCC 0 0 0 0 0 0)
         (fun _ => mkGPIO 0 0 0 0 (fun _ => 0))
         (fun _ => mkUSART 0 0 0)
         (mkSysTick 0 0 0).

(** The descriptor with its instance pointer replaced. *)
Definition with_instance (i : Z) (c : usart_config_st_t) : usart_config_st_t :=
  mkUsartCfg i (txrxmode c) (parity_en c) (parity c) (wordlen c) (oversample c)
             (stopbits c) (compatmode c) (baudrate c).

(** Bit [to] of [r] made equal to bit [from]. *)
Definition copy_bit (from to r : Z) : Z :=
  if Z.testbit r from then Z.setbit r to else Z.clearbit r to.

(** A chip that answers at once: each ready flag follows its enable bit and
    the switch status follows the switch. *)
Definition responsive {dh : DeviceHeader} (s : Regs) : Regs :=
  with_RCC (fun r =>
    mkRCC (copy_bit RCC_CR_HSION_Pos RCC_CR_HSIRDY_Pos
             (copy_bit RCC_CR_HSEON_Pos RCC_CR_HSERDY_Pos
                (copy_bit RCC_CR_PLLON_Pos RCC_CR_PLLRDY_Pos (CR r))))
          (PLLCFGR r)
          (copy_bit RCC_CFGR_SW_Pos RCC_CFGR_SWS_Pos
             (copy_bit (RCC_CFGR_SW_Pos + 1) (RCC_CFGR_SWS_Pos + 1) (CFGR r)))
          (AHB1ENR r) (APB1ENR r) (APB2ENR r)) s.

(** HSE and PLL already running, HSI ready, system clock on HSI. *)
Definition all_sources_on : Regs :=
  mkRegs (mkRCC 0x01010003 0 0 0 0 0) (GPIO blank) (USART blank) (SysTick blank).

(** HSE and PLL switched on, HSI switched off and not ready. *)
Definition HSI_switched_off : Regs :=
  mkRegs (mkRCC 0x01010000 0 0 0 0 0) (GPIO blank) (USART blank) (SysTick blank).

(** PA8 driven as a plain output (mode 1), everything else clear. *)
Definition pa8_as_output : Regs :=
  mkRegs (RCC blank)
         (upd (GPIO blank) (GPIOA (DeviceHeader := stm32f407xx))
              (mkGPIO 0x00010000 0 0 0 (fun _ => 0)))
         (USART blank) (SysTick blank).

(** One turn of a delay loop on the test double: the store, then the one
    load that finds the flag. *)
Definition poll_then_clear_cycles {dh : DeviceHeader} (n : nat) : list systick_op :=
  concat (repeat [Store_VAL 0; Load_CTRL (1 << SysTick_CTRL_COUNTFLAG_Pos)] n).

(** [systick_deconfig] has an empty body. *)
Definition systick_deconfig : stmt := skip.

(** A timer that never raises the count flag: CTRL always reads 0. *)
Definition halted : SysTick_port unit :=
  mkPort _ (fun _ d => d) (fun d => (0, d)).

(** HSI on, HSE on and ready, system clock on HSE with the AHB prescaler
    field full. *)
Definition running_on_HSE : Regs :=
  mkRegs (mkRCC 0x00030001 0 0xF4 0 0 0) (GPIO blank) (USART blank) (SysTick blank).

(** * Properties *)

(** ** Bit-level facts about the 32-bit operators *)

Lemma u32_small (x : Z) : 0 <= x < 2 ^ 32 -> u32 x = x.
Proof. intros H. unfold u32. now apply Z.mod_small. Qed.

Lemma u32_bits (x i : Z) : 0 <= i < 32 -> Z.testbit (u32 x) i = Z.testbit x i.
Proof. intros H. unfold u32. apply Z.mod_pow2_bits_low. lia. Qed.

Lemma not32_bits (x i : Z) :
  0 <= i < 32 -> Z.testbit (!~ x) i = negb (Z.testbit x i).
Proof.
  intros H. unfold not32. rewrite u32_bits by assumption.
  apply Z.lnot_spec. lia.
Qed.

Lemma shl32_bits (x n i : Z) :
  0 <= n < 32 -> 0 <= i < 32 -> Z.testbit (x << n) i = Z.testbit x (i - n).
Proof.
  intros Hn Hi. unfold shl32.
  replace ((0 <=? n) && (n <? 32)) with true
    by (symmetry; apply andb_true_iff; split; [apply Z.leb_le | apply Z.ltb_lt]; lia).
  rewrite u32_bits by assumption. apply Z.shiftl_spec. lia.
Qed.

Lemma bit_of_one (i : Z) : Z.testbit 1 i = (i =? 0).
Proof.
  destruct (Z.eqb_spec i 0) as [->|Hne]; [reflexivity|].
  destruct (Z.lt_ge_cases i 0) as [Hlt|Hge].
  - now apply Z.testbit_neg_r.
  - apply (Z.bits_above_log2 1 i); simpl; lia.
Qed.

Lemma one_shl32_bits (n i : Z) :
  0 <= n < 32 -> 0 <= i < 32 -> Z.testbit (1 << n) i = (i =? n).
Proof.
  intros Hn Hi. rewrite shl32_bits, bit_of_one by assumption.
  destruct (Z.eqb_spec (i - n) 0), (Z.eqb_spec i n); try reflexivity; lia.
Qed.

(** [r |= (r & m) | v] stores [r | v]: or-ing a register onto itself gives
    the clearing mask nothing to clear. *)
Lemma or_onto_itself (r m v : Z) : r .| ((r .& m) .| v) = r .| v.
Proof.
  apply Z.bits_inj'. intros i _.
  rewrite !Z.lor_spec, Z.land_spec.
  destruct (Z.testbit r i), (Z.testbit m i), (Z.testbit v i); reflexivity.
Qed.

(** ** Frames: what a statement leaves alone *)

Lemma preserves_skip {A} (f : Regs -> A) : preserves f skip.
Proof. intros s. reflexivity. Qed.

Lemma preserves_seq {A} (f : Regs -> A) (c1 c2 : stmt) :
  preserves f c1 -> preserves f c2 -> preserves f (c1 ;; c2).
Proof. intros H1 H2 s. unfold seq. now rewrite H2, H1. Qed.

Lemma preserves_when {A} (f : Regs -> A) (b : bool) (c : stmt) :
  preserves f c -> preserves f (when b c).
Proof. intros H. destruct b; [exact H | apply preserves_skip]. Qed.

Lemma preserves_if {A} (f : Regs -> A) (b : bool) (c1 c2 : stmt) :
  preserves f c1 -> preserves f c2 -> preserves f (if b then c1 else c2).
Proof. intros H1 H2. now destruct b. Qed.

Lemma preserves_assign {A} (f : Regs -> A) (r : reg) (e : Regs -> Z) :
  (forall v s, f (wr r v s) = f s) -> preserves f (r ::= e).
Proof. intros H s. apply H. Qed.

Lemma preserves_or_assign {A} (f : Regs -> A) (r : reg) (e : Regs -> Z) :
  (forall v s, f (wr r v s) = f s) -> preserves f (r |= e).
Proof. intros H s. apply H. Qed.

Lemma preserves_and_assign {A} (f : Regs -> A) (r : reg) (e : Regs -> Z) :
  (forall v s, f (wr r v s) = f s) -> preserves f (r &= e).
Proof. intros H s. apply H. Qed.

(** Splits a statement into its stores and checks each against the
    observation by computing the store. *)
Ltac frame_store :=
  intros; cbn; unfold upd;
  repeat match goal with
         | |- context [if ?a =? ?b then _ else _] => destruct (Z.eqb_spec a b)
         end;
  cbn; congruence.

Ltac frame :=
  lazymatch goal with
  | |- preserves _ skip => apply preserves_skip
  | |- preserves _ (when false _) => apply preserves_skip
  | |- preserves _ (seq _ _) => apply preserves_seq; frame
  | |- preserves _ (when _ _) => apply preserves_when; frame
  | |- preserves _ (if _ then _ else _) => apply preserves_if; frame
  | |- preserves _ (assign _ _) => apply preserves_assign; frame_store
  | |- preserves _ (or_assign _ _) => apply preserves_or_assign; frame_store
  | |- preserves _ (and_assign _ _) => apply preserves_and_assign; frame_store
  | |- preserves _ (let _ := _ in _) => cbv zeta; frame
  end.

(** ** SysTick initialisation *)

Lemma systick_check (ticks : Z) :
  0 <= ticks < 2 ^ 32 ->
  (SYSTICK_RELOAD_VAL_MAX <? u32 (ticks - 1)) = true <-> ticks = 0 \/ 0x01000000 < ticks.
Proof.
  intros Hr. rewrite Z.ltb_lt. unfold SYSTICK_RELOAD_VAL_MAX, u32.
  destruct (Z.eq_dec ticks 0) as [->|Hnz].
  - split; [now left | intros _; reflexivity].
  - rewrite Z.mod_small by lia. lia.
Qed.

(** C1, as the code has it: the check is on [ticks - 1], so the call fails
    and leaves the register file exactly as it was when [ticks] is 0 or
    larger than 0x01000000, and only then; at 0x01000000 the reload value is
    the 24-bit maximum and the call is accepted. *)
Theorem systick_config_init_rejects
    {dh : DeviceHeader} (interrupt_mode ticks : Z) (s : Regs) :
  0 <= ticks < 2 ^ 32 ->
  (systick_config_init interrupt_mode ticks s = (RCC_FAIL_FLAG, s)
     <-> ticks = 0 \/ 0x01000000 < ticks)
  /\ (ticks = 0x01000000 ->
      fst (systick_config_init interrupt_mode ticks s) = RCC_SUCCESS_FLAG
      /\ LOAD (SysTick (snd (systick_config_init interrupt_mode ticks s))) = 0x00FFFFFF).
Proof.
  intros Hr. split.
  - rewrite <- (systick_check ticks Hr). unfold systick_config_init.
    destruct (SYSTICK_RELOAD_VAL_MAX <? u32 (ticks - 1)).
    + split; reflexivity.
    + split; intros H; discriminate H.
  - intros ->. split; reflexivity.
Qed.

Lemma systick_config_init_rejects_witness :
  0 <= 0x01000001 < 2 ^ 32
  /\ systick_config_init (dh := stm32f407xx) 1 0x01000001 blank = (RCC_FAIL_FLAG, blank).
Proof.
  split; [lia|].
  apply (proj1 (systick_config_init_rejects (dh := stm32f407xx) 1 0x01000001 blank
                  ltac:(lia))).
  right. lia.
Defined.

(** C1 as stated fails at its own example: with 0x01000000 ticks the call
    reports success and rewrites LOAD. *)
Lemma systick_config_init_0x01000000_is_accepted :
  ~ (fst (systick_config_init (dh := stm32f407xx) 1 0x01000000 blank) = RCC_FAIL_FLAG
     /\ SysTick (snd (systick_config_init (dh := stm32f407xx) 1 0x01000000 blank))
        = SysTick blank).
Proof. intros [H _]. discriminate H. Qed.

(** C10: with 0 ticks the unsigned [ticks - 1] is 0xFFFFFFFF, above the
    24-bit maximum, so the call fails and the register file is untouched. *)
Theorem systick_config_init_zero_ticks
    {dh : DeviceHeader} (interrupt_mode : Z) (s : Regs) :
  u32 (0 - 1) = 0xFFFFFFFF
  /\ SYSTICK_RELOAD_VAL_MAX < u32 (0 - 1)
  /\ systick_config_init interrupt_mode 0 s = (RCC_FAIL_FLAG, s).
Proof. repeat split. Qed.

(** ** Bus prescalers *)

(** C9: [sys_core_clock] plays no part: two calls that differ only in it
    leave the same register file, and so the same CFGR. *)
Theorem system_clock_setting_ignores_core_clock
    {dh : DeviceHeader} (clock1 clock2 : Z) (cfg : system_bus_clk_cfg_t) (s : Regs) :
  system_clock_setting clock1 cfg s = system_clock_setting clock2 cfg s
  /\ CFGR (RCC (system_clock_setting clock1 cfg s))
     = CFGR (RCC (system_clock_setting clock2 cfg s))
  /\ CFGR (RCC (system_clock_setting clock1 cfg s))
     = u32 (u32 (u32 (CFGR (RCC s) .| ppre1_apb1_pre cfg) .| ppre2_apb2_pre cfg)
            .| rtcpre_pre cfg).
Proof.
  split; [reflexivity | split; [reflexivity|]].
  unfold system_clock_setting, seq, or_assign. cbn.
  now rewrite !or_onto_itself.
Qed.

(** ** USART configuration *)

Section UsartFacts.
Context {dh : DeviceHeader} {lh : LibHeader} {tc : Toolchain}.
Variable GPIOx : Z.
Variable brr_oversample_16 brr_oversample_8 : usart_config_st_t -> Z.

(** C8: no path through the routine yields the failure code. *)
Theorem usart_config_always_succeeds
    (usart_cfg : usart_config_st_t) (tx_GPIOx tx_gpio_pin rx_GPIOx rx_gpio_pin : Z)
    (s : Regs) :
  fst (usart_config GPIOx brr_oversample_16 brr_oversample_8
         usart_cfg tx_GPIOx tx_gpio_pin rx_GPIOx rx_gpio_pin s)
    = USART_STATUS_SUCCESS
  /\ fst (usart_config GPIOx brr_oversample_16 brr_oversample_8
            usart_cfg tx_GPIOx tx_gpio_pin rx_GPIOx rx_gpio_pin s)
    <> USART_STATUS_FAIL.
Proof. split; [reflexivity | discriminate]. Qed.

Lemma baud_guard_never_holds (usart_cfg : usart_config_st_t) :
  USART_COMPATIBLE_MODE_ASYNC <> USART_COMPATIBLE_MODE_SYNC ->
  baud_guard usart_cfg = false.
Proof.
  intros Hne. unfold baud_guard.
  destruct (Z.eqb_spec USART_COMPATIBLE_MODE_ASYNC (compatmode usart_cfg)) as [Ha|]; [|reflexivity].
  destruct (Z.eqb_spec USART_COMPATIBLE_MODE_SYNC (compatmode usart_cfg)) as [Hs|]; [|reflexivity].
  congruence.
Qed.

(** C2: the two enumerators differ, so the guard of the divisor computation
    is false for every descriptor, and the call leaves BRR of every USART
    block, the configured one included, as it found it. *)
Theorem usart_config_never_programs_BRR
    (usart_cfg : usart_config_st_t) (tx_GPIOx tx_gpio_pin rx_GPIOx rx_gpio_pin : Z)
    (s : Regs) :
  USART_COMPATIBLE_MODE_ASYNC <> USART_COMPATIBLE_MODE_SYNC ->
  baud_guard usart_cfg = false
  /\ forall u,
       BRR (USART (snd (usart_config GPIOx brr_oversample_16 brr_oversample_8
                          usart_cfg tx_GPIOx tx_gpio_pin rx_GPIOx rx_gpio_pin s)) u)
       = BRR (USART s u).
Proof.
  intros Hne. pose proof (baud_guard_never_holds usart_cfg Hne) as Hg.
  split; [exact Hg|]. intros u.
  unfold usart_config. cbn [snd]. cbv zeta. rewrite Hg.
  match goal with
  | |- BRR (USART (?c s) u) = _ =>
      refine ((_ : preserves (fun s => BRR (USART s u)) c) s)
  end.
  unfold usart_clock_enable, gpio_clock_enable, mux_pins, set_alternate_function.
  frame.
Qed.

End UsartFacts.

Lemma usart_config_never_programs_BRR_witness :
  baud_guard (lh := aj_headers) (mkUsartCfg 0x40011000 3 0 0 0 0 0 0 9600) = false
  /\ forall u,
       BRR (USART (snd (usart_config (dh := stm32f407xx) (lh := aj_headers)
                          (tc := arm_toolchain)
                          0x40020000 (fun _ => 0x683) (fun _ => 0x683)
                          (mkUsartCfg 0x40011000 3 0 0 0 0 0 0 9600)
                          0x40020000 9 0x40020000 10 blank)) u)
       = BRR (USART blank u).
Proof.
  apply (usart_config_never_programs_BRR (dh := stm32f407xx) (lh := aj_headers)
           (tc := arm_toolchain)).
  simpl. lia.
Defined.

(** *** Peripheral clock routing on the STM32F407 address map *)

Lemma seq_frame {A} (f : Regs -> A) (c1 c2 : stmt) (s : Regs) :
  preserves f c2 -> f ((c1 ;; c2) s) = f (c1 s).
Proof. intros H. unfold seq. apply H. Qed.

(** ** Pointer subtraction on the 32-bit target

    The multiplier is the inverse of the odd part of the block size, and on
    a whole number of blocks the exact division is the element distance: on
    this toolchain [ptrdiff] is the exact division throughout. *)
Lemma inverse32_of_7_and_5 :
  inverse32 7 = 0xB6DB6DB7 /\ u32 (7 * inverse32 7) = 1
  /\ inverse32 5 = 0xCCCCCCCD /\ u32 (5 * inverse32 5) = 1.
Proof. repeat split. Qed.

Lemma s32_small (x : Z) : - 2 ^ 31 <= x < 2 ^ 31 -> s32 x = x.
Proof.
  intros Hx. unfold s32, u32. cbv zeta.
  destruct (Z.lt_ge_cases x 0) as [Hneg|Hpos].
  - rewrite <- (Z.mod_unique x (2 ^ 32) (-1) (x + 2 ^ 32)) by lia.
    destruct (Z.ltb_spec (x + 2 ^ 32) (2 ^ 31)); lia.
  - rewrite Z.mod_small by lia.
    destruct (Z.ltb_spec x (2 ^ 31)); lia.
Qed.

Lemma s32_mod (x k : Z) : s32 (x + 2 ^ 32 * k) = s32 x.
Proof.
  unfold s32, u32. now rewrite Z.mul_comm, Z.mod_add by lia.
Qed.

Lemma exact_division32_whole (size n q : Z) :
  size = 28 \/ size = 40 ->
  - 2 ^ 31 <= size * n < 2 ^ 31 ->
  exact_division32 size (q + size * n) q = n.
Proof.
  intros [-> | ->] Hn; unfold exact_division32; cbn [trailing_zeros].
  - replace (q + 28 * n - q) with (28 * n) by lia.
    rewrite (s32_small (28 * n)) by lia.
    change (1 + (1 + 0)) with 2.
    rewrite !Z.shiftr_div_pow2 by lia.
    replace (28 * n / 2 ^ 2) with (7 * n) by (apply Z.div_unique_exact; lia).
    change (inverse32 (28 / 2 ^ 2)) with 0xB6DB6DB7.
    replace (7 * n * 0xB6DB6DB7) with (n + 2 ^ 32 * (5 * n)) by lia.
    rewrite s32_mod. apply s32_small. lia.
  - replace (q + 40 * n - q) with (40 * n) by lia.
    rewrite (s32_small (40 * n)) by lia.
    change (1 + (1 + (1 + 0))) with 3.
    rewrite !Z.shiftr_div_pow2 by lia.
    replace (40 * n / 2 ^ 3) with (5 * n) by (apply Z.div_unique_exact; lia).
    change (inverse32 (40 / 2 ^ 3)) with 0xCCCCCCCD.
    replace (5 * n * 0xCCCCCCCD) with (n + 2 ^ 32 * (4 * n)) by lia.
    rewrite s32_mod. apply s32_small. lia.
Qed.

Lemma ptrdiff_on_arm (size p q : Z) :
  size = 28 \/ size = 40 ->
  - 2 ^ 31 <= p - q < 2 ^ 31 ->
  ptrdiff (tc := arm_toolchain) size p q = exact_division32 size p q.
Proof.
  intros Hsize Hd. unfold ptrdiff.
  destruct (Z.eqb_spec ((p - q) mod size) 0) as [Hz|Hnz]; [|reflexivity].
  assert (size <> 0) as Hs by (destruct Hsize; lia).
  pose proof (Z.div_mod (p - q) size Hs) as Hdm. rewrite Hz, Z.add_0_r in Hdm.
  replace p with (q + size * ((p - q) / size)) at 2 by lia.
  symmetry. apply exact_division32_whole; [assumption | lia].
Qed.

Section ClockRouting.
Context {lh : LibHeader}.
Variable GPIOx : Z.
Variable brr_oversample_16 brr_oversample_8 : usart_config_st_t -> Z.

Lemma enable_registers_after
    {tc : Toolchain}
    (usart_cfg : usart_config_st_t) (tx_GPIOx tx_gpio_pin rx_GPIOx rx_gpio_pin : Z)
    (s : Regs) :
  let s' := snd (usart_config (dh := stm32f407xx) GPIOx brr_oversample_16
                   brr_oversample_8 usart_cfg tx_GPIOx tx_gpio_pin rx_GPIOx
                   rx_gpio_pin s) in
  APB1ENR (RCC s') = APB1ENR (RCC (usart_clock_enable (dh := stm32f407xx) usart_cfg s))
  /\ APB2ENR (RCC s') = APB2ENR (RCC (usart_clock_enable (dh := stm32f407xx) usart_cfg s)).
Proof.
  unfold usart_config. cbn [snd]. cbv zeta.
  split.
  - apply (seq_frame (fun s => APB1ENR (RCC s))).
    unfold gpio_clock_enable, mux_pins, set_alternate_function, program_baud_rate. frame.
  - apply (seq_frame (fun s => APB2ENR (RCC s))).
    unfold gpio_clock_enable, mux_pins, set_alternate_function, program_baud_rate. frame.
Qed.

(** The half that holds on every toolchain: USART1 is at distance 0 from
    itself, the offset is 0, bit [RCC_APB2ENR_USART1EN_Pos + 0] of APB2ENR is
    set and APB1ENR is left as it was. *)
Lemma usart_config_USART1_clock_enable
    {tc : Toolchain}
    (usart_cfg : usart_config_st_t) (tx_GPIOx tx_gpio_pin rx_GPIOx rx_gpio_pin : Z)
    (s : Regs) :
  let s' := snd (usart_config (dh := stm32f407xx) GPIOx brr_oversample_16
                   brr_oversample_8
                   (with_instance (USART1 (DeviceHeader := stm32f407xx)) usart_cfg)
                   tx_GPIOx tx_gpio_pin rx_GPIOx rx_gpio_pin s) in
  Z.testbit (APB2ENR (RCC s'))
            (RCC_APB2ENR_USART1EN_Pos (DeviceHeader := stm32f407xx) + 0) = true
  /\ APB2ENR (RCC s') = u32 (APB2ENR (RCC s) .| 0x10)
  /\ APB1ENR (RCC s') = APB1ENR (RCC s).
Proof.
  intros s'. subst s'.
  destruct (enable_registers_after
              (with_instance (USART1 (DeviceHeader := stm32f407xx)) usart_cfg)
              tx_GPIOx tx_gpio_pin rx_GPIOx rx_gpio_pin s) as [H1 H2].
  rewrite H1, H2.
  change (usart_clock_enable (dh := stm32f407xx)
            (with_instance (USART1 (DeviceHeader := stm32f407xx)) usart_cfg))
    with (RCC_APB2ENR |= (fun s => (rd RCC_APB2ENR s .& !~ (3 << 4)) .| (1 << 4))).
  unfold or_assign. cbn [rd wr RCC_APB2ENR with_RCC RCC APB1ENR APB2ENR].
  rewrite or_onto_itself.
  change (1 << 4) with 0x10.
  repeat split.
  rewrite u32_bits by (cbn; lia). rewrite Z.lor_spec. apply orb_true_r.
Qed.

(** C6 at a failing input, UART4, the third peripheral on APB1, built for the
    32-bit target.  UART4 is 0x800 bytes from USART2 and the blocks are 28
    bytes long, so the exact division gives 0xB6DB6E00 for the subtraction;
    divided by the folded 36 and stored in the unsigned [tmp] this is
    4260880256, not 2.  The shift count [17 + tmp] has low byte 145, the
    shift yields no bit, and APB1ENR comes out with no bit added: bit 19 is
    as it was before the call.  APB2ENR is unchanged. *)
Theorem usart_config_UART4_enables_no_clock
    (usart_cfg : usart_config_st_t) (tx_GPIOx tx_gpio_pin rx_GPIOx rx_gpio_pin : Z)
    (s : Regs) :
  let uart4 := UART4 (DeviceHeader := stm32f407xx) in
  let usart2 := USART2 (DeviceHeader := stm32f407xx) in
  let usart3 := USART3 (DeviceHeader := stm32f407xx) in
  let tmp := u32 (Z.quot (ptrdiff (tc := arm_toolchain) 28 uart4 usart2)
                         (ptrdiff_folded (tc := arm_toolchain) 28 usart3 usart2)) in
  let s' := snd (usart_config (dh := stm32f407xx) (tc := arm_toolchain) GPIOx
                   brr_oversample_16 brr_oversample_8
                   (with_instance uart4 usart_cfg)
                   tx_GPIOx tx_gpio_pin rx_GPIOx rx_gpio_pin s) in
  u32 (ptrdiff (tc := arm_toolchain) 28 uart4 usart2) = 0xB6DB6E00
  /\ ptrdiff_folded (tc := arm_toolchain) 28 usart3 usart2 = 36
  /\ tmp = 4260880256
  /\ (17 + tmp) mod 256 = 145
  /\ APB1ENR (RCC s') = u32 (APB1ENR (RCC s))
  /\ (forall i, 0 <= i < 32 ->
        Z.testbit (APB1ENR (RCC s')) i = Z.testbit (APB1ENR (RCC s)) i)
  /\ Z.testbit (APB1ENR (RCC s')) 19 = Z.testbit (APB1ENR (RCC s)) 19
  /\ APB2ENR (RCC s') = APB2ENR (RCC s).
Proof.
  intros uart4 usart2 usart3 tmp s'. subst tmp s'.
  destruct (enable_registers_after (tc := arm_toolchain)
              (with_instance uart4 usart_cfg)
              tx_GPIOx tx_gpio_pin rx_GPIOx rx_gpio_pin s) as [H1 H2].
  rewrite H1, H2.
  change (usart_clock_enable (dh := stm32f407xx) (tc := arm_toolchain)
            (with_instance uart4 usart_cfg))
    with (RCC_APB1ENR |= (fun s => (rd RCC_APB1ENR s .& !~ (0xF << 17)) .| 0)).
  unfold or_assign. cbn [rd wr RCC_APB1ENR with_RCC RCC APB1ENR APB2ENR].
  rewrite or_onto_itself, Z.lor_0_r.
  split; [reflexivity|]. split; [reflexivity|]. split; [reflexivity|].
  split; [reflexivity|]. split; [reflexivity|].
  split; [intros i Hi; now apply u32_bits|].
  split; [apply u32_bits; lia | reflexivity].
Qed.

End ClockRouting.

Lemma usart_config_UART4_enables_no_clock_witness :
  let s' := snd (usart_config (dh := stm32f407xx) (lh := aj_headers)
                   (tc := arm_toolchain)
                   0x40020000 (fun _ => 0) (fun _ => 0)
                   (mkUsartCfg 0x40004C00 3 0 0 0 0 0 0 9600)
                   0x40020000 0 0x40020000 1 blank) in
  APB1ENR (RCC s') = 0 /\ Z.testbit (APB1ENR (RCC s')) 19 = false.
Proof.
  pose proof (usart_config_UART4_enables_no_clock (lh := aj_headers)
                0x40020000 (fun _ => 0) (fun _ => 0)
                (mkUsartCfg 0x40004C00 3 0 0 0 0 0 0 9600)
                0x40020000 0 0x40020000 1 blank) as H.
  cbv zeta in H. destruct H as (_ & _ & _ & _ & H & _ & H19 & _).
  split; [exact H | exact H19].
Defined.

(** ** Clock source selection *)

Lemma one_shl32_bits_any (n i : Z) :
  0 <= i < 32 -> Z.testbit (1 << n) i = (i =? n).
Proof.
  intros Hi.
  destruct (Z.lt_ge_cases n 0) as [Hneg|Hnn]; [|destruct (Z.lt_ge_cases n 32) as [Hlt|Hge]].
  - unfold shl32. replace (0 <=? n) with false by (symmetry; apply Z.leb_gt; lia).
    cbn. rewrite Z.testbit_0_l. symmetry. apply Z.eqb_neq. lia.
  - apply one_shl32_bits; lia.
  - unfold shl32. replace (n <? 32) with false by (symmetry; apply Z.ltb_ge; lia).
    rewrite andb_false_r, Z.testbit_0_l. symmetry. apply Z.eqb_neq. lia.
Qed.

Section ClockFacts.
Context {dh : DeviceHeader} {lh : LibHeader}.
Variable hw : Regs -> Regs.

(** Whatever the hardware leaves alone while the code waits is still there
    when the wait ends. *)
Lemma wait_until_keeps {A} (f : Regs -> A) (fuel : nat) (cond : Regs -> bool) :
  (forall s, f (hw s) = f s) ->
  forall s s', wait_until hw fuel cond s = Done s' -> f s' = f s.
Proof.
  intros Hhw. induction fuel as [|fuel IH]; intros s s' H; cbn in H.
  - discriminate H.
  - destruct (cond s).
    + now inversion H.
    + rewrite (IH _ _ H). apply Hhw.
Qed.

(** The word that line 141 ors into CR is the HSION bit alone. *)
Lemma switch_on_HSI_bits (s : Regs) (i : Z) :
  0 <= i < 32 ->
  RCC_CR_HSEON_Pos <> RCC_CR_HSION_Pos -> RCC_CR_PLLON_Pos <> RCC_CR_HSION_Pos ->
  Z.testbit (CR (RCC (switch_on_HSI s))) i
    = Z.testbit (CR (RCC s)) i || (i =? RCC_CR_HSION_Pos).
Proof.
  intros Hi He Hp. unfold switch_on_HSI, or_assign. cbn.
  rewrite u32_bits, Z.lor_spec, !Z.land_spec, !not32_bits, !one_shl32_bits_any by assumption.
  destruct (Z.eqb_spec i RCC_CR_HSION_Pos) as [->|Hne].
  - destruct (Z.eqb_spec RCC_CR_HSION_Pos RCC_CR_HSEON_Pos); [congruence|].
    destruct (Z.eqb_spec RCC_CR_HSION_Pos RCC_CR_PLLON_Pos); [congruence|].
    reflexivity.
  - reflexivity.
Qed.

(** A returning run of the HSI path: every CR bit the hardware leaves alone
    comes back as line 141 left it. *)
Lemma RCC_HSI_run_CR_bits
    (fuel : nat) (pll_clock_source : Z)
    (rcc_pll_config_param_t : option RCC_PLL_CONFIG_PARAMS_t) (s : Regs)
    (i : Z) (s' : Regs) (p' : option RCC_PLL_CONFIG_PARAMS_t) :
  (forall s0, Z.testbit (CR (RCC (hw s0))) i = Z.testbit (CR (RCC s0)) i) ->
  RCC_System_Clock_Source_Config hw fuel SYS_CLOCK_SOURCE_HSI pll_clock_source
    rcc_pll_config_param_t s = Done (s', p') ->
  Z.testbit (CR (RCC s')) i = Z.testbit (CR (RCC (switch_on_HSI s))) i.
Proof.
  intros Hhw Hrun.
  unfold RCC_System_Clock_Source_Config in Hrun.
  rewrite Z.eqb_refl in Hrun.
  destruct (wait_until hw fuel HSI_ready (switch_on_HSI s)) as [s1| |] eqn:W1;
    cbn [bind] in Hrun; try discriminate Hrun.
  match type of Hrun with
  | context [wait_until hw fuel ?c ?x] =>
      destruct (wait_until hw fuel c x) as [s2| |] eqn:W2
  end; cbn [bind] in Hrun; try discriminate Hrun.
  inversion Hrun; subst s' p'; clear Hrun.
  apply (wait_until_keeps (fun s => Z.testbit (CR (RCC s)) i) _ _ Hhw) in W1.
  apply (wait_until_keeps (fun s => Z.testbit (CR (RCC s)) i) _ _ Hhw) in W2.
  cbn in W2 |- *. now rewrite W2, W1.
Qed.

(** C5: the write of line 141 sets HSION and clears nothing: HSEON, PLLON and
    every other bit that was set stay as they were.  It is the only store to
    CR on the HSI path, so for every CR bit that the hardware itself leaves
    alone the routine returns with that bit as the caller had it, or-ed with
    1 at HSION: HSION is set on return, HSEON and PLLON are as they were. *)
Theorem RCC_HSI_request_never_clears_CR
    (fuel : nat) (pll_clock_source : Z)
    (rcc_pll_config_param_t : option RCC_PLL_CONFIG_PARAMS_t) (s : Regs) :
  0 <= RCC_CR_HSION_Pos < 32 ->
  0 <= RCC_CR_HSEON_Pos < 32 ->
  0 <= RCC_CR_PLLON_Pos < 32 ->
  RCC_CR_HSEON_Pos <> RCC_CR_HSION_Pos ->
  RCC_CR_PLLON_Pos <> RCC_CR_HSION_Pos ->
  (Z.testbit (CR (RCC (switch_on_HSI s))) RCC_CR_HSION_Pos = true
   /\ Z.testbit (CR (RCC (switch_on_HSI s))) RCC_CR_HSEON_Pos
      = Z.testbit (CR (RCC s)) RCC_CR_HSEON_Pos
   /\ Z.testbit (CR (RCC (switch_on_HSI s))) RCC_CR_PLLON_Pos
      = Z.testbit (CR (RCC s)) RCC_CR_PLLON_Pos
   /\ forall i, 0 <= i < 32 -> Z.testbit (CR (RCC s)) i = true ->
                Z.testbit (CR (RCC (switch_on_HSI s))) i = true)
  /\
  (forall i s' p',
     0 <= i < 32 ->
     (forall s0, Z.testbit (CR (RCC (hw s0))) i = Z.testbit (CR (RCC s0)) i) ->
     RCC_System_Clock_Source_Config hw fuel SYS_CLOCK_SOURCE_HSI pll_clock_source
       rcc_pll_config_param_t s = Done (s', p') ->
     Z.testbit (CR (RCC s')) i
     = Z.testbit (CR (RCC s)) i || (i =? RCC_CR_HSION_Pos))
  /\
  (forall s' p',
     (forall s0, Z.testbit (CR (RCC (hw s0))) RCC_CR_HSION_Pos
                 = Z.testbit (CR (RCC s0)) RCC_CR_HSION_Pos) ->
     RCC_System_Clock_Source_Config hw fuel SYS_CLOCK_SOURCE_HSI pll_clock_source
       rcc_pll_config_param_t s = Done (s', p') ->
     Z.testbit (CR (RCC s')) RCC_CR_HSION_Pos = true).
Proof.
  intros Hi He Hp Hne_e Hne_p. split; [|split].
  - repeat split.
    + rewrite switch_on_HSI_bits, Z.eqb_refl by assumption. apply orb_true_r.
    + rewrite switch_on_HSI_bits by assumption.
      destruct (Z.eqb_spec RCC_CR_HSEON_Pos RCC_CR_HSION_Pos); [congruence|].
      apply orb_false_r.
    + rewrite switch_on_HSI_bits by assumption.
      destruct (Z.eqb_spec RCC_CR_PLLON_Pos RCC_CR_HSION_Pos); [congruence|].
      apply orb_false_r.
    + intros i Hr Hset. rewrite switch_on_HSI_bits, Hset by assumption. reflexivity.
  - intros i s' p' Hr Hhw Hrun.
    rewrite (RCC_HSI_run_CR_bits _ _ _ _ _ _ _ Hhw Hrun).
    now apply switch_on_HSI_bits.
  - intros s' p' Hhw Hrun.
    rewrite (RCC_HSI_run_CR_bits _ _ _ _ _ _ _ Hhw Hrun).
    rewrite switch_on_HSI_bits, Z.eqb_refl by assumption. apply orb_true_r.
Qed.

End ClockFacts.

Lemma copy_bit_other (from to r i : Z) :
  0 <= to -> i <> to -> Z.testbit (copy_bit from to r) i = Z.testbit r i.
Proof.
  intros Hto Hne. unfold copy_bit. destruct (Z.testbit r from).
  - apply Z.setbit_neq; [assumption | congruence].
  - apply Z.clearbit_neq. congruence.
Qed.

(** The responsive chip writes the three ready flags of CR and nothing else
    of it. *)
Lemma responsive_keeps_CR_bit {dh : DeviceHeader} (i : Z) (s : Regs) :
  0 <= RCC_CR_HSIRDY_Pos -> 0 <= RCC_CR_HSERDY_Pos -> 0 <= RCC_CR_PLLRDY_Pos ->
  i <> RCC_CR_HSIRDY_Pos -> i <> RCC_CR_HSERDY_Pos -> i <> RCC_CR_PLLRDY_Pos ->
  Z.testbit (CR (RCC (responsive s))) i = Z.testbit (CR (RCC s)) i.
Proof.
  intros. unfold responsive. cbn.
  now rewrite !copy_bit_other.
Qed.

Lemma returned_record_Done {A B : Type} (r : run (A * B)) (p : B) :
  returned_record r = Some p -> exists s', r = Done (s', p).
Proof.
  destruct r as [[s' p']| |]; cbn; intros H; inversion H. now exists s'.
Qed.

Lemma RCC_HSI_request_never_clears_CR_witness :
  Z.testbit (CR (RCC HSI_switched_off)) 0 = false
  /\ exists s',
       RCC_System_Clock_Source_Config (dh := stm32f407xx) (lh := aj_headers)
         (responsive (dh := stm32f407xx)) 2 0 0 None HSI_switched_off = Done (s', None)
       /\ Z.testbit (CR (RCC s')) 0 = true
       /\ Z.testbit (CR (RCC s')) 16 = true
       /\ Z.testbit (CR (RCC s')) 24 = true.
Proof.
  destruct (returned_record_Done
              (RCC_System_Clock_Source_Config (dh := stm32f407xx) (lh := aj_headers)
                 (responsive (dh := stm32f407xx)) 2 0 0 None HSI_switched_off)
              None eq_refl) as [s' Hs'].
  destruct (RCC_HSI_request_never_clears_CR (dh := stm32f407xx) (lh := aj_headers)
              (responsive (dh := stm32f407xx)) 2 0 None HSI_switched_off)
    as (_ & Hrun & Hon); try (simpl; lia).
  split; [reflexivity|].
  exists s'. split; [exact Hs'|].
  split; [|split].
  - refine (Hon s' None _ Hs').
    intros s0. apply (responsive_keeps_CR_bit (dh := stm32f407xx)); simpl; lia.
  - refine (eq_trans (Hrun 16 s' None _ _ Hs') eq_refl); [lia|].
    intros s0. apply (responsive_keeps_CR_bit (dh := stm32f407xx)); simpl; lia.
  - refine (eq_trans (Hrun 24 s' None _ _ Hs') eq_refl); [lia|].
    intros s0. apply (responsive_keeps_CR_bit (dh := stm32f407xx)); simpl; lia.
Defined.

(** ** Clock output pins *)

(** What channel 1 leaves in CFGR: both stores or the selector onto the old
    word. *)
Lemma MCO_Config_channel_1_CFGR
    {dh : DeviceHeader} {lh : LibHeader} (mco_clock_source mco_prescaler : Z) (s : Regs) :
  CFGR (RCC (MCO_Config MCO_CHANNEL_1 mco_clock_source mco_prescaler s))
  = u32 (u32 (CFGR (RCC s) .| (mco_clock_source << RCC_CFGR_MCO1_Pos))
         .| (mco_prescaler << RCC_CFGR_MCO1PRE_Pos)).
Proof.
  unfold MCO_Config. rewrite Z.eqb_refl.
  unfold seq, or_assign. cbn. now rewrite !or_onto_itself.
Qed.

(** Bit by bit: a bit of CFGR that was set stays set, whatever the selectors. *)
Lemma MCO_Config_channel_1_CFGR_bits
    {dh : DeviceHeader} {lh : LibHeader} (mco_clock_source mco_prescaler : Z)
    (s : Regs) (i : Z) :
  0 <= i < 32 ->
  Z.testbit (CFGR (RCC (MCO_Config MCO_CHANNEL_1 mco_clock_source mco_prescaler s))) i
  = Z.testbit (CFGR (RCC s)) i
    || Z.testbit (mco_clock_source << RCC_CFGR_MCO1_Pos) i
    || Z.testbit (mco_prescaler << RCC_CFGR_MCO1PRE_Pos) i.
Proof.
  intros Hi. rewrite MCO_Config_channel_1_CFGR.
  now rewrite u32_bits, Z.lor_spec, u32_bits, Z.lor_spec by assumption.
Qed.

(** C4 at a failing input: MCO1 is first routed from source 3 with
    prescaler 6, then reconfigured to source 0 with prescaler 0.  The second
    call leaves source 3 and prescaler 6 in CFGR.  Likewise a PA8 found in
    mode 1 ends in mode 3, not 2. *)
Theorem MCO_Config_keeps_stale_fields :
  let MCO := MCO_Config (dh := stm32f407xx) (lh := aj_headers)
               (MCO_CHANNEL_1 (LibHeader := aj_headers)) in
  let s1 := MCO 3 6 blank in
  let s2 := MCO 0 0 s1 in
  (field 21 2 (CFGR (RCC s1)) = 3 /\ field 24 3 (CFGR (RCC s1)) = 6)
  /\ (field 21 2 (CFGR (RCC s2)) = 3 /\ field 24 3 (CFGR (RCC s2)) = 6)
  /\ field 16 2 (MODER (GPIO (MCO 0 0 pa8_as_output)
                             (GPIOA (DeviceHeader := stm32f407xx)))) = 3.
Proof. vm_compute. repeat split. Qed.

(** ** PLL set-up *)

Section PllFacts.
Context {dh : DeviceHeader} {lh : LibHeader}.
Variable hw : Regs -> Regs.

Lemma encode_PLLP_even (p : RCC_PLL_CONFIG_PARAMS_t) :
  In (PLLP p) [2; 4; 6; 8] ->
  PLLP (encode_PLLP p) = PLLP p / 2 - 1
  /\ 0 <= PLLP (encode_PLLP p) < 4.
Proof.
  intros Hin. cbn in Hin. unfold encode_PLLP. cbn [PLLP].
  destruct Hin as [H|[H|[H|[H|[]]]]]; rewrite <- H; split; try reflexivity; cbn; lia.
Qed.

Lemma wait_until_not_trap (fuel : nat) (cond : Regs -> bool) (s : Regs) :
  wait_until hw fuel cond s <> Trap.
Proof.
  revert s. induction fuel as [|fuel IH]; intros s; cbn; [discriminate|].
  destruct (cond s); [discriminate | apply IH].
Qed.

Lemma bind_not_trap {A B} (m : run A) (k : A -> run B) :
  m <> Trap -> (forall a, k a <> Trap) -> bind m k <> Trap.
Proof. intros Hm Hk. destruct m; cbn; [apply Hk | discriminate | contradiction]. Qed.

(** The PLL branch up to its last wait, written out once. *)
Lemma PLL_branch_returns_encoded
    (fuel : nat) (pll_clock_source : Z) (p : RCC_PLL_CONFIG_PARAMS_t) (s s' : Regs)
    (p' : option RCC_PLL_CONFIG_PARAMS_t) :
  SYS_CLOCK_SOURCE_HSI <> SYS_CLOCK_SOURCE_PLL ->
  SYS_CLOCK_SOURCE_HSE <> SYS_CLOCK_SOURCE_PLL ->
  RCC_System_Clock_Source_Config hw fuel SYS_CLOCK_SOURCE_PLL pll_clock_source (Some p) s
    = Done (s', p') ->
  p' = Some (encode_PLLP p)
  /\ ((forall s0, PLLCFGR (RCC (hw s0)) = PLLCFGR (RCC s0)) ->
      PLLCFGR (RCC s')
      = PLLCFGR (RCC (program_PLLCFGR pll_clock_source (encode_PLLP p) s))).
Proof.
  intros Hhsi Hhse Hrun.
  unfold RCC_System_Clock_Source_Config in Hrun.
  destruct (Z.eqb_spec SYS_CLOCK_SOURCE_HSI SYS_CLOCK_SOURCE_PLL) as [|_]; [contradiction|].
  destruct (Z.eqb_spec SYS_CLOCK_SOURCE_HSE SYS_CLOCK_SOURCE_PLL) as [|_]; [contradiction|].
  rewrite Z.eqb_refl in Hrun.
  match type of Hrun with
  | context [wait_until hw fuel ?c ?x] =>
      destruct (wait_until hw fuel c x) as [s1| |] eqn:W1
  end; cbn [bind] in Hrun; try discriminate Hrun.
  cbv zeta in Hrun.
  match type of Hrun with
  | context [bind (bind ?m _) _] => destruct m as [s2| |] eqn:W2
  end; cbn [bind] in Hrun; try discriminate Hrun.
  match type of Hrun with
  | context [wait_until hw fuel PLL_ready ?x] =>
      destruct (wait_until hw fuel PLL_ready x) as [s3| |] eqn:W3
  end; cbn [bind] in Hrun; try discriminate Hrun.
  match type of Hrun with
  | context [wait_until hw fuel ?c ?x] =>
      destruct (wait_until hw fuel c x) as [s4| |] eqn:W4
  end; cbn [bind] in Hrun; try discriminate Hrun.
  inversion Hrun; subst s' p'; clear Hrun.
  split; [reflexivity|]. intros Hhw.
  pose proof (wait_until_keeps hw (fun s => PLLCFGR (RCC s)) fuel) as K.
  apply (K _ Hhw) in W1. apply (K _ Hhw) in W3. apply (K _ Hhw) in W4.
  assert (PLLCFGR (RCC s2) = PLLCFGR (RCC s1)) as E2.
  { destruct (PLL_CLOCK_SRC_HSI =? pll_clock_source).
    - apply (K _ Hhw) in W2. exact W2.
    - destruct (PLL_CLOCK_SRC_HSE =? pll_clock_source).
      + apply (K _ Hhw) in W2. exact W2.
      + now inversion W2. }
  cbn in W1, W3, W4 |- *. unfold settle, skip in W3.
  rewrite W4, W3, E2, W1. reflexivity.
Qed.

(** C3: with the PLL requested and a record whose PLLP is 2, 4, 6 or 8, the
    record the caller gets back holds PLLP/2 - 1 (so 4, 6, 8 become 1, 2, 3),
    and PLLCFGR is programmed from the record after the rewrite: on hardware
    that does not alter PLLCFGR by itself, the returned PLLCFGR is the word
    built from the encoded record. *)
Theorem RCC_PLL_request_encodes_PLLP_in_place
    (fuel : nat) (pll_clock_source : Z) (p : RCC_PLL_CONFIG_PARAMS_t) (s : Regs) :
  SYS_CLOCK_SOURCE_HSI <> SYS_CLOCK_SOURCE_PLL ->
  SYS_CLOCK_SOURCE_HSE <> SYS_CLOCK_SOURCE_PLL ->
  In (PLLP p) [2; 4; 6; 8] ->
  PLLP (encode_PLLP p) = PLLP p / 2 - 1
  /\ (PLLP p = 4 -> PLLP (encode_PLLP p) = 1)
  /\ (PLLP p = 6 -> PLLP (encode_PLLP p) = 2)
  /\ (PLLP p = 8 -> PLLP (encode_PLLP p) = 3)
  /\ RCC_System_Clock_Source_Config hw fuel SYS_CLOCK_SOURCE_PLL pll_clock_source (Some p) s
     <> Trap
  /\ forall s' p',
       RCC_System_Clock_Source_Config hw fuel SYS_CLOCK_SOURCE_PLL pll_clock_source
         (Some p) s = Done (s', p') ->
       p' = Some (mkPLL (PLLM p) (PLLN p) (PLLP p / 2 - 1) (PLLQ p))
       /\ ((forall s0, PLLCFGR (RCC (hw s0)) = PLLCFGR (RCC s0)) ->
           PLLCFGR (RCC s')
           = PLLCFGR (RCC (program_PLLCFGR pll_clock_source
                             (mkPLL (PLLM p) (PLLN p) (PLLP p / 2 - 1) (PLLQ p)) s))).
Proof.
  intros Hhsi Hhse Hin.
  destruct (encode_PLLP_even p Hin) as [Henc _].
  assert (encode_PLLP p = mkPLL (PLLM p) (PLLN p) (PLLP p / 2 - 1) (PLLQ p)) as Hrec.
  { unfold encode_PLLP in *. cbn [PLLP] in Henc. now rewrite Henc. }
  split; [exact Henc|].
  split; [intros E; rewrite Henc, E; reflexivity|].
  split; [intros E; rewrite Henc, E; reflexivity|].
  split; [intros E; rewrite Henc, E; reflexivity|].
  split.
  - unfold RCC_System_Clock_Source_Config.
    destruct (Z.eqb_spec SYS_CLOCK_SOURCE_HSI SYS_CLOCK_SOURCE_PLL) as [|_]; [contradiction|].
    destruct (Z.eqb_spec SYS_CLOCK_SOURCE_HSE SYS_CLOCK_SOURCE_PLL) as [|_]; [contradiction|].
    rewrite Z.eqb_refl. cbv zeta.
    apply bind_not_trap.
    + apply bind_not_trap; [apply wait_until_not_trap | intros s1].
      apply bind_not_trap.
      * destruct (PLL_CLOCK_SRC_HSI =? pll_clock_source); [apply wait_until_not_trap|].
        destruct (PLL_CLOCK_SRC_HSE =? pll_clock_source); [apply wait_until_not_trap|].
        discriminate.
      * intros s2. apply bind_not_trap; [apply wait_until_not_trap | discriminate].
    + intros [s3 p3]. apply bind_not_trap; [apply wait_until_not_trap | discriminate].
  - intros s' p' Hrun. rewrite <- Hrec.
    exact (PLL_branch_returns_encoded fuel pll_clock_source p s s' p' Hhsi Hhse Hrun).
Qed.

End PllFacts.

(** On a chip that answers at once the PLL request does return, from the
    blank register file, for every record. *)
Lemma RCC_PLL_request_returns (p : RCC_PLL_CONFIG_PARAMS_t) :
  exists s',
    RCC_System_Clock_Source_Config (dh := stm32f407xx) (lh := aj_headers)
      (responsive (dh := stm32f407xx)) 2 2 1 (Some p) blank
    = Done (s', Some (encode_PLLP p)).
Proof. apply returned_record_Done. reflexivity. Qed.

Lemma RCC_PLL_request_encodes_PLLP_in_place_witness :
  In 4 [2; 4; 6; 8]
  /\ exists s',
       RCC_System_Clock_Source_Config (dh := stm32f407xx) (lh := aj_headers)
         (responsive (dh := stm32f407xx)) 2 2 1 (Some (mkPLL 8 336 4 7)) blank
       = Done (s', Some (mkPLL 8 336 1 7))
       /\ PLLCFGR (RCC s') = 0x07415408.
Proof.
  split; [simpl; tauto|].
  destruct (RCC_PLL_request_returns (mkPLL 8 336 4 7)) as [s' Hs'].
  destruct (RCC_PLL_request_encodes_PLLP_in_place (dh := stm32f407xx) (lh := aj_headers)
              (responsive (dh := stm32f407xx)) 2 1 (mkPLL 8 336 4 7) blank)
    as (_ & _ & _ & _ & _ & H); [simpl; lia | simpl; lia | simpl; tauto |].
  destruct (H s' _ Hs') as [_ HP].
  exists s'. split; [exact Hs'|].
  rewrite HP; [reflexivity | intros s0; reflexivity].
Defined.

(** ** Delays *)

Section DelayFacts.
Context {dh : DeviceHeader}.

Lemma delay_loops_agree {D : Type} (port : SysTick_port D) (fuel : nat) :
  forall (n : Z) (d : D), delay_ms_loop port fuel n d = delay_us_loop port fuel n d.
Proof.
  induction fuel as [|fuel IH]; intros n d; cbn; [reflexivity|].
  destruct (n =? 0); [reflexivity|].
  destruct (wait_COUNTFLAG port fuel (store_VAL port 0 d)); cbn; [apply IH | reflexivity ..].
Qed.

Hypothesis COUNTFLAG_in_word : 0 <= SysTick_CTRL_COUNTFLAG_Pos < 32.

Lemma COUNTFLAG_seen :
  negb (((1 << SysTick_CTRL_COUNTFLAG_Pos) .& (1 << SysTick_CTRL_COUNTFLAG_Pos)) =? 0) = true.
Proof.
  rewrite Z.land_diag. apply negb_true_iff, Z.eqb_neq. intros H.
  pose proof (one_shl32_bits SysTick_CTRL_COUNTFLAG_Pos SysTick_CTRL_COUNTFLAG_Pos
                COUNTFLAG_in_word COUNTFLAG_in_word) as Hb.
  rewrite H, Z.testbit_0_l, Z.eqb_refl in Hb. discriminate Hb.
Qed.

Lemma auto_assert_one_poll (fuel : nat) (log : list systick_op) :
  (0 < fuel)%nat ->
  wait_COUNTFLAG (traced auto_assert) fuel (true, log)
  = Done (false, log ++ [Load_CTRL (1 << SysTick_CTRL_COUNTFLAG_Pos)]).
Proof. destruct fuel; [lia|]. intros _. cbn. now rewrite COUNTFLAG_seen. Qed.

Lemma auto_assert_cycles (c : nat) :
  forall (fuel : nat) (pending : bool) (log : list systick_op),
    (c < fuel)%nat -> Z.of_nat c < 2 ^ 32 ->
    delay_us_loop (traced auto_assert) fuel (Z.of_nat c) (pending, log)
    = Done (match c with O => pending | S _ => false end, log ++ poll_then_clear_cycles c).
Proof.
  induction c as [|c IH]; intros fuel pending log Hfuel Hc.
  - destruct fuel as [|fuel]; [lia|]. cbn. now rewrite app_nil_r.
  - destruct fuel as [|fuel]; [lia|].
    cbn [delay_us_loop].
    replace (Z.of_nat (S c) =? 0) with false by (symmetry; apply Z.eqb_neq; lia).
    replace (u32 (Z.of_nat (S c) - 1)) with (Z.of_nat c) by (rewrite u32_small; lia).
    change (store_VAL (traced auto_assert) 0 (pending, log)) with (true, log ++ [Store_VAL 0]).
    rewrite auto_assert_one_poll by lia. cbn [bind].
    rewrite IH by lia.
    unfold poll_then_clear_cycles. cbn [repeat concat].
    rewrite <- !app_assoc. cbn [app].
    destruct c; reflexivity.
Qed.

(** C7: the millisecond delay is the microsecond delay of [1000 * n] taken
    modulo [2^32]: on every timer both make the same accesses and end in the
    same state, and so they leave the same trace.  On the test double a
    2 ms delay returns after exactly 2000 store-then-load cycles. *)
Theorem delay_ms_is_delay_us_of_1000n :
  (forall (D : Type) (port : SysTick_port D) (fuel : nat) (n : Z) (d : D),
     delay_ms_systick port fuel n d = delay_us_systick port fuel (u32 (1000 * n)) d)
  /\ (forall (D : Type) (port : SysTick_port D) (fuel : nat) (n : Z) (d : D),
        delay_ms_systick (traced port) fuel n (d, [])
        = delay_us_systick (traced port) fuel (u32 (1000 * n)) (d, []))
  /\ (forall fuel : nat, (2000 < fuel)%nat ->
        delay_ms_systick (traced auto_assert) fuel 2 (false, [])
        = Done (false, poll_then_clear_cycles 2000))
  /\ length (poll_then_clear_cycles 2000) = (2 * 2000)%nat.
Proof.
  assert (forall (D : Type) (port : SysTick_port D) (fuel : nat) (n : Z) (d : D),
            delay_ms_systick port fuel n d
            = delay_us_systick port fuel (u32 (1000 * n)) d) as Hgen.
  { intros D port fuel n d. unfold delay_ms_systick, delay_us_systick.
    rewrite (Z.mul_comm n 1000). apply delay_loops_agree. }
  split; [exact Hgen|].
  split; [intros D port fuel n d; apply Hgen|].
  split.
  - intros fuel Hfuel. rewrite Hgen. unfold delay_us_systick.
    change (u32 (1000 * 2)) with (Z.of_nat 2000).
    rewrite auto_assert_cycles; [reflexivity | exact Hfuel | ].
    change (Z.of_nat 2000) with 2000. lia.
  - unfold poll_then_clear_cycles.
    generalize (Load_CTRL (1 << SysTick_CTRL_COUNTFLAG_Pos)). intros op.
    reflexivity.
Qed.

End DelayFacts.

Lemma delay_ms_is_delay_us_of_1000n_witness :
  0 <= 16 < 32
  /\ delay_ms_systick (dh := stm32f407xx) (traced (auto_assert (dh := stm32f407xx)))
       2001 2 (false, [])
     = Done (false, poll_then_clear_cycles (dh := stm32f407xx) 2000).
Proof.
  split; [lia|].
  apply (proj1 (proj2 (proj2 (delay_ms_is_delay_us_of_1000n (dh := stm32f407xx)
                                ltac:(simpl; lia))))).
  lia.
Defined.

(** * Further properties *)

(** ** More bit-level facts *)

Lemma small_bits (x k i : Z) :
  0 <= x < 2 ^ k -> i < 0 \/ k <= i -> Z.testbit x i = false.
Proof.
  intros Hx [Hi|Hi]; [now apply Z.testbit_neg_r|].
  destruct (Z.eq_dec x 0) as [->|Hnz]; [apply Z.testbit_0_l|].
  apply Z.bits_above_log2; [lia|].
  assert (0 <= k) by (destruct (Z.lt_ge_cases k 0) as [Hk|]; [|assumption];
                      rewrite Z.pow_neg_r in Hx by assumption; lia).
  apply Z.lt_le_trans with k; [|assumption].
  apply Z.log2_lt_pow2; lia.
Qed.

Lemma u32_bits_high (x i : Z) : 32 <= i -> Z.testbit (u32 x) i = false.
Proof. intros H. unfold u32. apply Z.mod_pow2_bits_high. lia. Qed.

Lemma u32_ext (a b : Z) :
  (forall i, 0 <= i < 32 -> Z.testbit a i = Z.testbit b i) -> u32 a = u32 b.
Proof.
  intros H. apply Z.bits_inj'. intros i Hi.
  destruct (Z.lt_ge_cases i 32).
  - rewrite !u32_bits by lia. apply H. lia.
  - now rewrite !u32_bits_high.
Qed.

Lemma u32_idem (a : Z) : u32 (u32 a) = u32 a.
Proof. unfold u32. apply Z.mod_mod. lia. Qed.

Lemma field_bits (pos w r j : Z) :
  0 <= pos -> 0 <= w -> 0 <= j ->
  Z.testbit (field pos w r) j = (j <? w) && Z.testbit r (pos + j).
Proof.
  intros Hp Hw Hj. unfold field.
  destruct (Z.ltb_spec j w).
  - rewrite Z.mod_pow2_bits_low by lia. rewrite Z.shiftr_spec by lia.
    now rewrite (Z.add_comm pos j).
  - apply Z.mod_pow2_bits_high. lia.
Qed.

Lemma field_eq (pos w r v : Z) :
  0 <= pos -> 0 <= w -> 0 <= v < 2 ^ w ->
  (forall j, 0 <= j < w -> Z.testbit r (pos + j) = Z.testbit v j) ->
  field pos w r = v.
Proof.
  intros Hp Hw Hv H. apply Z.bits_inj'. intros j Hj.
  rewrite field_bits by assumption.
  destruct (Z.ltb_spec j w).
  - cbn. apply H. lia.
  - cbn. symmetry. apply (small_bits v w); [assumption | lia].
Qed.

Lemma field_zero_bits (pos w r j : Z) :
  0 <= pos -> 0 <= w -> field pos w r = 0 -> 0 <= j < w ->
  Z.testbit r (pos + j) = false.
Proof.
  intros Hp Hw Hz Hj.
  pose proof (field_bits pos w r j Hp Hw ltac:(lia)) as Hb.
  rewrite Hz, Z.testbit_0_l in Hb.
  replace (j <? w) with true in Hb by (symmetry; apply Z.ltb_lt; lia).
  cbn in Hb. now symmetry.
Qed.

Lemma or_store_keeps_bit (r e i : Z) :
  0 <= i < 32 -> Z.testbit r i = true -> Z.testbit (u32 (r .| e)) i = true.
Proof. intros Hi Hr. now rewrite u32_bits, Z.lor_spec, Hr by assumption. Qed.

(** ** SysTick initialisation, accepted requests *)

(** X1: an accepted request (1 to 0x01000000 ticks, interrupt mode 0 or 1)
    reports success, loads [ticks - 1], clears VAL and leaves CTRL with the
    enable and clock-source bits, the interrupt bit as requested, and nothing
    else: whatever CTRL held before is gone.  The other blocks are untouched. *)
Theorem systick_config_init_programs_timer
    {dh : DeviceHeader} (interrupt_mode ticks : Z) (s : Regs) :
  1 <= ticks <= 0x01000000 ->
  0 <= interrupt_mode <= 1 ->
  0 <= SysTick_CTRL_TICKINT_Pos < 32 ->
  let r := systick_config_init interrupt_mode ticks s in
  fst r = RCC_SUCCESS_FLAG
  /\ LOAD (SysTick (snd r)) = ticks - 1
  /\ VAL (SysTick (snd r)) = 0
  /\ (forall i, 0 <= i < 32 ->
        Z.testbit (CTRL (SysTick (snd r))) i
        = (i =? SysTick_CTRL_ENABLE_Pos)
          || ((i =? SysTick_CTRL_TICKINT_Pos) && (interrupt_mode =? 1))
          || (i =? SysTick_CTRL_CLKSOURCE_Pos))
  /\ RCC (snd r) = RCC s /\ GPIO (snd r) = GPIO s /\ USART (snd r) = USART s.
Proof.
  intros Ht Him Hpos r. subst r. unfold systick_config_init.
  replace (SYSTICK_RELOAD_VAL_MAX <? u32 (ticks - 1)) with false.
  2:{ symmetry. apply Z.ltb_ge. unfold SYSTICK_RELOAD_VAL_MAX.
      rewrite u32_small; lia. }
  cbn. repeat split.
  - apply u32_small. lia.
  - intros i Hi.
    rewrite u32_bits, !Z.lor_spec, !one_shl32_bits_any, shl32_bits by assumption.
    cbn [orb]. f_equal. f_equal.
    assert (interrupt_mode = 0 \/ interrupt_mode = 1) as [->| ->] by lia.
    + rewrite Z.testbit_0_l. cbn. now rewrite andb_false_r.
    + rewrite bit_of_one. cbn. rewrite andb_true_r.
      destruct (Z.eqb_spec (i - SysTick_CTRL_TICKINT_Pos) 0),
               (Z.eqb_spec i SysTick_CTRL_TICKINT_Pos); try reflexivity; lia.
Qed.

Lemma systick_config_init_programs_timer_witness :
  let r := systick_config_init (dh := stm32f407xx) 1 1000
             (mkRegs (RCC blank) (GPIO blank) (USART blank) (mkSysTick 0x10006 77 88)) in
  fst r = RCC_SUCCESS_FLAG /\ SysTick (snd r) = mkSysTick 7 999 0.
Proof.
  pose proof (systick_config_init_programs_timer (dh := stm32f407xx) 1 1000
                (mkRegs (RCC blank) (GPIO blank) (USART blank) (mkSysTick 0x10006 77 88))
                ltac:(lia) ltac:(lia) ltac:(simpl; lia)) as H.
  cbv zeta in H. destruct H as [H _].
  split; [exact H | reflexivity].
Defined.

(** X2: configuring twice with the same arguments is the same as configuring
    once, accepted or rejected. *)
Theorem systick_config_init_idempotent
    {dh : DeviceHeader} (interrupt_mode ticks : Z) (s : Regs) :
  systick_config_init interrupt_mode ticks
    (snd (systick_config_init interrupt_mode ticks s))
  = systick_config_init interrupt_mode ticks s.
Proof.
  unfold systick_config_init.
  destruct (SYSTICK_RELOAD_VAL_MAX <? u32 (ticks - 1)); reflexivity.
Qed.

(** ** Fields of a word *)

Lemma field_or (pos w a b : Z) :
  0 <= pos -> 0 <= w -> field pos w (a .| b) = field pos w a .| field pos w b.
Proof.
  intros Hp Hw. apply Z.bits_inj'. intros j Hj.
  rewrite Z.lor_spec, !field_bits, Z.lor_spec by assumption.
  destruct (j <? w); reflexivity.
Qed.

Lemma field_u32 (pos w a : Z) :
  0 <= pos -> 0 <= w -> pos + w <= 32 -> field pos w (u32 a) = field pos w a.
Proof.
  intros Hp Hw Hle. apply Z.bits_inj'. intros j Hj.
  rewrite !field_bits by assumption.
  destruct (Z.ltb_spec j w); [|reflexivity].
  cbn. apply u32_bits. lia.
Qed.

Lemma field_shl_same (pos w x : Z) :
  0 <= pos -> 0 < w -> pos + w <= 32 -> 0 <= x < 2 ^ w ->
  field pos w (x << pos) = x.
Proof.
  intros Hp Hw Hle Hx. apply field_eq; try lia.
  intros j Hj. rewrite shl32_bits by lia. f_equal. lia.
Qed.

Lemma field_shl_other (p1 w1 p2 w2 y : Z) :
  0 <= p1 -> 0 <= w1 -> p1 + w1 <= 32 ->
  0 <= p2 -> 0 < w2 -> p2 + w2 <= 32 ->
  p1 + w1 <= p2 \/ p2 + w2 <= p1 ->
  0 <= y < 2 ^ w2 ->
  field p1 w1 (y << p2) = 0.
Proof.
  intros Hp1 Hw1 Hle1 Hp2 Hw2 Hle2 Hdis Hy.
  destruct (Z.eq_dec w1 0) as [->|Hw1nz].
  - unfold field. now rewrite Z.pow_0_r, Z.mod_1_r.
  - apply field_eq; try lia.
    intros j Hj. rewrite shl32_bits, Z.testbit_0_l by lia.
    apply (small_bits y w2); [assumption | lia].
Qed.

Lemma field_range (pos w r : Z) : 0 <= w -> 0 <= field pos w r < 2 ^ w.
Proof. intros Hw. unfold field. apply Z.mod_pos_bound. lia. Qed.

Lemma or_all_ones_2 (a : Z) : 0 <= a < 2 ^ 2 -> a .| 3 = 3.
Proof.
  intros Ha. assert (a = 0 \/ a = 1 \/ a = 2 \/ a = 3) as [->|[->|[->| ->]]] by lia;
    reflexivity.
Qed.

(** Two selectors or-ed into a word, each at its own field. *)
Lemma or_into_two_fields (c x y p1 w1 p2 w2 : Z) :
  0 <= p1 -> 0 < w1 -> p1 + w1 <= 32 ->
  0 <= p2 -> 0 < w2 -> p2 + w2 <= 32 ->
  p1 + w1 <= p2 \/ p2 + w2 <= p1 ->
  0 <= x < 2 ^ w1 -> 0 <= y < 2 ^ w2 ->
  let c' := u32 (u32 (c .| (x << p1)) .| (y << p2)) in
  field p1 w1 c' = field p1 w1 c .| x
  /\ field p2 w2 c' = field p2 w2 c .| y
  /\ forall i, 0 <= i < 32 -> ~ p1 <= i < p1 + w1 -> ~ p2 <= i < p2 + w2 ->
               Z.testbit c' i = Z.testbit c i.
Proof.
  intros Hp1 Hw1 Hle1 Hp2 Hw2 Hle2 Hdis Hx Hy c'. subst c'.
  repeat split.
  - rewrite field_u32, field_or, field_u32, field_or by lia.
    rewrite field_shl_same by lia.
    rewrite (field_shl_other p1 w1 p2 w2) by lia.
    now rewrite Z.lor_0_r.
  - rewrite field_u32, field_or, field_u32, field_or by lia.
    rewrite field_shl_same by lia.
    rewrite (field_shl_other p2 w2 p1 w1) by lia.
    now rewrite Z.lor_0_r.
  - intros i Hi H1 H2.
    rewrite u32_bits, Z.lor_spec, u32_bits, Z.lor_spec, !shl32_bits by lia.
    rewrite (small_bits x w1), (small_bits y w2) by (assumption || lia).
    now rewrite !orb_false_r.
Qed.

(** ** Clock output pins, both channels *)

Section McoFacts.
Context {dh : DeviceHeader} {lh : LibHeader}.

Lemma MCO_Config_channel_2_CFGR (mco_clock_source mco_prescaler : Z) (s : Regs) :
  MCO_CHANNEL_1 <> MCO_CHANNEL_2 ->
  CFGR (RCC (MCO_Config MCO_CHANNEL_2 mco_clock_source mco_prescaler s))
  = u32 (u32 (CFGR (RCC s) .| (mco_clock_source << RCC_CFGR_MCO2_Pos))
         .| (mco_prescaler << RCC_CFGR_MCO2PRE_Pos)).
Proof.
  intros Hne. unfold MCO_Config.
  destruct (Z.eqb_spec MCO_CHANNEL_1 MCO_CHANNEL_2) as [|_]; [contradiction|].
  rewrite Z.eqb_refl. unfold seq, or_assign. cbn. now rewrite !or_onto_itself.
Qed.

(** X3: what channel 1 always achieves, and what it achieves only on clear
    fields.  The port A clock is enabled, the PA8 speed field reads 3 and the
    alternate-function bit of the PA8 mode field is set.  The MCO1 source and
    prescaler fields end as the old field or-ed with the selector, so they
    hold the selector exactly when they were 0 before; every CFGR bit outside
    the two fields is unchanged. *)
Theorem MCO_Config_channel_1_fields
    (mco_clock_source mco_prescaler : Z) (s : Regs) :
  0 <= RCC_AHB1ENR_GPIOAEN_Pos < 32 ->
  0 <= GPIO_MODER_MODER8_Pos /\ GPIO_MODER_MODER8_Pos + 2 <= 32 ->
  0 <= GPIO_OSPEEDR_OSPEED8_Pos /\ GPIO_OSPEEDR_OSPEED8_Pos + 2 <= 32 ->
  0 <= RCC_CFGR_MCO1_Pos /\ RCC_CFGR_MCO1_Pos + 2 <= 32 ->
  0 <= RCC_CFGR_MCO1PRE_Pos /\ RCC_CFGR_MCO1PRE_Pos + 3 <= 32 ->
  RCC_CFGR_MCO1_Pos + 2 <= RCC_CFGR_MCO1PRE_Pos
    \/ RCC_CFGR_MCO1PRE_Pos + 3 <= RCC_CFGR_MCO1_Pos ->
  0 <= mco_clock_source < 4 ->
  0 <= mco_prescaler < 8 ->
  let s' := MCO_Config MCO_CHANNEL_1 mco_clock_source mco_prescaler s in
  Z.testbit (AHB1ENR (RCC s')) RCC_AHB1ENR_GPIOAEN_Pos = true
  /\ field GPIO_OSPEEDR_OSPEED8_Pos 2 (OSPEEDR (GPIO s' GPIOA)) = 3
  /\ field GPIO_MODER_MODER8_Pos 2 (MODER (GPIO s' GPIOA))
     = field GPIO_MODER_MODER8_Pos 2 (MODER (GPIO s GPIOA)) .| 2
  /\ field RCC_CFGR_MCO1_Pos 2 (CFGR (RCC s'))
     = field RCC_CFGR_MCO1_Pos 2 (CFGR (RCC s)) .| mco_clock_source
  /\ field RCC_CFGR_MCO1PRE_Pos 3 (CFGR (RCC s'))
     = field RCC_CFGR_MCO1PRE_Pos 3 (CFGR (RCC s)) .| mco_prescaler
  /\ (field RCC_CFGR_MCO1_Pos 2 (CFGR (RCC s)) = 0 ->
      field RCC_CFGR_MCO1_Pos 2 (CFGR (RCC s')) = mco_clock_source)
  /\ (field RCC_CFGR_MCO1PRE_Pos 3 (CFGR (RCC s)) = 0 ->
      field RCC_CFGR_MCO1PRE_Pos 3 (CFGR (RCC s')) = mco_prescaler)
  /\ (forall i, 0 <= i < 32 ->
        ~ RCC_CFGR_MCO1_Pos <= i < RCC_CFGR_MCO1_Pos + 2 ->
        ~ RCC_CFGR_MCO1PRE_Pos <= i < RCC_CFGR_MCO1PRE_Pos + 3 ->
        Z.testbit (CFGR (RCC s')) i = Z.testbit (CFGR (RCC s)) i).
Proof.
  intros Hen Hmode Hspeed Hsrc Hpre Hdis Hx Hy s'.
  assert (let c' := CFGR (RCC s') in
          field RCC_CFGR_MCO1_Pos 2 c'
            = field RCC_CFGR_MCO1_Pos 2 (CFGR (RCC s)) .| mco_clock_source
          /\ field RCC_CFGR_MCO1PRE_Pos 3 c'
            = field RCC_CFGR_MCO1PRE_Pos 3 (CFGR (RCC s)) .| mco_prescaler
          /\ forall i, 0 <= i < 32 ->
               ~ RCC_CFGR_MCO1_Pos <= i < RCC_CFGR_MCO1_Pos + 2 ->
               ~ RCC_CFGR_MCO1PRE_Pos <= i < RCC_CFGR_MCO1PRE_Pos + 3 ->
               Z.testbit c' i = Z.testbit (CFGR (RCC s)) i) as H.
  { subst s'. rewrite MCO_Config_channel_1_CFGR.
    apply or_into_two_fields; (assumption || lia). }
  cbv zeta in H. destruct H as (Hf1 & Hf2 & Hout).
  assert (MODER (GPIO s' GPIOA)
          = u32 (MODER (GPIO s GPIOA) .| (2 << GPIO_MODER_MODER8_Pos))
          /\ OSPEEDR (GPIO s' GPIOA)
          = u32 (OSPEEDR (GPIO s GPIOA) .| (3 << GPIO_OSPEEDR_OSPEED8_Pos))
          /\ AHB1ENR (RCC s')
          = u32 (AHB1ENR (RCC s) .| (1 << RCC_AHB1ENR_GPIOAEN_Pos))) as (HM & HO & HA).
  { subst s'. unfold MCO_Config. rewrite Z.eqb_refl. unfold seq, or_assign. cbn.
    unfold upd. rewrite !Z.eqb_refl. cbn. now rewrite or_onto_itself. }
  repeat split.
  - rewrite HA, u32_bits, Z.lor_spec, one_shl32_bits, Z.eqb_refl by lia.
    apply orb_true_r.
  - rewrite HO, field_u32, field_or, field_shl_same by lia.
    apply or_all_ones_2. apply field_range. lia.
  - now rewrite HM, field_u32, field_or, field_shl_same by lia.
  - exact Hf1.
  - exact Hf2.
  - intros Hz. now rewrite Hf1, Hz.
  - intros Hz. now rewrite Hf2, Hz.
  - exact Hout.
Qed.

(** X4: the same for channel 2, on port C, pin 9 and the MCO2 fields.  The
    port C clock is enabled, the PC9 speed field reads 3 and the
    alternate-function bit of the PC9 mode field is set.  The MCO2 source and
    prescaler fields end as the old field or-ed with the selector, so they
    hold the selector exactly when they were 0 before; every CFGR bit outside
    the two fields is unchanged. *)
Theorem MCO_Config_channel_2_fields
    (mco_clock_source mco_prescaler : Z) (s : Regs) :
  MCO_CHANNEL_1 <> MCO_CHANNEL_2 ->
  0 <= RCC_AHB1ENR_GPIOCEN_Pos < 32 ->
  0 <= GPIO_MODER_MODER9_Pos /\ GPIO_MODER_MODER9_Pos + 2 <= 32 ->
  0 <= GPIO_OSPEEDR_OSPEED9_Pos /\ GPIO_OSPEEDR_OSPEED9_Pos + 2 <= 32 ->
  0 <= RCC_CFGR_MCO2_Pos /\ RCC_CFGR_MCO2_Pos + 2 <= 32 ->
  0 <= RCC_CFGR_MCO2PRE_Pos /\ RCC_CFGR_MCO2PRE_Pos + 3 <= 32 ->
  RCC_CFGR_MCO2_Pos + 2 <= RCC_CFGR_MCO2PRE_Pos
    \/ RCC_CFGR_MCO2PRE_Pos + 3 <= RCC_CFGR_MCO2_Pos ->
  0 <= mco_clock_source < 4 ->
  0 <= mco_prescaler < 8 ->
  let s' := MCO_Config MCO_CHANNEL_2 mco_clock_source mco_prescaler s in
  Z.testbit (AHB1ENR (RCC s')) RCC_AHB1ENR_GPIOCEN_Pos = true
  /\ field GPIO_OSPEEDR_OSPEED9_Pos 2 (OSPEEDR (GPIO s' GPIOC)) = 3
  /\ field GPIO_MODER_MODER9_Pos 2 (MODER (GPIO s' GPIOC))
     = field GPIO_MODER_MODER9_Pos 2 (MODER (GPIO s GPIOC)) .| 2
  /\ field RCC_CFGR_MCO2_Pos 2 (CFGR (RCC s'))
     = field RCC_CFGR_MCO2_Pos 2 (CFGR (RCC s)) .| mco_clock_source
  /\ field RCC_CFGR_MCO2PRE_Pos 3 (CFGR (RCC s'))
     = field RCC_CFGR_MCO2PRE_Pos 3 (CFGR (RCC s)) .| mco_prescaler
  /\ (field RCC_CFGR_MCO2_Pos 2 (CFGR (RCC s)) = 0 ->
      field RCC_CFGR_MCO2_Pos 2 (CFGR (RCC s')) = mco_clock_source)
  /\ (field RCC_CFGR_MCO2PRE_Pos 3 (CFGR (RCC s)) = 0 ->
      field RCC_CFGR_MCO2PRE_Pos 3 (CFGR (RCC s')) = mco_prescaler)
  /\ (forall i, 0 <= i < 32 ->
        ~ RCC_CFGR_MCO2_Pos <= i < RCC_CFGR_MCO2_Pos + 2 ->
        ~ RCC_CFGR_MCO2PRE_Pos <= i < RCC_CFGR_MCO2PRE_Pos + 3 ->
        Z.testbit (CFGR (RCC s')) i = Z.testbit (CFGR (RCC s)) i).
Proof.
  intros Hch Hen Hmode Hspeed Hsrc Hpre Hdis Hx Hy s'.
  assert (let c' := CFGR (RCC s') in
          field RCC_CFGR_MCO2_Pos 2 c'
            = field RCC_CFGR_MCO2_Pos 2 (CFGR (RCC s)) .| mco_clock_source
          /\ field RCC_CFGR_MCO2PRE_Pos 3 c'
            = field RCC_CFGR_MCO2PRE_Pos 3 (CFGR (RCC s)) .| mco_prescaler
          /\ forall i, 0 <= i < 32 ->
               ~ RCC_CFGR_MCO2_Pos <= i < RCC_CFGR_MCO2_Pos + 2 ->
               ~ RCC_CFGR_MCO2PRE_Pos <= i < RCC_CFGR_MCO2PRE_Pos + 3 ->
               Z.testbit c' i = Z.testbit (CFGR (RCC s)) i) as H.
  { subst s'. rewrite MCO_Config_channel_2_CFGR by assumption.
    apply or_into_two_fields; (assumption || lia). }
  cbv zeta in H. destruct H as (Hf1 & Hf2 & Hout).
  assert (MODER (GPIO s' GPIOC)
          = u32 (MODER (GPIO s GPIOC) .| (2 << GPIO_MODER_MODER9_Pos))
          /\ OSPEEDR (GPIO s' GPIOC)
          = u32 (OSPEEDR (GPIO s GPIOC) .| (3 << GPIO_OSPEEDR_OSPEED9_Pos))
          /\ AHB1ENR (RCC s')
          = u32 (AHB1ENR (RCC s) .| (1 << RCC_AHB1ENR_GPIOCEN_Pos))) as (HM & HO & HA).
  { subst s'. unfold MCO_Config.
    destruct (Z.eqb_spec MCO_CHANNEL_1 MCO_CHANNEL_2) as [|_]; [contradiction|].
    rewrite Z.eqb_refl. unfold seq, or_assign. cbn.
    unfold upd. rewrite !Z.eqb_refl. cbn. now rewrite or_onto_itself. }
  repeat split.
  - rewrite HA, u32_bits, Z.lor_spec, one_shl32_bits, Z.eqb_refl by lia.
    apply orb_true_r.
  - rewrite HO, field_u32, field_or, field_shl_same by lia.
    apply or_all_ones_2. apply field_range. lia.
  - now rewrite HM, field_u32, field_or, field_shl_same by lia.
  - exact Hf1.
  - exact Hf2.
  - intros Hz. now rewrite Hf1, Hz.
  - intros Hz. now rewrite Hf2, Hz.
  - exact Hout.
Qed.

(** X5: no channel value makes the routine clear a bit.  Every bit that was
    set in CFGR, in AHB1ENR or in the MODER or OSPEEDR of any port is still
    set afterwards, nothing else in the register file changes, and a channel
    other than the two defined ones changes nothing at all. *)
Theorem MCO_Config_never_clears_a_bit
    (mco_channel mco_clock_source mco_prescaler : Z) (s : Regs) (port i : Z) :
  0 <= i < 32 ->
  let s' := MCO_Config mco_channel mco_clock_source mco_prescaler s in
  (Z.testbit (CFGR (RCC s)) i = true -> Z.testbit (CFGR (RCC s')) i = true)
  /\ (Z.testbit (AHB1ENR (RCC s)) i = true -> Z.testbit (AHB1ENR (RCC s')) i = true)
  /\ (Z.testbit (MODER (GPIO s port)) i = true ->
      Z.testbit (MODER (GPIO s' port)) i = true)
  /\ (Z.testbit (OSPEEDR (GPIO s port)) i = true ->
      Z.testbit (OSPEEDR (GPIO s' port)) i = true)
  /\ (CR (RCC s') = CR (RCC s) /\ PLLCFGR (RCC s') = PLLCFGR (RCC s)
      /\ APB1ENR (RCC s') = APB1ENR (RCC s) /\ APB2ENR (RCC s') = APB2ENR (RCC s))
  /\ (OTYPER (GPIO s' port) = OTYPER (GPIO s port)
      /\ PUPDR (GPIO s' port) = PUPDR (GPIO s port)
      /\ AFR (GPIO s' port) = AFR (GPIO s port))
  /\ USART s' = USART s /\ SysTick s' = SysTick s
  /\ (mco_channel <> MCO_CHANNEL_1 -> mco_channel <> MCO_CHANNEL_2 -> s' = s).
Proof.
  intros Hi s'. subst s'. unfold MCO_Config.
  destruct (Z.eqb_spec MCO_CHANNEL_1 mco_channel) as [E1|N1];
    [|destruct (Z.eqb_spec MCO_CHANNEL_2 mco_channel) as [E2|N2]];
    unfold seq, or_assign, skip; cbn; unfold upd;
    repeat match goal with
           | |- context [if ?a =? ?b then _ else _] => destruct (Z.eqb_spec a b)
           end; cbn;
    repeat split; try reflexivity; try congruence; intros;
    repeat (apply or_store_keeps_bit; [assumption|]); congruence.
Qed.

End McoFacts.

(** ** Bus prescalers, repeated *)

(** X6: the routine only ever adds bits to CFGR: a bit that was set stays
    set, so a prescaler field cannot be lowered by it; it touches nothing
    but CFGR; and running it a second time with the same record (whatever
    clock value is passed) changes nothing more. *)
Theorem system_clock_setting_only_adds_bits
    {dh : DeviceHeader} (clock1 clock2 : Z) (cfg : system_bus_clk_cfg_t) (s : Regs) :
  let s' := system_clock_setting clock1 cfg s in
  (forall i, 0 <= i < 32 ->
     Z.testbit (CFGR (RCC s)) i = true -> Z.testbit (CFGR (RCC s')) i = true)
  /\ (forall r, wr RCC_CFGR r s' = wr RCC_CFGR r s)
  /\ system_clock_setting clock2 cfg s' = s'.
Proof.
  intros s'. subst s'. unfold system_clock_setting, seq, or_assign. cbn.
  rewrite !or_onto_itself.
  split; [|split].
  - intros i Hi Hset. now repeat (apply or_store_keeps_bit; [assumption|]).
  - reflexivity.
  - unfold with_RCC. cbn. f_equal. f_equal.
    apply Z.bits_inj'. intros i Hi.
    destruct (Z.lt_ge_cases i 32).
    + repeat first [rewrite u32_bits by lia | rewrite Z.lor_spec].
      destruct (Z.testbit (CFGR (RCC s)) i), (Z.testbit (ppre1_apb1_pre cfg) i),
        (Z.testbit (ppre2_apb2_pre cfg) i), (Z.testbit (rtcpre_pre cfg) i);
        reflexivity.
    + now rewrite !u32_bits_high by lia.
Qed.

(** ** Clock source selection, every request *)

Lemma sws_as_field (x p : Z) :
  0 <= p < 32 -> (x >> p) .& 3 = field p 2 (u32 x).
Proof.
  intros Hp. unfold shr32, field.
  replace ((0 <=? p) && (p <? 32)) with true
    by (symmetry; apply andb_true_iff; split; [apply Z.leb_le | apply Z.ltb_lt]; lia).
  change 3 with (Z.ones 2). apply Z.land_ones. lia.
Qed.

Lemma sws_at_most_3 (x p : Z) : 0 <= (x >> p) .& 3 < 4.
Proof.
  change 3 with (Z.ones 2). rewrite Z.land_ones by lia.
  apply Z.mod_pos_bound. reflexivity.
Qed.

Section SourceFacts.
Context {dh : DeviceHeader} {lh : LibHeader}.
Variable hw : Regs -> Regs.

Lemma wait_until_holds (fuel : nat) (cond : Regs -> bool) :
  forall s s', wait_until hw fuel cond s = Done s' -> cond s' = true.
Proof.
  induction fuel as [|fuel IH]; intros s s' H; cbn in H; [discriminate H|].
  destruct (cond s) eqn:E.
  - inversion H. now subst.
  - exact (IH _ _ H).
Qed.

Lemma wait_until_never (fuel : nat) (cond : Regs -> bool) :
  (forall s, cond s = false) -> forall s, wait_until hw fuel cond s = Stuck.
Proof.
  intros Hc. induction fuel as [|fuel IH]; intros s; cbn; [reflexivity|].
  rewrite Hc. apply IH.
Qed.

(** The routine ends with the switch, the wait for its status and the HPRE
    clear, whichever branch ran first. *)
Lemma RCC_run_ends_with_switch
    (fuel : nat) (system_clock_source pll_clock_source : Z)
    (p : option RCC_PLL_CONFIG_PARAMS_t) (s s' : Regs)
    (p' : option RCC_PLL_CONFIG_PARAMS_t) :
  RCC_System_Clock_Source_Config hw fuel system_clock_source pll_clock_source p s
    = Done (s', p') ->
  exists s3 s4,
    wait_until hw fuel
      (fun s => (((rd RCC_CFGR s) >> RCC_CFGR_SWS_Pos) .& 3) =? u32 system_clock_source)
      s3 = Done s4
    /\ s' = (RCC_CFGR &= #(!~ (0xF << RCC_CFGR_HPRE_Pos))) s4.
Proof.
  unfold RCC_System_Clock_Source_Config. intros H.
  match type of H with
  | bind ?m _ = _ => destruct m as [[s3 p3]| |]
  end; cbn [bind] in H; try discriminate H.
  match type of H with
  | context [wait_until hw fuel ?c ?x] =>
      destruct (wait_until hw fuel c x) as [s4| |] eqn:W
  end; cbn [bind] in H; try discriminate H.
  inversion H. eauto.
Qed.

(** X7: when the routine returns, the switch status field reads the
    requested source and the AHB prescaler field is 0, for every request and
    however the hardware behaved during the waits. *)
Theorem RCC_return_means_switched
    (fuel : nat) (system_clock_source pll_clock_source : Z)
    (p : option RCC_PLL_CONFIG_PARAMS_t) (s s' : Regs)
    (p' : option RCC_PLL_CONFIG_PARAMS_t) :
  0 <= RCC_CFGR_SWS_Pos /\ RCC_CFGR_SWS_Pos + 2 <= 32 ->
  0 <= RCC_CFGR_HPRE_Pos /\ RCC_CFGR_HPRE_Pos + 4 <= 32 ->
  RCC_CFGR_SWS_Pos + 2 <= RCC_CFGR_HPRE_Pos
    \/ RCC_CFGR_HPRE_Pos + 4 <= RCC_CFGR_SWS_Pos ->
  RCC_System_Clock_Source_Config hw fuel system_clock_source pll_clock_source p s
    = Done (s', p') ->
  field RCC_CFGR_SWS_Pos 2 (CFGR (RCC s')) = u32 system_clock_source
  /\ field RCC_CFGR_HPRE_Pos 4 (CFGR (RCC s')) = 0
  /\ 0 <= u32 system_clock_source < 4.
Proof.
  intros Hsws Hhpre Hdis Hrun.
  destruct (RCC_run_ends_with_switch _ _ _ _ _ _ _ Hrun) as (s3 & s4 & W & ->).
  apply wait_until_holds in W. apply Z.eqb_eq in W.
  rewrite sws_as_field, field_u32 in W by lia.
  unfold and_assign. cbn.
  assert (forall j, 0 <= j < 4 ->
            Z.testbit (!~ (15 << RCC_CFGR_HPRE_Pos)) (RCC_CFGR_HPRE_Pos + j) = false) as Hin.
  { intros j Hj. rewrite not32_bits, shl32_bits by lia.
    replace (RCC_CFGR_HPRE_Pos + j - RCC_CFGR_HPRE_Pos) with j by lia.
    assert (j = 0 \/ j = 1 \/ j = 2 \/ j = 3) as [->|[->|[->| ->]]] by lia; reflexivity. }
  assert (forall i, 0 <= i < 32 ->
            ~ RCC_CFGR_HPRE_Pos <= i < RCC_CFGR_HPRE_Pos + 4 ->
            Z.testbit (!~ (15 << RCC_CFGR_HPRE_Pos)) i = true) as Hout.
  { intros i Hi Hn. rewrite not32_bits, shl32_bits by lia.
    rewrite (small_bits 15 4) by lia. reflexivity. }
  split; [|split].
  - rewrite <- W. rewrite field_u32 by lia.
    apply Z.bits_inj'. intros j Hj. rewrite !field_bits by lia.
    destruct (Z.ltb_spec j 2); [|reflexivity]. cbn.
    rewrite Z.land_spec, Hout by lia. apply andb_true_r.
  - rewrite field_u32 by lia. apply field_eq; try lia.
    intros j Hj. rewrite Z.land_spec, Hin by lia.
    now rewrite andb_false_r, Z.testbit_0_l.
  - rewrite <- W. apply (field_range RCC_CFGR_SWS_Pos 2). lia.
Qed.

(** X8: a selector that does not fit the two-bit switch field can never be
    confirmed by the status field, so such a request never returns, on any
    hardware and with any fuel. *)
Theorem RCC_wide_selector_never_returns
    (fuel : nat) (system_clock_source pll_clock_source : Z)
    (p : option RCC_PLL_CONFIG_PARAMS_t) (s : Regs) :
  4 <= u32 system_clock_source ->
  forall r,
    RCC_System_Clock_Source_Config hw fuel system_clock_source pll_clock_source p s
    <> Done r.
Proof.
  intros Hwide [s' p'] Hrun.
  destruct (RCC_run_ends_with_switch _ _ _ _ _ _ _ Hrun) as (s3 & s4 & W & _).
  rewrite wait_until_never in W; [discriminate W|].
  intros s0. apply Z.eqb_neq.
  pose proof (sws_at_most_3 (rd RCC_CFGR s0) RCC_CFGR_SWS_Pos). lia.
Qed.

End SourceFacts.

Section OscillatorFacts.
Context {dh : DeviceHeader} {lh : LibHeader}.
Variable hw : Regs -> Regs.

(** Takes the next busy-wait of a returned run apart. *)
Ltac next_wait H :=
  match type of H with
  | context [bind (wait_until hw ?f ?c ?x) _] =>
      let W := fresh "W" in
      let a := fresh "s" in
      destruct (wait_until hw f c x) as [a| |] eqn:W;
      cbn [bind] in H; [|discriminate H..]
  end.

Lemma CR_bit_after_stores (s : Regs) (i : Z) :
  0 <= i < 32 ->
  Z.testbit (CR (RCC s)) i = true ->
  Z.testbit (CR (RCC (switch_on_HSI s))) i = true
  /\ Z.testbit (CR (RCC (switch_on_HSE s))) i = true
  /\ Z.testbit (CR (RCC ((RCC_CR |= #(1 << RCC_CR_PLLON_Pos)) s))) i = true
  /\ (i <> RCC_CR_PLLON_Pos ->
      Z.testbit (CR (RCC ((RCC_CR &= #(!~ (1 << RCC_CR_PLLON_Pos))) s))) i = true).
Proof.
  intros Hi Hset. unfold switch_on_HSI, switch_on_HSE, or_assign, and_assign. cbn.
  repeat split; try (apply or_store_keeps_bit; assumption).
  intros Hne. rewrite u32_bits, Z.land_spec, Hset, not32_bits, one_shl32_bits_any by assumption.
  destruct (Z.eqb_spec i RCC_CR_PLLON_Pos); [contradiction | reflexivity].
Qed.

(** X9: no request switches an oscillator off.  Any CR bit other than PLLON
    that was set before the call, and that the hardware itself leaves alone,
    is still set when the routine returns: requesting HSE leaves HSI on,
    requesting HSI leaves HSE on, and so does a PLL request. *)
Theorem RCC_request_never_switches_off
    (fuel : nat) (system_clock_source pll_clock_source : Z)
    (p : option RCC_PLL_CONFIG_PARAMS_t) (s s' : Regs)
    (p' : option RCC_PLL_CONFIG_PARAMS_t) (i : Z) :
  0 <= i < 32 ->
  i <> RCC_CR_PLLON_Pos ->
  (forall s0, Z.testbit (CR (RCC (hw s0))) i = Z.testbit (CR (RCC s0)) i) ->
  RCC_System_Clock_Source_Config hw fuel system_clock_source pll_clock_source p s
    = Done (s', p') ->
  Z.testbit (CR (RCC s)) i = true ->
  Z.testbit (CR (RCC s')) i = true.
Proof.
  intros Hi Hne Hhw Hrun Hset.
  pose proof (wait_until_keeps hw (fun s => Z.testbit (CR (RCC s)) i) fuel) as K.
  pose proof (fun s H => proj1 (CR_bit_after_stores s i Hi H)) as K1.
  pose proof (fun s H => proj1 (proj2 (CR_bit_after_stores s i Hi H))) as K2.
  pose proof (fun s H => proj1 (proj2 (proj2 (CR_bit_after_stores s i Hi H)))) as K3.
  pose proof (fun s H => proj2 (proj2 (proj2 (CR_bit_after_stores s i Hi H))) Hne) as K4.
  unfold RCC_System_Clock_Source_Config in Hrun.
  destruct (SYS_CLOCK_SOURCE_HSI =? system_clock_source);
    [|destruct (SYS_CLOCK_SOURCE_HSE =? system_clock_source);
      [|destruct (SYS_CLOCK_SOURCE_PLL =? system_clock_source)]].
  - next_wait Hrun. next_wait Hrun. inversion Hrun; subst; clear Hrun.
    apply (K _ Hhw) in W, W0. cbn in W0 |- *. rewrite W0, W. now apply K1.
  - next_wait Hrun. next_wait Hrun. inversion Hrun; subst; clear Hrun.
    apply (K _ Hhw) in W, W0. cbn in W0 |- *. rewrite W0, W. now apply K2.
  - next_wait Hrun. destruct p as [p|]; [|discriminate Hrun]. cbv zeta in Hrun.
    apply (K _ Hhw) in W.
    assert (Z.testbit (CR (RCC s0)) i = true) as H0 by (rewrite W; now apply K4).
    destruct (PLL_CLOCK_SRC_HSI =? pll_clock_source);
      [|destruct (PLL_CLOCK_SRC_HSE =? pll_clock_source)];
      [next_wait Hrun | next_wait Hrun | cbn [bind] in Hrun];
      next_wait Hrun; next_wait Hrun; inversion Hrun; subst; clear Hrun.
    + apply (K _ Hhw) in W0, W1, W2. cbn in W1, W2 |- *. unfold settle, skip in W1.
      rewrite W2, W1. apply or_store_keeps_bit; [assumption|].
      rewrite W0. now apply K1.
    + apply (K _ Hhw) in W0, W1, W2. cbn in W1, W2 |- *. unfold settle, skip in W1.
      rewrite W2, W1. apply or_store_keeps_bit; [assumption|].
      rewrite W0. now apply K2.
    + apply (K _ Hhw) in W0, W1. cbn in W0, W1 |- *. unfold settle, skip in W0.
      rewrite W1, W0. now apply or_store_keeps_bit.
  - cbn [bind] in Hrun. next_wait Hrun. inversion Hrun; subst; clear Hrun.
    apply (K _ Hhw) in W. cbn in W |- *. now rewrite W.
Qed.

(** X10: the record behind the pointer is only used by a PLL request.  Any
    other request never dereferences it, so a null pointer is safe there,
    and hands it back unchanged. *)
Theorem RCC_record_untouched_without_PLL
    (fuel : nat) (system_clock_source pll_clock_source : Z)
    (p : option RCC_PLL_CONFIG_PARAMS_t) (s : Regs) :
  SYS_CLOCK_SOURCE_PLL <> system_clock_source ->
  RCC_System_Clock_Source_Config hw fuel system_clock_source pll_clock_source p s
    <> Trap
  /\ forall s' p',
       RCC_System_Clock_Source_Config hw fuel system_clock_source pll_clock_source p s
         = Done (s', p') -> p' = p.
Proof.
  intros Hne. unfold RCC_System_Clock_Source_Config.
  destruct (Z.eqb_spec SYS_CLOCK_SOURCE_PLL system_clock_source) as [|_]; [contradiction|].
  split.
  - apply bind_not_trap.
    + destruct (SYS_CLOCK_SOURCE_HSI =? system_clock_source);
        [|destruct (SYS_CLOCK_SOURCE_HSE =? system_clock_source)];
        try (apply bind_not_trap; [apply wait_until_not_trap | discriminate]).
      discriminate.
    + intros [s3 p3]. apply bind_not_trap; [apply wait_until_not_trap | discriminate].
  - intros s' p' Hrun.
    destruct (SYS_CLOCK_SOURCE_HSI =? system_clock_source);
      [|destruct (SYS_CLOCK_SOURCE_HSE =? system_clock_source)];
      try next_wait Hrun; cbn [bind] in Hrun; next_wait Hrun;
      now inversion Hrun.
Qed.

(** X11: the in-place rewrite makes the record single use.  After one
    returned PLL request the record holds the encoded divider; feeding that
    same record to a second PLL request encodes it again, and what the second
    call leaves (and programs) is never the encoding of the original divider. *)
Theorem RCC_PLL_record_is_single_use
    (fuel1 fuel2 : nat) (source1 source2 : Z) (p : RCC_PLL_CONFIG_PARAMS_t)
    (s s1 s2 : Regs) (p1 p2 : option RCC_PLL_CONFIG_PARAMS_t) :
  SYS_CLOCK_SOURCE_HSI <> SYS_CLOCK_SOURCE_PLL ->
  SYS_CLOCK_SOURCE_HSE <> SYS_CLOCK_SOURCE_PLL ->
  In (PLLP p) [2; 4; 6; 8] ->
  RCC_System_Clock_Source_Config hw fuel1 SYS_CLOCK_SOURCE_PLL source1 (Some p) s
    = Done (s1, p1) ->
  RCC_System_Clock_Source_Config hw fuel2 SYS_CLOCK_SOURCE_PLL source2 p1 s1
    = Done (s2, p2) ->
  exists q,
    p2 = Some q
    /\ PLLP q = (if PLLP p <=? 4 then 0xFFFFFFFF else 0)
    /\ PLLP q <> PLLP p / 2 - 1
    /\ PLLM q = PLLM p /\ PLLN q = PLLN p /\ PLLQ q = PLLQ p.
Proof.
  intros Hhsi Hhse Hin H1 H2.
  destruct (PLL_branch_returns_encoded hw _ _ _ _ _ _ Hhsi Hhse H1) as [-> _].
  destruct (PLL_branch_returns_encoded hw _ _ _ _ _ _ Hhsi Hhse H2) as [-> _].
  eexists. split; [reflexivity|].
  cbn in Hin. unfold encode_PLLP. cbn [PLLP PLLM PLLN PLLQ].
  destruct Hin as [E|[E|[E|[E|[]]]]]; rewrite <- E; cbn; repeat split; discriminate.
Qed.

End OscillatorFacts.

(** ** PLLCFGR on the STM32F407 layout *)

Lemma below_cases (w : nat) (P : Z -> Prop) :
  (forall k : nat, (k < w)%nat -> P (Z.of_nat k)) ->
  forall j, 0 <= j < Z.of_nat w -> P j.
Proof.
  intros H j Hj. rewrite <- (Z2Nat.id j) by lia. apply H. lia.
Qed.

Lemma field_land_clear (pos w a k : Z) :
  0 <= pos -> 0 <= w ->
  (forall j, 0 <= j < w -> Z.testbit k (pos + j) = false) ->
  field pos w (a .& k) = 0.
Proof.
  intros Hp Hw Hk. apply field_eq; try lia.
  intros j Hj. rewrite Z.land_spec, Hk by assumption.
  now rewrite andb_false_r, Z.testbit_0_l.
Qed.

Lemma program_PLLCFGR_word (pll_clock_source : Z) (q : RCC_PLL_CONFIG_PARAMS_t) (s : Regs) :
  PLLCFGR (RCC (program_PLLCFGR (dh := stm32f407xx) pll_clock_source q s))
  = u32 (u32 (PLLCFGR (RCC s) .& !~ 0x0F437FFF)
         .| ((PLLM q << 0) .| (PLLN q << 6) .| (PLLP q << 16) .| (PLLQ q << 24)
             .| (pll_clock_source << 22))).
Proof. reflexivity. Qed.

(** Decides a statement about each bit index below a literal bound by
    trying the indices one after the other. *)
Ltac each_index_from k :=
  first [ exfalso; lia
        | destruct k as [|k]; [try reflexivity | each_index_from k] ].

Ltac each_index n :=
  apply (below_cases n); let k := fresh "k" in intros k ?; each_index_from k.

Lemma PLLCFGR_fields (src m n pp q c : Z) :
  0 <= m < 64 -> 0 <= n < 512 -> 0 <= pp < 4 -> 0 <= q < 16 -> 0 <= src < 2 ->
  let c' := u32 (u32 (c .& !~ 0x0F437FFF)
                 .| ((m << 0) .| (n << 6) .| (pp << 16) .| (q << 24) .| (src << 22))) in
  field 0 6 c' = m /\ field 6 9 c' = n /\ field 16 2 c' = pp
  /\ field 24 4 c' = q /\ field 22 1 c' = src
  /\ forall i, 0 <= i < 32 -> Z.testbit 0x0F437FFF i = false ->
               Z.testbit c' i = Z.testbit c i.
Proof.
  intros Hm Hn Hpp Hq Hsrc c'. subst c'.
  assert (forall pos w, 0 <= pos -> 0 <= w -> pos + w <= 32 ->
            (forall j, 0 <= j < w -> Z.testbit (!~ 0x0F437FFF) (pos + j) = false) ->
            field pos w (u32 (u32 (c .& !~ 0x0F437FFF)
                              .| ((m << 0) .| (n << 6) .| (pp << 16) .| (q << 24)
                                  .| (src << 22))))
            = field pos w (m << 0) .| field pos w (n << 6) .| field pos w (pp << 16)
              .| field pos w (q << 24) .| field pos w (src << 22)) as F.
  { intros pos w Hp Hw Hle Hk.
    rewrite field_u32, field_or, field_u32 by lia.
    rewrite (field_land_clear pos w c) by assumption.
    rewrite Z.lor_0_l. now rewrite !field_or by lia. }
  split; [|split; [|split; [|split; [|split]]]].
  - rewrite F; [|lia|lia|lia|each_index 6%nat].
    rewrite field_shl_same by lia.
    rewrite (field_shl_other 0 6 6 9), (field_shl_other 0 6 16 2),
      (field_shl_other 0 6 24 4), (field_shl_other 0 6 22 1) by lia.
    now rewrite !Z.lor_0_r.
  - rewrite F; [|lia|lia|lia|each_index 9%nat].
    rewrite field_shl_same by lia.
    rewrite (field_shl_other 6 9 0 6), (field_shl_other 6 9 16 2),
      (field_shl_other 6 9 24 4), (field_shl_other 6 9 22 1) by lia.
    now rewrite !Z.lor_0_r.
  - rewrite F; [|lia|lia|lia|each_index 2%nat].
    rewrite field_shl_same by lia.
    rewrite (field_shl_other 16 2 0 6), (field_shl_other 16 2 6 9),
      (field_shl_other 16 2 24 4), (field_shl_other 16 2 22 1) by lia.
    now rewrite !Z.lor_0_r.
  - rewrite F; [|lia|lia|lia|each_index 4%nat].
    rewrite field_shl_same by lia.
    rewrite (field_shl_other 24 4 0 6), (field_shl_other 24 4 6 9),
      (field_shl_other 24 4 16 2), (field_shl_other 24 4 22 1) by lia.
    now rewrite !Z.lor_0_r.
  - rewrite F; [|lia|lia|lia|each_index 1%nat].
    rewrite field_shl_same by lia.
    rewrite (field_shl_other 22 1 0 6), (field_shl_other 22 1 6 9),
      (field_shl_other 22 1 16 2), (field_shl_other 22 1 24 4) by lia.
    now rewrite !Z.lor_0_r.
  - intros i Hi Hres.
    rewrite u32_bits, Z.lor_spec, u32_bits, Z.land_spec, not32_bits, Hres by lia.
    cbn [negb]. rewrite andb_true_r, !Z.lor_spec, !shl32_bits by lia.
    revert i Hi Hres.
    apply (below_cases 32 (fun i => Z.testbit 0x0F437FFF i = false -> _)).
    intros k Hk.
    do 32 (destruct k as [|k];
           [first [ discriminate
                  | intros _;
                    rewrite (small_bits m 6), (small_bits n 9), (small_bits pp 2),
                      (small_bits q 4), (small_bits src 1) by (assumption || (cbn; lia));
                    now rewrite !orb_false_r ] |]).
    lia.
Qed.

(** X12: on the STM32F407 layout a returned PLL request leaves the five
    PLLCFGR fields reading back exactly the record's M, N, encoded P and Q
    and the PLL source, whatever they held before, and leaves the reserved
    bits of PLLCFGR as they were (on hardware that does not alter PLLCFGR by
    itself). *)
Theorem RCC_PLL_request_programs_PLLCFGR
    {lh : LibHeader} (hw : Regs -> Regs) (fuel : nat) (pll_clock_source : Z)
    (p : RCC_PLL_CONFIG_PARAMS_t) (s s' : Regs)
    (p' : option RCC_PLL_CONFIG_PARAMS_t) :
  SYS_CLOCK_SOURCE_HSI <> SYS_CLOCK_SOURCE_PLL ->
  SYS_CLOCK_SOURCE_HSE <> SYS_CLOCK_SOURCE_PLL ->
  In (PLLP p) [2; 4; 6; 8] ->
  0 <= PLLM p < 64 -> 0 <= PLLN p < 512 -> 0 <= PLLQ p < 16 ->
  0 <= pll_clock_source < 2 ->
  (forall s0, PLLCFGR (RCC (hw s0)) = PLLCFGR (RCC s0)) ->
  RCC_System_Clock_Source_Config (dh := stm32f407xx) hw fuel SYS_CLOCK_SOURCE_PLL
    pll_clock_source (Some p) s = Done (s', p') ->
  field 0 6 (PLLCFGR (RCC s')) = PLLM p
  /\ field 6 9 (PLLCFGR (RCC s')) = PLLN p
  /\ field 16 2 (PLLCFGR (RCC s')) = PLLP p / 2 - 1
  /\ field 24 4 (PLLCFGR (RCC s')) = PLLQ p
  /\ field 22 1 (PLLCFGR (RCC s')) = pll_clock_source
  /\ forall i, 0 <= i < 32 -> Z.testbit 0x0F437FFF i = false ->
               Z.testbit (PLLCFGR (RCC s')) i = Z.testbit (PLLCFGR (RCC s)) i.
Proof.
  intros Hhsi Hhse Hin Hm Hn Hq Hsrc Hhw Hrun.
  destruct (PLL_branch_returns_encoded (dh := stm32f407xx) hw _ _ _ _ _ _ Hhsi Hhse Hrun)
    as [_ HP].
  rewrite (HP Hhw), program_PLLCFGR_word.
  destruct (encode_PLLP_even p Hin) as [Henc Hrange].
  rewrite <- Henc.
  apply PLLCFGR_fields; assumption.
Qed.

Lemma RCC_PLL_request_programs_PLLCFGR_witness :
  exists s',
    RCC_System_Clock_Source_Config (dh := stm32f407xx) (lh := aj_headers)
      (responsive (dh := stm32f407xx)) 2 2 1 (Some (mkPLL 8 336 4 7))
      (mkRegs (mkRCC 0 0xFFFFFFFF 0 0 0 0) (GPIO blank) (USART blank) (SysTick blank))
    = Done (s', Some (mkPLL 8 336 1 7))
    /\ field 0 6 (PLLCFGR (RCC s')) = 8
    /\ field 6 9 (PLLCFGR (RCC s')) = 336
    /\ field 16 2 (PLLCFGR (RCC s')) = 1
    /\ field 24 4 (PLLCFGR (RCC s')) = 7
    /\ field 22 1 (PLLCFGR (RCC s')) = 1.
Proof.
  destruct (returned_record_Done
              (RCC_System_Clock_Source_Config (dh := stm32f407xx) (lh := aj_headers)
                 (responsive (dh := stm32f407xx)) 2 2 1 (Some (mkPLL 8 336 4 7))
                 (mkRegs (mkRCC 0 0xFFFFFFFF 0 0 0 0) (GPIO blank) (USART blank)
                         (SysTick blank)))
              (Some (mkPLL 8 336 1 7)) eq_refl) as [s' Hs'].
  exists s'. split; [exact Hs'|].
  destruct (RCC_PLL_request_programs_PLLCFGR (lh := aj_headers)
              (responsive (dh := stm32f407xx)) 2 1 (mkPLL 8 336 4 7) _ s' _
              ltac:(simpl; lia) ltac:(simpl; lia) ltac:(simpl; tauto)
              ltac:(simpl; lia) ltac:(simpl; lia) ltac:(simpl; lia) ltac:(lia)
              ltac:(intros s0; reflexivity) Hs')
    as (H1 & H2 & H3 & H4 & H5 & _).
  repeat split; assumption.
Defined.

(** ** Delays of any length *)

Section DelayLengths.
Context {dh : DeviceHeader}.

Lemma stalled_wait {D : Type} (port : SysTick_port D) :
  (forall d, (fst (load_CTRL port d)) .& (1 << SysTick_CTRL_COUNTFLAG_Pos) = 0) ->
  forall (fuel : nat) (d : D), wait_COUNTFLAG port fuel d = Stuck.
Proof.
  intros Hnever. induction fuel as [|fuel IH]; intros d; cbn; [reflexivity|].
  pose proof (Hnever d) as H. destruct (load_CTRL port d) as [v d']. cbn in H.
  rewrite H. cbn. apply IH.
Qed.

(** X13: on the test double a microsecond delay of [n] returns after exactly
    [n] store-then-load cycles, and a millisecond delay of [n] after exactly
    [1000 * n mod 2^32] cycles: the product is not widened, so a request of
    4294968 ms or more is cut short. *)
Theorem delay_length_on_test_double (n : Z) (fuel : nat) :
  0 <= SysTick_CTRL_COUNTFLAG_Pos < 32 ->
  0 <= n < 2 ^ 32 ->
  ((Z.to_nat n < fuel)%nat ->
   delay_us_systick (traced auto_assert) fuel n (false, [])
   = Done (false, poll_then_clear_cycles (Z.to_nat n)))
  /\ ((Z.to_nat (u32 (n * 1000)) < fuel)%nat ->
      delay_ms_systick (traced auto_assert) fuel n (false, [])
      = Done (false, poll_then_clear_cycles (Z.to_nat (u32 (n * 1000))))).
Proof.
  intros Hpos Hn.
  assert (forall c, 0 <= c < 2 ^ 32 -> (Z.to_nat c < fuel)%nat ->
            delay_us_loop (traced auto_assert) fuel c (false, [])
            = Done (false, poll_then_clear_cycles (Z.to_nat c))) as H.
  { intros c Hc Hfuel.
    rewrite <- (Z2Nat.id c) at 1 by lia.
    rewrite (auto_assert_cycles Hpos);
      [| assumption | rewrite Z2Nat.id by (apply Hc); apply Hc].
    cbn [app]. now destruct (Z.to_nat c). }
  split; intros Hfuel.
  - apply H; assumption.
  - unfold delay_ms_systick. rewrite delay_loops_agree.
    apply H; [|assumption]. unfold u32. apply Z.mod_pos_bound. reflexivity.
Qed.

(** X14: a zero delay returns at once without touching the timer, and on a
    timer whose count flag never comes up every other delay waits for ever:
    no amount of fuel lets it return. *)
Theorem delay_on_stalled_timer
    {D : Type} (port : SysTick_port D) (fuel : nat) (n : Z) (d : D) :
  (forall d0, (fst (load_CTRL port d0)) .& (1 << SysTick_CTRL_COUNTFLAG_Pos) = 0) ->
  delay_us_systick port (S fuel) 0 d = Done d
  /\ delay_ms_systick port (S fuel) 0 d = Done d
  /\ (n <> 0 -> delay_us_systick port fuel n d = Stuck)
  /\ (u32 (n * 1000) <> 0 -> delay_ms_systick port fuel n d = Stuck).
Proof.
  intros Hnever.
  assert (forall c, c <> 0 -> delay_us_loop port fuel c d = Stuck) as H.
  { intros c Hc. destruct fuel as [|fuel']; [reflexivity|]. cbn.
    replace (c =? 0) with false by (symmetry; now apply Z.eqb_neq).
    now rewrite stalled_wait. }
  repeat split.
  - intros Hn. now apply H.
  - intros Hn. unfold delay_ms_systick. rewrite delay_loops_agree. now apply H.
Qed.

End DelayLengths.

Lemma delay_length_on_test_double_witness :
  u32 (4294968 * 1000) = 704
  /\ delay_ms_systick (dh := stm32f407xx) (traced (auto_assert (dh := stm32f407xx)))
       705 4294968 (false, [])
     = Done (false, poll_then_clear_cycles (dh := stm32f407xx) 704).
Proof.
  split; [reflexivity|].
  apply (proj2 (delay_length_on_test_double (dh := stm32f407xx) 4294968 705
                  ltac:(simpl; lia) ltac:(lia))).
  change (Z.to_nat (u32 (4294968 * 1000))) with 704%nat. lia.
Defined.

Lemma delay_on_stalled_timer_witness :
  delay_us_systick (dh := stm32f407xx) halted 1000 0 tt = Done tt
  /\ delay_us_systick (dh := stm32f407xx) halted 1000 5 tt = Stuck.
Proof.
  split.
  - apply (proj1 (delay_on_stalled_timer (dh := stm32f407xx) halted 999 5 tt
                    ltac:(intros d0; reflexivity))).
  - apply (proj1 (proj2 (proj2 (delay_on_stalled_timer (dh := stm32f407xx) halted
                                  1000 5 tt ltac:(intros d0; reflexivity))))).
    lia.
Defined.

(** ** USART configuration, register by register *)

Lemma seq_head {A} (f : Regs -> A) (g : A -> A) (c1 c2 : stmt) :
  preserves f c1 -> (forall s, f (c2 s) = g (f s)) ->
  forall s, f ((c1 ;; c2) s) = g (f s).
Proof. intros H1 H2 s. unfold seq. now rewrite H2, H1. Qed.

Lemma seq_tail {A} (f : Regs -> A) (g : A -> A) (c1 c2 : stmt) :
  (forall s, f (c1 s) = g (f s)) -> preserves f c2 ->
  forall s, f ((c1 ;; c2) s) = g (f s).
Proof. intros H1 H2 s. unfold seq. now rewrite H2, H1. Qed.

Lemma seq_both {A} (f : Regs -> A) (g1 g2 : A -> A) (c1 c2 : stmt) :
  (forall s, f (c1 s) = g1 (f s)) -> (forall s, f (c2 s) = g2 (f s)) ->
  forall s, f ((c1 ;; c2) s) = g2 (g1 (f s)).
Proof. intros H1 H2 s. unfold seq. now rewrite H2, H1. Qed.

Ltac skip_head f g :=
  let s0 := fresh "s" in
  intros s0; cbv beta; refine (seq_head f g _ _ _ _ s0); [frame|]; clear s0.

Lemma clear_then_set_field (c k w' pos w v : Z) :
  0 <= pos -> 0 <= w -> pos + w <= 32 ->
  (forall j, 0 <= j < w -> Z.testbit k (pos + j) = true) ->
  field pos w w' = v ->
  field pos w (u32 (u32 (c .& !~ k) .| w')) = v.
Proof.
  intros Hp Hw Hle Hk Hv.
  rewrite field_u32, field_or, field_u32 by lia.
  rewrite field_land_clear; [now rewrite Z.lor_0_l | lia | lia |].
  intros j Hj. rewrite not32_bits, Hk by lia. reflexivity.
Qed.

Lemma clear_then_set_outside (c k w' i : Z) :
  0 <= i < 32 -> Z.testbit k i = false -> Z.testbit w' i = false ->
  Z.testbit (u32 (u32 (c .& !~ k) .| w')) i = Z.testbit c i.
Proof.
  intros Hi Hk Hw.
  rewrite u32_bits, Z.lor_spec, u32_bits, Z.land_spec, not32_bits, Hk, Hw by lia.
  cbn. now rewrite andb_true_r, orb_false_r.
Qed.

Lemma bit_of_two (i : Z) : Z.testbit 2 i = (i =? 1).
Proof.
  destruct (Z.eqb_spec i 1) as [->|Hne]; [reflexivity|].
  destruct (Z.eq_dec i 0) as [->|Hnz]; [reflexivity|].
  apply (small_bits 2 2); lia.
Qed.

Section UsartRegisters.
Context {dh : DeviceHeader} {lh : LibHeader} {tc : Toolchain}.
Variable GPIOx : Z.
Variable brr_oversample_16 brr_oversample_8 : usart_config_st_t -> Z.

Lemma usart_config_CR1
    (usart_cfg : usart_config_st_t) (tx_GPIOx tx_gpio_pin rx_GPIOx rx_gpio_pin : Z) :
  forall s,
  CR1 (USART (snd (usart_config GPIOx brr_oversample_16 brr_oversample_8 usart_cfg
                     tx_GPIOx tx_gpio_pin rx_GPIOx rx_gpio_pin s)) (instance usart_cfg))
  = u32 (u32 (CR1 (USART s (instance usart_cfg))
              .& !~ ((3 << USART_CR1_RE_Pos) .| (1 << USART_CR1_PCE_Pos)
                     .| (1 << USART_CR1_PS_Pos) .| (1 << USART_CR1_M_Pos)
                     .| (1 << USART_CR1_OVER8_Pos) .| (1 << USART_CR1_UE_Pos)))
         .| u32 ((txrxmode usart_cfg << USART_CR1_RE_Pos)
                 .| (parity_en usart_cfg << USART_CR1_PCE_Pos)
                 .| (parity usart_cfg << USART_CR1_PS_Pos)
                 .| (wordlen usart_cfg << USART_CR1_M_Pos)
                 .| (oversample usart_cfg << USART_CR1_OVER8_Pos)
                 .| (1 << USART_CR1_UE_Pos))).
Proof.
  unfold usart_config. cbn [snd]. cbv zeta.
  unfold usart_clock_enable, gpio_clock_enable, mux_pins, set_alternate_function,
    program_baud_rate.
  pose (g := fun x : Z =>
    u32 (u32 (x .& !~ ((3 << USART_CR1_RE_Pos) .| (1 << USART_CR1_PCE_Pos)
                       .| (1 << USART_CR1_PS_Pos) .| (1 << USART_CR1_M_Pos)
                       .| (1 << USART_CR1_OVER8_Pos) .| (1 << USART_CR1_UE_Pos)))
         .| u32 ((txrxmode usart_cfg << USART_CR1_RE_Pos)
                 .| (parity_en usart_cfg << USART_CR1_PCE_Pos)
                 .| (parity usart_cfg << USART_CR1_PS_Pos)
                 .| (wordlen usart_cfg << USART_CR1_M_Pos)
                 .| (oversample usart_cfg << USART_CR1_OVER8_Pos)
                 .| (1 << USART_CR1_UE_Pos)))).
  do 7 skip_head (fun s : Regs => CR1 (USART s (instance usart_cfg))) g.
  intros s.
  refine (seq_tail (fun s : Regs => CR1 (USART s (instance usart_cfg))) g _ _ _ _ s);
    [|frame].
  intros s0. subst g. unfold seq, and_assign, or_assign. cbn.
  unfold upd. now rewrite !Z.eqb_refl.
Qed.

Lemma usart_config_CR2
    (usart_cfg : usart_config_st_t) (tx_GPIOx tx_gpio_pin rx_GPIOx rx_gpio_pin : Z) :
  forall s,
  CR2 (USART (snd (usart_config GPIOx brr_oversample_16 brr_oversample_8 usart_cfg
                     tx_GPIOx tx_gpio_pin rx_GPIOx rx_gpio_pin s)) (instance usart_cfg))
  = u32 (u32 (CR2 (USART s (instance usart_cfg)) .& !~ (3 << USART_CR2_STOP_Pos))
         .| u32 (stopbits usart_cfg << USART_CR2_STOP_Pos)).
Proof.
  unfold usart_config. cbn [snd]. cbv zeta.
  unfold usart_clock_enable, gpio_clock_enable, mux_pins, set_alternate_function,
    program_baud_rate.
  pose (g := fun x : Z =>
    u32 (u32 (x .& !~ (3 << USART_CR2_STOP_Pos))
         .| u32 (stopbits usart_cfg << USART_CR2_STOP_Pos))).
  do 8 skip_head (fun s : Regs => CR2 (USART s (instance usart_cfg))) g.
  intros s.
  refine (seq_tail (fun s : Regs => CR2 (USART s (instance usart_cfg))) g _ _ _ _ s);
    [|frame].
  intros s0. subst g. unfold seq, and_assign, or_assign. cbn.
  unfold upd. now rewrite !Z.eqb_refl.
Qed.

Lemma usart_config_AHB1ENR
    (usart_cfg : usart_config_st_t) (tx_GPIOx tx_gpio_pin rx_GPIOx rx_gpio_pin : Z) :
  forall s,
  AHB1ENR (RCC (snd (usart_config GPIOx brr_oversample_16 brr_oversample_8 usart_cfg
                       tx_GPIOx tx_gpio_pin rx_GPIOx rx_gpio_pin s)))
  = u32 (u32 (AHB1ENR (RCC s)
              .| (1 << u32 (Z.quot (ptrdiff sizeof_GPIO_TypeDef tx_GPIOx GPIOA)
                                   (ptrdiff_folded sizeof_GPIO_TypeDef GPIOB GPIOA))))
         .| (1 << u32 (Z.quot (ptrdiff sizeof_GPIO_TypeDef rx_GPIOx GPIOA)
                              (ptrdiff_folded sizeof_GPIO_TypeDef GPIOB GPIOA)))).
Proof.
  unfold usart_config. cbn [snd]. cbv zeta.
  unfold usart_clock_enable, gpio_clock_enable, mux_pins, set_alternate_function,
    program_baud_rate.
  pose (g1 := fun x : Z =>
    u32 (x .| (1 << u32 (Z.quot (ptrdiff sizeof_GPIO_TypeDef tx_GPIOx GPIOA)
                                (ptrdiff_folded sizeof_GPIO_TypeDef GPIOB GPIOA))))).
  pose (g2 := fun x : Z =>
    u32 (x .| (1 << u32 (Z.quot (ptrdiff sizeof_GPIO_TypeDef rx_GPIOx GPIOA)
                                (ptrdiff_folded sizeof_GPIO_TypeDef GPIOB GPIOA))))).
  skip_head (fun s : Regs => AHB1ENR (RCC s)) (fun x => g2 (g1 x)).
  intros s.
  refine (seq_both (fun s : Regs => AHB1ENR (RCC s)) g1 g2 _ _ _ _ s);
    [intros s0; reflexivity|].
  intros s0.
  refine (seq_tail (fun s : Regs => AHB1ENR (RCC s)) g2 _ _ _ _ s0);
    [intros s1; reflexivity | frame].
Qed.

Lemma usart_config_MODER
    (usart_cfg : usart_config_st_t) (tx_GPIOx tx_gpio_pin rx_GPIOx rx_gpio_pin : Z)
    (port : Z) :
  forall s,
  MODER (GPIO (snd (usart_config GPIOx brr_oversample_16 brr_oversample_8 usart_cfg
                      tx_GPIOx tx_gpio_pin rx_GPIOx rx_gpio_pin s)) port)
  = (fun x => if port =? rx_GPIOx then u32 (x .| (2 << (rx_gpio_pin * 2))) else x)
      ((fun x => if port =? tx_GPIOx then u32 (x .| (2 << (tx_gpio_pin * 2))) else x)
         (MODER (GPIO s port))).
Proof.
  unfold usart_config. cbn [snd]. cbv zeta.
  unfold usart_clock_enable, gpio_clock_enable, mux_pins, set_alternate_function,
    program_baud_rate.
  pose (g1 := fun x : Z =>
    if port =? tx_GPIOx then u32 (x .| (2 << (tx_gpio_pin * 2))) else x).
  pose (g2 := fun x : Z =>
    if port =? rx_GPIOx then u32 (x .| (2 << (rx_gpio_pin * 2))) else x).
  do 3 skip_head (fun s : Regs => MODER (GPIO s port)) (fun x => g2 (g1 x)).
  intros s.
  refine (seq_both (fun s : Regs => MODER (GPIO s port)) g1 g2 _ _ _ _ s).
  - intros s0. subst g1. unfold or_assign. cbn. unfold upd.
    destruct (Z.eqb_spec port tx_GPIOx) as [->|]; cbn; [|reflexivity].
    now rewrite or_onto_itself.
  - intros s0.
    refine (seq_tail (fun s : Regs => MODER (GPIO s port)) g2 _ _ _ _ s0); [|frame].
    intros s1. subst g2. unfold or_assign. cbn. unfold upd.
    destruct (Z.eqb_spec port rx_GPIOx) as [->|]; cbn; [|reflexivity].
    now rewrite or_onto_itself.
Qed.

Lemma usart_config_AFR
    (usart_cfg : usart_config_st_t) (tx_GPIOx tx_gpio_pin rx_GPIOx rx_gpio_pin : Z)
    (word : Z) :
  tx_enabled usart_cfg = true ->
  forall s,
  AFR (GPIO (snd (usart_config GPIOx brr_oversample_16 brr_oversample_8 usart_cfg
                    tx_GPIOx tx_gpio_pin rx_GPIOx rx_gpio_pin s)) GPIOA) word
  = (fun x =>
       if (USART1 =? instance usart_cfg) || (USART2 =? instance usart_cfg)
          || (USART3 =? instance usart_cfg)
       then if word =? tx_gpio_pin / 8 then u32 (x .| (7 << (tx_gpio_pin * 4))) else x
       else if (UART4 =? instance usart_cfg) || (UART5 =? instance usart_cfg)
               || (USART6 =? instance usart_cfg)
       then if word =? tx_gpio_pin / 8 then u32 (x .| (8 << (tx_gpio_pin * 4))) else x
       else x)
      (AFR (GPIO s GPIOA) word).
Proof.
  intros Htx.
  unfold usart_config. cbn [snd]. cbv zeta.
  unfold usart_clock_enable, gpio_clock_enable, mux_pins, set_alternate_function,
    program_baud_rate.
  rewrite Htx.
  pose (g := fun x : Z =>
    if (USART1 =? instance usart_cfg) || (USART2 =? instance usart_cfg)
       || (USART3 =? instance usart_cfg)
    then if word =? tx_gpio_pin / 8 then u32 (x .| (7 << (tx_gpio_pin * 4))) else x
    else if (UART4 =? instance usart_cfg) || (UART5 =? instance usart_cfg)
            || (USART6 =? instance usart_cfg)
    then if word =? tx_gpio_pin / 8 then u32 (x .| (8 << (tx_gpio_pin * 4))) else x
    else x).
  do 6 skip_head (fun s : Regs => AFR (GPIO s GPIOA) word) g.
  intros s.
  refine (seq_tail (fun s : Regs => AFR (GPIO s GPIOA) word) g _ _ _ _ s); [|frame].
  intros s0. subst g. cbv beta.
  destruct ((USART1 =? instance usart_cfg) || (USART2 =? instance usart_cfg)
            || (USART3 =? instance usart_cfg));
    [|destruct ((UART4 =? instance usart_cfg) || (UART5 =? instance usart_cfg)
                || (USART6 =? instance usart_cfg))];
    try reflexivity;
    unfold or_assign; cbn; unfold upd; rewrite Z.eqb_refl; cbn;
    (destruct (Z.eqb_spec word (tx_gpio_pin / 8)) as [->|];
     [now rewrite or_onto_itself | reflexivity]).
Qed.

(** X17: both pins get the alternate-function bit of their mode field set
    (pins 0 to 15), no even bit of any MODER changes and no MODER bit is
    cleared: a pin whose mode field had its low bit set before the call
    therefore ends in mode 3, not in alternate-function mode 2. *)
Theorem usart_config_pin_modes
    (usart_cfg : usart_config_st_t) (tx_GPIOx tx_gpio_pin rx_GPIOx rx_gpio_pin : Z)
    (s : Regs) :
  0 <= tx_gpio_pin < 16 ->
  0 <= rx_gpio_pin < 16 ->
  let s' := snd (usart_config GPIOx brr_oversample_16 brr_oversample_8 usart_cfg
                   tx_GPIOx tx_gpio_pin rx_GPIOx rx_gpio_pin s) in
  Z.testbit (MODER (GPIO s' tx_GPIOx)) (tx_gpio_pin * 2 + 1) = true
  /\ Z.testbit (MODER (GPIO s' rx_GPIOx)) (rx_gpio_pin * 2 + 1) = true
  /\ forall port i, 0 <= i < 32 ->
       (Z.even i = true ->
        Z.testbit (MODER (GPIO s' port)) i = Z.testbit (MODER (GPIO s port)) i)
       /\ (Z.testbit (MODER (GPIO s port)) i = true ->
           Z.testbit (MODER (GPIO s' port)) i = true).
Proof.
  intros Htx Hrx s'. subst s'.
  assert (forall x n i, 0 <= n < 32 -> 0 <= i < 32 ->
            Z.testbit (u32 (x .| (2 << n))) i = Z.testbit x i || (i =? n + 1)) as B.
  { intros x n i Hn Hi. rewrite u32_bits, Z.lor_spec, shl32_bits, bit_of_two by lia.
    f_equal. destruct (Z.eqb_spec (i - n) 1), (Z.eqb_spec i (n + 1)); try reflexivity; lia. }
  split; [|split].
  - rewrite usart_config_MODER. cbv beta. rewrite Z.eqb_refl.
    destruct (tx_GPIOx =? rx_GPIOx); rewrite ?B by lia;
      rewrite Z.eqb_refl; now rewrite ?orb_true_r.
  - rewrite usart_config_MODER. cbv beta. rewrite Z.eqb_refl.
    rewrite B, Z.eqb_refl by lia. apply orb_true_r.
  - intros port i Hi. rewrite usart_config_MODER. cbv beta.
    split.
    + intros Hev. apply Z.even_spec in Hev. destruct Hev as [h Hh].
      destruct (port =? rx_GPIOx), (port =? tx_GPIOx); rewrite ?B by lia;
        repeat match goal with
               | |- context [i =? ?n] =>
                   destruct (Z.eqb_spec i n); [exfalso; lia|]
               end; now rewrite ?orb_false_r.
    + intros Hset.
      destruct (port =? rx_GPIOx), (port =? tx_GPIOx); rewrite ?B by lia;
        now rewrite Hset.
Qed.

(** X18: what the call never touches.  USART blocks other than the
    configured one, the SysTick block and the RCC registers CR, PLLCFGR and
    CFGR are unchanged; the alternate-function registers of every port other
    than port A are unchanged, wherever the pins are; and the output type,
    speed and pull registers of every port other than [GPIOx] are unchanged. *)
Theorem usart_config_leaves_alone
    (usart_cfg : usart_config_st_t) (tx_GPIOx tx_gpio_pin rx_GPIOx rx_gpio_pin : Z)
    (s : Regs) :
  let s' := snd (usart_config GPIOx brr_oversample_16 brr_oversample_8 usart_cfg
                   tx_GPIOx tx_gpio_pin rx_GPIOx rx_gpio_pin s) in
  (forall u, u <> instance usart_cfg -> USART s' u = USART s u)
  /\ SysTick s' = SysTick s
  /\ (CR (RCC s') = CR (RCC s) /\ PLLCFGR (RCC s') = PLLCFGR (RCC s)
      /\ CFGR (RCC s') = CFGR (RCC s))
  /\ (forall port, port <> GPIOA -> AFR (GPIO s' port) = AFR (GPIO s port))
  /\ (forall port, port <> GPIOx ->
        OTYPER (GPIO s' port) = OTYPER (GPIO s port)
        /\ OSPEEDR (GPIO s' port) = OSPEEDR (GPIO s port)
        /\ PUPDR (GPIO s' port) = PUPDR (GPIO s port)).
Proof.
  intros s'. subst s'. unfold usart_config. cbn [snd]. cbv zeta.
  unfold usart_clock_enable, gpio_clock_enable, mux_pins, set_alternate_function,
    program_baud_rate.
  repeat match goal with
         | |- _ /\ _ => split
         | |- forall _, _ => intro
         end.
  all: match goal with
       | |- ?obs (seq ?c1 ?c2 ?s0) ?x = _ =>
           refine ((_ : preserves (fun s => obs s x) (seq c1 c2)) s0)
       | |- ?obs (seq ?c1 ?c2 ?s0) = _ =>
           refine ((_ : preserves (fun s => obs s) (seq c1 c2)) s0)
       | |- ?f (?obs (seq ?c1 ?c2 ?s0)) = _ =>
           refine ((_ : preserves (fun s => f (obs s)) (seq c1 c2)) s0)
       | |- ?f (?obs (seq ?c1 ?c2 ?s0) ?x) = _ =>
           refine ((_ : preserves (fun s => f (obs s x)) (seq c1 c2)) s0)
       end.
  all: frame.
Qed.

(** X19: with the transmitter enabled (transmit-only or both directions) and
    a transmit pin 0 to 7, the only alternate-function write is to the
    transmit pin's nibble in word 0 of port A: the nibble ends as its old
    value or-ed with 7 for USART1 to USART3 and with 8 for UART4, UART5 and
    USART6, every other alternate-function bit of port A is unchanged, and so
    the receive pin is never routed in the both-directions mode. *)
Theorem usart_config_routes_alternate_function
    (usart_cfg : usart_config_st_t) (tx_GPIOx tx_gpio_pin rx_GPIOx rx_gpio_pin : Z)
    (s : Regs) :
  tx_enabled usart_cfg = true ->
  0 <= tx_gpio_pin < 8 ->
  let s' := snd (usart_config GPIOx brr_oversample_16 brr_oversample_8 usart_cfg
                   tx_GPIOx tx_gpio_pin rx_GPIOx rx_gpio_pin s) in
  let family_7 := (USART1 =? instance usart_cfg) || (USART2 =? instance usart_cfg)
                  || (USART3 =? instance usart_cfg) in
  let family_8 := (UART4 =? instance usart_cfg) || (UART5 =? instance usart_cfg)
                  || (USART6 =? instance usart_cfg) in
  (forall word, word <> 0 -> AFR (GPIO s' GPIOA) word = AFR (GPIO s GPIOA) word)
  /\ (forall i, 0 <= i < 32 -> ~ tx_gpio_pin * 4 <= i < tx_gpio_pin * 4 + 4 ->
        Z.testbit (AFR (GPIO s' GPIOA) 0) i = Z.testbit (AFR (GPIO s GPIOA) 0) i)
  /\ (family_7 = true ->
      field (tx_gpio_pin * 4) 4 (AFR (GPIO s' GPIOA) 0)
      = field (tx_gpio_pin * 4) 4 (AFR (GPIO s GPIOA) 0) .| 7)
  /\ (family_7 = false -> family_8 = true ->
      field (tx_gpio_pin * 4) 4 (AFR (GPIO s' GPIOA) 0)
      = field (tx_gpio_pin * 4) 4 (AFR (GPIO s GPIOA) 0) .| 8).
Proof.
  intros Htx Hpin s' family_7 family_8. subst s'.
  assert (tx_gpio_pin / 8 = 0) as Hword by (apply Z.div_small; lia).
  split; [|split; [|split]].
  - intros word Hw. rewrite (usart_config_AFR _ _ _ _ _ word Htx). cbv beta.
    rewrite Hword. fold family_7 family_8.
    destruct (Z.eqb_spec word 0); [contradiction|].
    now destruct family_7, family_8.
  - intros i Hi Hout. rewrite (usart_config_AFR _ _ _ _ _ 0 Htx). cbv beta.
    rewrite Hword, Z.eqb_refl. fold family_7 family_8.
    destruct family_7; [|destruct family_8]; try reflexivity;
      rewrite u32_bits, Z.lor_spec, shl32_bits by lia.
    + rewrite (small_bits 7 4) by lia. apply orb_false_r.
    + rewrite (small_bits 8 4) by lia. apply orb_false_r.
  - intros H7. rewrite (usart_config_AFR _ _ _ _ _ 0 Htx). cbv beta.
    rewrite Hword, Z.eqb_refl. fold family_7. rewrite H7.
    now rewrite field_u32, field_or, field_shl_same by lia.
  - intros H7 H8. rewrite (usart_config_AFR _ _ _ _ _ 0 Htx). cbv beta.
    rewrite Hword, Z.eqb_refl. fold family_7 family_8. rewrite H7, H8.
    now rewrite field_u32, field_or, field_shl_same by lia.
Qed.

End UsartRegisters.

(** *** Frame format and port clocks on the STM32F407 layout *)

Section UsartOnF407.
Context {lh : LibHeader} {tc : Toolchain}.
Variable GPIOx : Z.
Variable brr_oversample_16 brr_oversample_8 : usart_config_st_t -> Z.

(** X15: the frame format reads back.  With every selector in range, the
    configured block's CR1 holds the transmit/receive mode, parity enable,
    parity, word length and oversampling selectors in their fields and has
    the enable bit set, CR2 holds the stop-bit selector, whatever the two
    registers held before, and every other bit of CR1 and CR2 is unchanged. *)
Theorem usart_config_programs_frame_format
    (usart_cfg : usart_config_st_t) (tx_GPIOx tx_gpio_pin rx_GPIOx rx_gpio_pin : Z)
    (s : Regs) :
  0 <= txrxmode usart_cfg < 4 ->
  0 <= parity_en usart_cfg < 2 ->
  0 <= parity usart_cfg < 2 ->
  0 <= wordlen usart_cfg < 2 ->
  0 <= oversample usart_cfg < 2 ->
  0 <= stopbits usart_cfg < 4 ->
  let u := USART s (instance usart_cfg) in
  let u' := USART (snd (usart_config (dh := stm32f407xx) GPIOx brr_oversample_16
                          brr_oversample_8 usart_cfg tx_GPIOx tx_gpio_pin rx_GPIOx
                          rx_gpio_pin s)) (instance usart_cfg) in
  field 2 2 (CR1 u') = txrxmode usart_cfg
  /\ field 10 1 (CR1 u') = parity_en usart_cfg
  /\ field 9 1 (CR1 u') = parity usart_cfg
  /\ field 12 1 (CR1 u') = wordlen usart_cfg
  /\ field 15 1 (CR1 u') = oversample usart_cfg
  /\ field 13 1 (CR1 u') = 1
  /\ (forall i, 0 <= i < 32 -> Z.testbit 0xB60C i = false ->
        Z.testbit (CR1 u') i = Z.testbit (CR1 u) i)
  /\ field 12 2 (CR2 u') = stopbits usart_cfg
  /\ (forall i, 0 <= i < 32 -> Z.testbit 0x3000 i = false ->
        Z.testbit (CR2 u') i = Z.testbit (CR2 u) i).
Proof.
  intros Hmode Hpe Hps Hwl Hos Hsb u u'. subst u u'.
  rewrite (usart_config_CR1 (dh := stm32f407xx)), (usart_config_CR2 (dh := stm32f407xx)).
  cbn [USART_CR1_RE_Pos USART_CR1_PCE_Pos USART_CR1_PS_Pos USART_CR1_M_Pos
       USART_CR1_OVER8_Pos USART_CR1_UE_Pos USART_CR2_STOP_Pos stm32f407xx].
  change ((3 << 2) .| (1 << 10) .| (1 << 9) .| (1 << 12) .| (1 << 15) .| (1 << 13))
    with 0xB60C.
  change (3 << 12) with 0x3000.
  set (m := txrxmode usart_cfg) in *. set (pe := parity_en usart_cfg) in *.
  set (ps := parity usart_cfg) in *. set (wl := wordlen usart_cfg) in *.
  set (os := oversample usart_cfg) in *. set (sb := stopbits usart_cfg) in *.
  assert (forall pos w, 0 <= pos -> 0 <= w -> pos + w <= 32 ->
            field pos w (u32 ((m << 2) .| (pe << 10) .| (ps << 9) .| (wl << 12)
                              .| (os << 15) .| (1 << 13)))
            = field pos w (m << 2) .| field pos w (pe << 10) .| field pos w (ps << 9)
              .| field pos w (wl << 12) .| field pos w (os << 15)
              .| field pos w (1 << 13)) as F.
  { intros pos w Hp Hw Hle. rewrite field_u32 by lia. now rewrite !field_or by lia. }
  split; [|split; [|split; [|split; [|split; [|split; [|split; [|split]]]]]]].
  - apply clear_then_set_field; [lia | lia | lia | each_index 2%nat |].
    rewrite F by lia. rewrite field_shl_same by lia.
    rewrite (field_shl_other 2 2 10 1), (field_shl_other 2 2 9 1),
      (field_shl_other 2 2 12 1), (field_shl_other 2 2 15 1),
      (field_shl_other 2 2 13 1) by lia.
    now rewrite !Z.lor_0_r.
  - apply clear_then_set_field; [lia | lia | lia | each_index 1%nat |].
    rewrite F by lia. rewrite field_shl_same by lia.
    rewrite (field_shl_other 10 1 2 2), (field_shl_other 10 1 9 1),
      (field_shl_other 10 1 12 1), (field_shl_other 10 1 15 1),
      (field_shl_other 10 1 13 1) by lia.
    now rewrite !Z.lor_0_r.
  - apply clear_then_set_field; [lia | lia | lia | each_index 1%nat |].
    rewrite F by lia. rewrite field_shl_same by lia.
    rewrite (field_shl_other 9 1 2 2), (field_shl_other 9 1 10 1),
      (field_shl_other 9 1 12 1), (field_shl_other 9 1 15 1),
      (field_shl_other 9 1 13 1) by lia.
    now rewrite !Z.lor_0_r.
  - apply clear_then_set_field; [lia | lia | lia | each_index 1%nat |].
    rewrite F by lia. rewrite field_shl_same by lia.
    rewrite (field_shl_other 12 1 2 2), (field_shl_other 12 1 10 1),
      (field_shl_other 12 1 9 1), (field_shl_other 12 1 15 1),
      (field_shl_other 12 1 13 1) by lia.
    now rewrite !Z.lor_0_r.
  - apply clear_then_set_field; [lia | lia | lia | each_index 1%nat |].
    rewrite F by lia. rewrite field_shl_same by lia.
    rewrite (field_shl_other 15 1 2 2), (field_shl_other 15 1 10 1),
      (field_shl_other 15 1 9 1), (field_shl_other 15 1 12 1),
      (field_shl_other 15 1 13 1) by lia.
    now rewrite !Z.lor_0_r.
  - apply clear_then_set_field; [lia | lia | lia | each_index 1%nat |].
    rewrite F by lia. rewrite field_shl_same by lia.
    rewrite (field_shl_other 13 1 2 2), (field_shl_other 13 1 10 1),
      (field_shl_other 13 1 9 1), (field_shl_other 13 1 12 1),
      (field_shl_other 13 1 15 1) by lia.
    now rewrite !Z.lor_0_r.
  - intros i Hi Hk. apply clear_then_set_outside; [assumption | assumption |].
    rewrite u32_bits, !Z.lor_spec, !shl32_bits by lia.
    revert i Hi Hk.
    apply (below_cases 32 (fun i => Z.testbit 0xB60C i = false -> _)).
    intros k Hk.
    do 32 (destruct k as [|k];
           [first [ discriminate
                  | intros _;
                    rewrite (small_bits m 2), (small_bits pe 1), (small_bits ps 1),
                      (small_bits wl 1), (small_bits os 1), (small_bits 1 1)
                      by (assumption || (cbn; lia));
                    reflexivity ] |]).
    lia.
  - apply clear_then_set_field; [lia | lia | lia | each_index 2%nat |].
    rewrite field_u32 by lia. apply field_shl_same; lia.
  - intros i Hi Hk. apply clear_then_set_outside; [assumption | assumption |].
    rewrite u32_bits, shl32_bits by lia.
    revert i Hi Hk.
    apply (below_cases 32 (fun i => Z.testbit 0x3000 i = false -> _)).
    intros k Hk.
    do 32 (destruct k as [|k];
           [first [ discriminate
                  | intros _; apply (small_bits sb 2); [assumption | cbn; lia] ] |]).
    lia.
Qed.

(** X16: the port clock enables.  The two stores to AHB1ENR never clear a
    bit of it, whatever the ports.  Ports A and F are the two ports of the
    device a whole number of 40-byte blocks away from port A (0 and 128
    blocks); with the constant divisor folded to 25 they get index 0 and 5,
    and a call on two of them sets the bits of both indexes and changes no
    other bit of AHB1ENR. *)
Theorem usart_config_port_clock_bits
    (usart_cfg : usart_config_st_t) (tx_GPIOx tx_gpio_pin rx_GPIOx rx_gpio_pin : Z)
    (s : Regs) :
  ptrdiff_folded 40 (GPIOB (DeviceHeader := stm32f407xx))
                    (GPIOA (DeviceHeader := stm32f407xx)) = 25 ->
  let s' := snd (usart_config (dh := stm32f407xx) GPIOx brr_oversample_16
                   brr_oversample_8 usart_cfg tx_GPIOx tx_gpio_pin
                   rx_GPIOx rx_gpio_pin s) in
  (forall i, 0 <= i < 32 -> Z.testbit (AHB1ENR (RCC s)) i = true ->
             Z.testbit (AHB1ENR (RCC s')) i = true)
  /\
  (forall k_tx k_rx,
     k_tx = 0 \/ k_tx = 5 ->
     k_rx = 0 \/ k_rx = 5 ->
     tx_GPIOx = GPIOA (DeviceHeader := stm32f407xx) + 0x400 * k_tx ->
     rx_GPIOx = GPIOA (DeviceHeader := stm32f407xx) + 0x400 * k_rx ->
     Z.testbit (AHB1ENR (RCC s')) k_tx = true
     /\ Z.testbit (AHB1ENR (RCC s')) k_rx = true
     /\ forall i, 0 <= i < 32 -> i <> k_tx -> i <> k_rx ->
                  Z.testbit (AHB1ENR (RCC s')) i = Z.testbit (AHB1ENR (RCC s)) i).
Proof.
  intros Hfold s'. subst s'. rewrite (usart_config_AHB1ENR (dh := stm32f407xx)).
  cbn [GPIOA GPIOB sizeof_GPIO_TypeDef stm32f407xx] in Hfold |- *.
  rewrite Hfold.
  split.
  - intros i Hi Hset.
    rewrite u32_bits, Z.lor_spec, u32_bits, Z.lor_spec, Hset by lia. reflexivity.
  - intros k_tx k_rx Htx Hrx -> ->.
    assert (u32 (Z.quot (ptrdiff 40 (0x40020000 + 0x400 * k_tx) 0x40020000) 25) = k_tx
            /\ 0 <= k_tx < 32) as [-> Ht]
      by (destruct Htx as [-> | ->]; split; (reflexivity || lia)).
    assert (u32 (Z.quot (ptrdiff 40 (0x40020000 + 0x400 * k_rx) 0x40020000) 25) = k_rx
            /\ 0 <= k_rx < 32) as [-> Hr]
      by (destruct Hrx as [-> | ->]; split; (reflexivity || lia)).
    split; [|split].
    + rewrite u32_bits, Z.lor_spec, u32_bits, Z.lor_spec, one_shl32_bits, Z.eqb_refl by lia.
      now rewrite orb_true_r.
    + rewrite u32_bits, Z.lor_spec, one_shl32_bits, Z.eqb_refl by lia.
      apply orb_true_r.
    + intros i Hi H1 H2.
      rewrite u32_bits, Z.lor_spec, u32_bits, Z.lor_spec, !one_shl32_bits by lia.
      destruct (Z.eqb_spec i k_tx); [contradiction|].
      destruct (Z.eqb_spec i k_rx); [contradiction|].
      now rewrite !orb_false_r.
Qed.

End UsartOnF407.

(** ** Concrete runs *)

Lemma MCO_Config_channel_1_fields_witness :
  let s' := MCO_Config (dh := stm32f407xx) (lh := aj_headers) 0 2 4 blank in
  field 21 2 (CFGR (RCC s')) = 2 /\ field 24 3 (CFGR (RCC s')) = 4.
Proof.
  pose proof (MCO_Config_channel_1_fields (dh := stm32f407xx) (lh := aj_headers) 2 4 blank
                ltac:(simpl; lia) ltac:(simpl; lia) ltac:(simpl; lia) ltac:(simpl; lia)
                ltac:(simpl; lia) ltac:(simpl; lia) ltac:(lia) ltac:(lia)) as H.
  cbv zeta in H. destruct H as (_ & _ & _ & _ & _ & H1 & H2 & _).
  split; [exact (H1 eq_refl) | exact (H2 eq_refl)].
Defined.

Lemma MCO_Config_channel_2_fields_witness :
  let s' := MCO_Config (dh := stm32f407xx) (lh := aj_headers) 1 3 5 blank in
  field 30 2 (CFGR (RCC s')) = 3 /\ field 27 3 (CFGR (RCC s')) = 5.
Proof.
  pose proof (MCO_Config_channel_2_fields (dh := stm32f407xx) (lh := aj_headers) 3 5 blank
                ltac:(simpl; lia)
                ltac:(simpl; lia) ltac:(simpl; lia) ltac:(simpl; lia) ltac:(simpl; lia)
                ltac:(simpl; lia) ltac:(simpl; lia) ltac:(lia) ltac:(lia)) as H.
  cbv zeta in H. destruct H as (_ & _ & _ & _ & _ & H1 & H2 & _).
  split; [exact (H1 eq_refl) | exact (H2 eq_refl)].
Defined.

Lemma MCO_Config_never_clears_a_bit_witness :
  0 <= 22 < 32
  /\ Z.testbit (CFGR (RCC (MCO_Config (dh := stm32f407xx) (lh := aj_headers) 0 0 0
                             (MCO_Config (dh := stm32f407xx) (lh := aj_headers) 0 3 6
                                blank)))) 22 = true.
Proof.
  split; [lia|].
  apply (proj1 (MCO_Config_never_clears_a_bit (dh := stm32f407xx) (lh := aj_headers)
                  0 0 0
                  (MCO_Config (dh := stm32f407xx) (lh := aj_headers) 0 3 6 blank)
                  0 22 ltac:(lia))).
  reflexivity.
Defined.

Lemma RCC_return_means_switched_witness :
  exists s',
    RCC_System_Clock_Source_Config (dh := stm32f407xx) (lh := aj_headers)
      (fun s => s) 1 1 0 None
      running_on_HSE
    = Done (s', None)
    /\ field 2 2 (CFGR (RCC s')) = 1
    /\ field 4 4 (CFGR (RCC s')) = 0.
Proof.
  destruct (returned_record_Done
              (RCC_System_Clock_Source_Config (dh := stm32f407xx) (lh := aj_headers)
                 (fun s => s) 1 1 0 None
                 running_on_HSE)
              None eq_refl) as [s' Hs'].
  exists s'. split; [exact Hs'|].
  destruct (RCC_return_means_switched (dh := stm32f407xx) (lh := aj_headers)
              (fun s => s) 1 1 0 None running_on_HSE s' None
              ltac:(simpl; lia) ltac:(simpl; lia) ltac:(simpl; lia) Hs')
    as (H1 & H2 & _).
  split; [exact H1 | exact H2].
Defined.

Lemma RCC_wide_selector_never_returns_witness :
  4 <= u32 4
  /\ forall r,
       RCC_System_Clock_Source_Config (dh := stm32f407xx) (lh := aj_headers)
         (responsive (dh := stm32f407xx)) 100 4 0 None blank <> Done r.
Proof.
  split; [cbn; lia|].
  apply (RCC_wide_selector_never_returns (dh := stm32f407xx) (lh := aj_headers)).
  cbn. lia.
Defined.

Lemma RCC_request_never_switches_off_witness :
  exists s',
    RCC_System_Clock_Source_Config (dh := stm32f407xx) (lh := aj_headers)
      (fun s => s) 1 1 0 None
      running_on_HSE
    = Done (s', None)
    /\ Z.testbit (CR (RCC s')) 0 = true.
Proof.
  destruct (returned_record_Done
              (RCC_System_Clock_Source_Config (dh := stm32f407xx) (lh := aj_headers)
                 (fun s => s) 1 1 0 None
                 running_on_HSE)
              None eq_refl) as [s' Hs'].
  exists s'. split; [exact Hs'|].
  apply (RCC_request_never_switches_off (dh := stm32f407xx) (lh := aj_headers)
           (fun s => s) 1 1 0 None running_on_HSE s' None 0);
    [lia | simpl; lia | reflexivity | exact Hs' | reflexivity].
Defined.

Lemma RCC_record_untouched_without_PLL_witness :
  RCC_System_Clock_Source_Config (dh := stm32f407xx) (lh := aj_headers)
    (fun s => s) 1 0 0 None all_sources_on <> Trap
  /\ exists s',
       RCC_System_Clock_Source_Config (dh := stm32f407xx) (lh := aj_headers)
         (fun s => s) 1 0 0 None all_sources_on = Done (s', None).
Proof.
  split.
  - apply (RCC_record_untouched_without_PLL (dh := stm32f407xx) (lh := aj_headers)).
    simpl. lia.
  - apply returned_record_Done. reflexivity.
Defined.

Lemma two_runs_returned {A B C : Type} (r1 : run (A * B)) (k : A * B -> run (A * C))
    (q : C) :
  returned_record (bind r1 k) = Some q ->
  exists s1 p1 s2, r1 = Done (s1, p1) /\ k (s1, p1) = Done (s2, q).
Proof.
  destruct r1 as [[s1 p1]| |]; cbn [bind]; intros H; try discriminate H.
  destruct (returned_record_Done _ _ H) as [s2 Hs2]. eauto.
Qed.

Lemma RCC_PLL_record_is_single_use_witness :
  exists s1 s2,
    RCC_System_Clock_Source_Config (dh := stm32f407xx) (lh := aj_headers)
      (responsive (dh := stm32f407xx)) 2 2 1 (Some (mkPLL 8 336 4 7)) blank
    = Done (s1, Some (mkPLL 8 336 1 7))
    /\ RCC_System_Clock_Source_Config (dh := stm32f407xx) (lh := aj_headers)
         (responsive (dh := stm32f407xx)) 2 2 1 (Some (mkPLL 8 336 1 7)) s1
       = Done (s2, Some (mkPLL 8 336 0xFFFFFFFF 7)).
Proof.
  destruct (two_runs_returned
              (RCC_System_Clock_Source_Config (dh := stm32f407xx) (lh := aj_headers)
                 (responsive (dh := stm32f407xx)) 2 2 1 (Some (mkPLL 8 336 4 7)) blank)
              (fun sp => RCC_System_Clock_Source_Config (dh := stm32f407xx)
                           (lh := aj_headers) (responsive (dh := stm32f407xx)) 2 2 1
                           (snd sp) (fst sp))
              (Some (mkPLL 8 336 0xFFFFFFFF 7)) eq_refl)
    as (s1 & p1 & s2 & H1 & H2).
  cbn [fst snd] in H2.
  destruct (RCC_PLL_record_is_single_use (dh := stm32f407xx) (lh := aj_headers)
              (responsive (dh := stm32f407xx)) 2 2 1 1 (mkPLL 8 336 4 7)
              blank s1 s2 p1 _
              ltac:(simpl; lia) ltac:(simpl; lia) ltac:(simpl; tauto) H1 H2)
    as (q & Hq & _).
  destruct (RCC_PLL_request_returns (mkPLL 8 336 4 7)) as [s1' Hs1'].
  rewrite H1 in Hs1'. inversion Hs1'. subst p1.
  exists s1, s2. split; [exact H1 | exact H2].
Defined.

Lemma usart_config_programs_frame_format_witness :
  let u' := USART (snd (usart_config (dh := stm32f407xx) (lh := aj_headers)
                          (tc := arm_toolchain)
                          0x40020000 (fun _ => 0) (fun _ => 0)
                          (mkUsartCfg 0x40011000 3 1 0 1 0 2 0 9600)
                          0x40020000 9 0x40020000 10
                          (mkRegs (RCC blank) (GPIO blank)
                                  (fun _ => mkUSART 0 0xFFFFFFFF 0xFFFFFFFF)
                                  (SysTick blank)))) 0x40011000 in
  field 2 2 (CR1 u') = 3 /\ field 12 2 (CR2 u') = 2.
Proof.
  pose proof (usart_config_programs_frame_format (lh := aj_headers)
                (tc := arm_toolchain)
                0x40020000 (fun _ => 0) (fun _ => 0)
                (mkUsartCfg 0x40011000 3 1 0 1 0 2 0 9600)
                0x40020000 9 0x40020000 10
                (mkRegs (RCC blank) (GPIO blank)
                        (fun _ => mkUSART 0 0xFFFFFFFF 0xFFFFFFFF) (SysTick blank))
                ltac:(simpl; lia) ltac:(simpl; lia) ltac:(simpl; lia)
                ltac:(simpl; lia) ltac:(simpl; lia) ltac:(simpl; lia)) as H.
  cbv zeta in H. destruct H as (H1 & _ & _ & _ & _ & _ & _ & H2 & _).
  split; [exact H1 | exact H2].
Defined.

Lemma usart_config_port_clock_bits_witness :
  let s' := snd (usart_config (dh := stm32f407xx) (lh := aj_headers)
                   (tc := arm_toolchain)
                   0x40020000 (fun _ => 0) (fun _ => 0)
                   (mkUsartCfg 0x40004800 3 0 0 0 0 0 0 115200)
                   0x40020000 10 0x40021400 9 blank) in
  ptrdiff_folded (tc := arm_toolchain) 40 0x40020400 0x40020000 = 25
  /\ Z.testbit (AHB1ENR (RCC s')) 0 = true
  /\ Z.testbit (AHB1ENR (RCC s')) 5 = true
  /\ Z.testbit (AHB1ENR (RCC s')) 1 = false.
Proof.
  pose proof (usart_config_port_clock_bits (lh := aj_headers) (tc := arm_toolchain)
                0x40020000 (fun _ => 0) (fun _ => 0)
                (mkUsartCfg 0x40004800 3 0 0 0 0 0 0 115200)
                0x40020000 10 0x40021400 9 blank eq_refl) as H.
  cbv zeta in H. destruct H as [_ H].
  destruct (H 0 5 (or_introl eq_refl) (or_intror eq_refl) eq_refl eq_refl)
    as (H0 & H5 & Hrest).
  split; [reflexivity|].
  split; [exact H0|]. split; [exact H5|].
  exact (eq_trans (Hrest 1 ltac:(lia) ltac:(lia) ltac:(lia)) eq_refl).
Defined.

Lemma usart_config_pin_modes_witness :
  let s' := snd (usart_config (dh := stm32f407xx) (lh := aj_headers)
                   (tc := arm_toolchain)
                   0x40020000 (fun _ => 0) (fun _ => 0)
                   (mkUsartCfg 0x40011000 3 0 0 0 0 0 0 9600)
                   0x40020000 9 0x40020000 10 blank) in
  Z.testbit (MODER (GPIO s' 0x40020000)) 19 = true
  /\ Z.testbit (MODER (GPIO s' 0x40020000)) 21 = true.
Proof.
  pose proof (usart_config_pin_modes (dh := stm32f407xx) (lh := aj_headers)
                (tc := arm_toolchain)
                0x40020000 (fun _ => 0) (fun _ => 0)
                (mkUsartCfg 0x40011000 3 0 0 0 0 0 0 9600)
                0x40020000 9 0x40020000 10 blank ltac:(lia) ltac:(lia)) as H.
  cbv zeta in H. destruct H as (H1 & H2 & _).
  split; [exact H1 | exact H2].
Defined.

Lemma usart_config_routes_alternate_function_witness :
  let s' := snd (usart_config (dh := stm32f407xx) (lh := aj_headers)
                   (tc := arm_toolchain)
                   0x40020000 (fun _ => 0) (fun _ => 0)
                   (mkUsartCfg 0x40004400 3 0 0 0 0 0 0 9600)
                   0x40020000 2 0x40020000 3 blank) in
  field 8 4 (AFR (GPIO s' 0x40020000) 0) = 7
  /\ field 12 4 (AFR (GPIO s' 0x40020000) 0) = 0.
Proof.
  pose proof (usart_config_routes_alternate_function (dh := stm32f407xx)
                (lh := aj_headers) (tc := arm_toolchain) 0x40020000 (fun _ => 0) (fun _ => 0)
                (mkUsartCfg 0x40004400 3 0 0 0 0 0 0 9600)
                0x40020000 2 0x40020000 3 blank eq_refl ltac:(lia)) as H.
  cbv zeta in H. destruct H as (_ & _ & H7 & _).
  split; [exact (H7 eq_refl) | reflexivity].
Defined.
